(** * NAV comparison reports: the alignment and normalisation pipeline

    A shallow embedding of the two report scripts of the repository,

      - 封闭式同业产品对比-V1.3.py  (closed-end products; module [Closed]),
      - 开放式同业产品对比-V1.2.py  (open-end products;  module [Open]),

    and of the pandas / numpy operations they call.  Both scripts read, per
    folder, one workbook per product, collect a date-indexed series per
    product, join the series into one wide table, resample it onto the daily
    calendar with [interpolate], and write the tables to a workbook.  The
    open-end script additionally normalises every non-reference product to
    its value on the first day the reference family has data.

    Conventions of the model.
      - A Python [str] is the list of its Unicode code points.
      - A date is its day number (an integer): the scripts only ever handle
        NAV dates, and times of day are not modelled.
      - A table cell is an IEEE binary64 number; pandas' null is NaN.
      - A raised Python exception is an explicit [Raise] result.
      - Text printed by the scripts is a list of [message]s. *)

From Stdlib Require Import ZArith NArith List Bool Lia Floats Sorted.
Import ListNotations.

Local Open Scope Z_scope.

(* ================================================================== *)
(** * Python strings *)

Definition str := list N.

Fixpoint str_eqb (a b : str) : bool :=
  match a, b with
  | [], [] => true
  | x :: a', y :: b' => N.eqb x y && str_eqb a' b'
  | _, _ => false
  end.

(** [s.startswith(p)] *)
Fixpoint startswith (s p : str) : bool :=
  match p, s with
  | [], _ => true
  | x :: p', y :: s' => N.eqb x y && startswith s' p'
  | _ :: _, [] => false
  end.

(** [s.endswith(p)] *)
Definition endswith (s p : str) : bool := startswith (rev s) (rev p).

(** [sub in s] for two strings: [sub] occurs in [s] as a substring. *)
Fixpoint contains (sub s : str) : bool :=
  startswith s sub ||
  match s with
  | [] => false
  | _ :: s' => contains sub s'
  end.

(** [x in l] for a list (or an Index) of strings. *)
Definition str_mem (x : str) (l : list str) : bool := existsb (str_eqb x) l.

(** The first entry under key [k] in a list of labelled entries (columns
    under their labels, a dict in insertion order). *)
Fixpoint assoc {A : Type} (k : str) (l : list (str * A)) : option A :=
  match l with
  | [] => None
  | (k', v) :: l' => if str_eqb k k' then Some v else assoc k l'
  end.

(** Assignment under key [k]: an existing entry keeps its place, a new one
    goes last. *)
Fixpoint assoc_set {A : Type} (k : str) (v : A) (l : list (str * A))
  : list (str * A) :=
  match l with
  | [] => [(k, v)]
  | (k', v') :: l' =>
      if str_eqb k k' then (k', v) :: l'
      else (k', v') :: assoc_set k v l'
  end.

(** The literals of the scripts. *)
Definition lit_xlsx : str := [0x2e; 0x78; 0x6c; 0x73; 0x78]%N.          (* '.xlsx' *)
Definition lit_tmp_prefix : str := [0x7e; 0x24]%N.                       (* '~$' *)
Definition lit_date : str := [0x64; 0x61; 0x74; 0x65]%N.                 (* 'date' *)
Definition lit_hist_nav : str := [0x5386; 0x53f2; 0x51c0; 0x503c]%N.     (* '历史净值' *)
Definition lit_hist : str := [0x5386; 0x53f2]%N.                         (* '历史' *)
Definition lit_latest_nav : str := [0x6700; 0x65b0; 0x51c0; 0x503c]%N.   (* '最新净值' *)
Definition lit_latest : str := [0x6700; 0x65b0]%N.                       (* '最新' *)
Definition lit_riqi : str := [0x65e5; 0x671f]%N.                         (* '日期' *)
Definition lit_unit_nav : str := [0x5355; 0x4f4d; 0x51c0; 0x503c]%N.     (* '单位净值' *)
Definition lit_reg_code : str := [0x767b; 0x8bb0; 0x7f16; 0x7801]%N.     (* '登记编码' *)
Definition lit_fab : str := [0x6cd5; 0x5df4]%N.                          (* '法巴' *)
Definition lit_fab_abc : str := [0x6cd5; 0x5df4; 0x519c; 0x94f6]%N.      (* '法巴农银' *)
Definition lit_unified : str :=
  [0xff08; 0x7edf; 0x4e00; 0x57fa; 0x51c6; 0xff09]%N.                    (* '（统一基准）' *)

(* ================================================================== *)
(** * Results of fallible calls *)

(** The Python exceptions the scripts can meet; [ReadFailure] stands for
    whatever a workbook raises when it is opened or a sheet is parsed. *)
Inductive exn :=
| ValueError | KeyError | TypeError | OverflowError | IndexError | ReadFailure.

Inductive result (A : Type) :=
| Ok (a : A)
| Raise (e : exn).
Arguments Ok {A} a.
Arguments Raise {A} e.

(* ================================================================== *)
(** * Cells: binary64 with NaN as null *)

(** [pd.isna] / [pd.notna] on a float cell. *)
Definition isna (x : float) : bool := PrimFloat.is_nan x.
Definition notna (x : float) : bool := negb (isna x).

(** The float of a row position ([np.arange] converted by [np.interp]). *)
Definition pos_float (i : nat) : float :=
  PrimFloat.of_uint63 (Uint63.of_Z (Z.of_nat i)).

(* ================================================================== *)
(** * numpy.interp and pandas' 1-d linear interpolation *)

(** One interpolated point between two neighbouring sample points, as
    numpy's [arr_interp] computes it: the slope form anchored at the left
    point, retried from the right point when that is NaN. *)
Definition lerp (p0 p1 : nat * float) (x : nat) : float :=
  let x0 := pos_float (fst p0) in
  let x1 := pos_float (fst p1) in
  let xv := pos_float x in
  let y0 := snd p0 in
  let y1 := snd p1 in
  let slope := ((y1 - y0) / (x1 - x0))%float in
  let r := (slope * (xv - x0) + y0)%float in
  if isna r then
    let r' := (slope * (xv - x1) + y1)%float in
    if isna r' && PrimFloat.eqb y0 y1 then y0 else r'
  else r.

(** The search of [np.interp] from a sample point [p0] at or left of [x]:
    the interval [xp[j] <= x < xp[j+1]] is found by walking the sorted
    sample points; at or beyond the last one the result is [fp[-1]]. *)
Fixpoint interp_scan (x : nat) (p0 : nat * float) (rest : list (nat * float))
  : float :=
  match rest with
  | [] => snd p0
  | p1 :: rest' =>
      if (x <? fst p1)%nat
      then (if (x =? fst p0)%nat then snd p0 else lerp p0 p1 x)
      else interp_scan x p1 rest'
  end.

(** [np.interp(x, xp, fp)] with the default [left = fp[0]], [right = fp[-1]];
    the sample points are given as pairs. *)
Definition np_interp (x : nat) (pts : list (nat * float)) : float :=
  match pts with
  | [] => nan
  | p0 :: rest => if (x <? fst p0)%nat then snd p0 else interp_scan x p0 rest
  end.

(** Rows of a column paired with their positions, from position [k]. *)
Fixpoint enumerate_from (k : nat) (y : list float) : list (nat * float) :=
  match y with
  | [] => []
  | v :: y' => (k, v) :: enumerate_from (S k) y'
  end.

(** [(indices[valid], yvalues[valid])]. *)
Definition valid_points_from (k : nat) (y : list float) : list (nat * float) :=
  filter (fun p => notna (snd p)) (enumerate_from k y).

Definition valid_points (y : list float) : list (nat * float) :=
  valid_points_from 0 y.

(** pandas [_interpolate_1d] for [method='linear'] with the defaults
    [limit=None], [limit_direction='forward'], [limit_area=None]:
    nothing to do when no cell is valid; otherwise every null cell receives
    [np.interp] over the valid cells, and then the cells before the first
    valid one ([start_nans], the only [preserve_nans] under these defaults)
    are set back to NaN. *)
Definition interpolate_1d (y : list float) : list float :=
  match valid_points y with
  | [] => y
  | ((first_valid, _) :: _) as pts =>
      map (fun p : nat * float =>
             if isna (snd p)
             then (if (fst p <? first_valid)%nat then nan
                   else np_interp (fst p) pts)
             else snd p)
          (enumerate_from 0 y)
  end.

(* ================================================================== *)
(** * Date-indexed series and tables *)

(** One product's frame as the scripts build it: index ['date'], a single
    value column. *)
Definition series := list (Z * float).

(** The value a series (or an index zipped with a column) holds at label
    [d]: the first row carrying that label. *)
Fixpoint lookup (d : Z) (s : series) : option float :=
  match s with
  | [] => None
  | (d', v) :: s' => if d =? d' then Some v else lookup d s'
  end.

Definition value_or_nan (o : option float) : float :=
  match o with
  | Some v => v
  | None => nan
  end.

Definition dates (s : series) : list Z := map fst s.

(** [d in index] *)
Definition date_mem (d : Z) (idx : list Z) : bool := existsb (Z.eqb d) idx.

(** A DataFrame: the row labels and, per column label, the cells in row
    order.  Every column of a frame built below is as long as the index. *)
Record frame := {
  index : list Z;
  columns : list (str * list float)
}.

(** [df.columns] *)
Definition labels (t : frame) : list str := map fst (columns t).

(** [df[c]]: the cells of the first column labelled [c]. *)
Definition column (c : str) (cols : list (str * list float)) : option (list float) :=
  assoc c cols.

(** The cell of a column at row label [d]; NaN when the label is absent. *)
Definition take (idx : list Z) (col : list float) (d : Z) : float :=
  value_or_nan (lookup d (combine idx col)).

(** [df.at[d, c]] where the label and the column exist; NaN otherwise. *)
Definition cell (t : frame) (d : Z) (c : str) : float :=
  match column c (columns t) with
  | Some col => take (index t) col d
  | None => nan
  end.

(** [df.reindex(new_index)]: rows are looked up by label, absent labels
    give null rows. *)
Definition reindex (t : frame) (new_index : list Z) : frame :=
  {| index := new_index;
     columns := map (fun c => (fst c, map (take (index t) (snd c)) new_index))
                    (columns t) |}.

(** Sorting of row labels. *)
Fixpoint insert_sorted (d : Z) (l : list Z) : list Z :=
  match l with
  | [] => [d]
  | x :: l' => if d <=? x then d :: l else x :: insert_sorted d l'
  end.

Definition sort (l : list Z) : list Z := fold_right insert_sorted [] l.

(** [df.sort_index()].  The tables it is applied to come out of [concat],
    whose row labels are pairwise distinct, so moving the rows into label
    order is looking them up in label order. *)
Definition sort_index (t : frame) : frame := reindex t (sort (index t)).

(** [Index.union] without sorting: labels in order of first appearance. *)
Definition index_union (a b : list Z) : list Z :=
  fold_left (fun acc d => if date_mem d acc then acc else acc ++ [d]) b a.

(** [pd.concat(frames, axis=1)] of one-column frames: outer join on the
    union of the indexes, one column per frame in the given order, null
    where a frame has no row for a label. *)
Definition concat (frames : list (str * series)) : frame :=
  let idx := fold_left (fun acc f => index_union acc (dates (snd f))) frames [] in
  {| index := idx;
     columns := map (fun f => (fst f, map (fun d => value_or_nan (lookup d (snd f))) idx))
                    frames |}.

(** [index.min()] and [index.max()]; [None] is NaT (an empty index). *)
Definition index_min (idx : list Z) : option Z :=
  match idx with
  | [] => None
  | d :: idx' => Some (fold_left Z.min idx' d)
  end.

Definition index_max (idx : list Z) : option Z :=
  match idx with
  | [] => None
  | d :: idx' => Some (fold_left Z.max idx' d)
  end.

(** The days [a, a+1, ...], [n] of them. *)
Fixpoint days_from (a : Z) (n : nat) : list Z :=
  match n with
  | O => []
  | S n' => a :: days_from (a + 1) n'
  end.

(** [pd.date_range(start, end, freq='D')]; NaT bounds raise ValueError. *)
Definition date_range (start stop : option Z) : result (list Z) :=
  match start, stop with
  | Some a, Some b => Ok (days_from a (Z.to_nat (b - a + 1)))
  | _, _ => Raise ValueError
  end.

(** [df.interpolate('linear')]: column by column, rows taken as equally
    spaced. *)
Definition interpolate (t : frame) : frame :=
  {| index := index t;
     columns := map (fun c => (fst c, interpolate_1d (snd c))) (columns t) |}.

(** [l[mask]] *)
Fixpoint mask_select {A : Type} (mask : list bool) (l : list A) : list A :=
  match mask, l with
  | b :: mask', x :: l' => if b then x :: mask_select mask' l' else mask_select mask' l'
  | _, _ => []
  end.

(** [df[mask]] for a boolean mask over the rows. *)
Definition select_rows (mask : list bool) (t : frame) : frame :=
  {| index := mask_select mask (index t);
     columns := map (fun c => (fst c, mask_select mask (snd c))) (columns t) |}.

(** [df[names]] for a list of column labels; unknown labels raise. *)
Fixpoint pick_columns (cols : list (str * list float)) (names : list str)
  : result (list (str * list float)) :=
  match names with
  | [] => Ok []
  | n :: names' =>
      match column n cols, pick_columns cols names' with
      | Some col, Ok rest => Ok ((n, col) :: rest)
      | None, _ => Raise KeyError
      | _, Raise e => Raise e
      end
  end.

Definition select_columns (t : frame) (names : list str) : result frame :=
  match pick_columns (columns t) names with
  | Ok cols => Ok {| index := index t; columns := cols |}
  | Raise e => Raise e
  end.

(** [df[c] = values]: replaces the column labelled [c] where it stands, or
    appends a new last column. *)
Definition setitem (t : frame) (c : str) (values : list float) : frame :=
  {| index := index t; columns := assoc_set c values (columns t) |}.

(** The row mask of [df.dropna(how='all')]: a row is kept when at least one
    of its cells is not null (no row is kept when there is no column). *)
Definition any_notna_mask (t : frame) : list bool :=
  map (fun d => existsb (fun c => notna (take (index t) (snd c) d)) (columns t))
      (index t).

Definition dropna_all (t : frame) : frame := select_rows (any_notna_mask t) t.

(** [groupby('date').last()] on rows without nulls: one row per date, in
    date order, holding the value of the last row of that date. *)
Fixpoint upsert (d : Z) (v : float) (s : series) : series :=
  match s with
  | [] => [(d, v)]
  | (d', v') :: s' =>
      if d <? d' then (d, v) :: s
      else if d =? d' then (d, v) :: s'
      else (d', v') :: upsert d v s'
  end.

Definition groupby_last (rows : list (Z * float)) : series :=
  fold_left (fun acc r => upsert (fst r) (snd r) acc) rows [].

(* ================================================================== *)
(** * Workbooks as pandas hands them to the scripts *)

(** A spreadsheet cell, as the scripts observe it: through [pd.isna]
    (inside [dropna]), [pd.to_datetime(errors='coerce')] ([None] is NaT),
    [pd.to_numeric(errors='coerce')] (NaN when not a number) and
    [astype(str)]. *)
Record xcell := {
  raw_isna : bool;
  as_datetime : option Z;
  as_numeric : float;
  as_str : str
}.

(** A parsed sheet: its column labels with their cells. *)
Definition sheet_table := list (str * list xcell).

(** A sheet of a workbook; [parse] is the result of [xls.parse(name)]. *)
Record sheet := {
  sheet_name : str;
  parse : result sheet_table
}.

(** A directory entry; [excel_file] is the result of [pd.ExcelFile(path)],
    the sheets in workbook order. *)
Record xlsx := {
  file_name : str;
  excel_file : result (list sheet)
}.

(** A sub-folder of the root directory with its listing. *)
Record folder := {
  folder_name : str;
  listing : list xlsx
}.

(** The product lookup table [df_query], row by row under its labels. *)
Record table := {
  t_labels : list str;
  t_rows : list (list xcell)
}.

(** What the scripts print. *)
Inductive message :=
| MsgFolder (name : str)            (* processing a folder *)
| MsgNoHistorySheet (file : str)    (* no historical-NAV sheet *)
| MsgNoDateOrNav (file : str)       (* no date or unit-NAV column *)
| MsgNoLatestSheet (file : str)     (* no latest-NAV sheet *)
| MsgNoCodeColumn (file : str)      (* latest-NAV sheet without code column *)
| MsgReadError (file : str)         (* an exception while reading a file *)
| MsgSkipped (name : str)           (* folder without NAV data, skipped *)
| MsgWritten (name : str).          (* report written *)

(** The sheets of a written report. *)
Inductive sheet_id :=
| NavData        (* '净值数据' *)
| PlotData       (* '作图数据' *)
| RawNav         (* '原始净值' *)
| UnifiedNav     (* '统一基准净值' *)
| RawPlot        (* '原始净值作图' *)
| UnifiedPlot    (* '统一基准作图' *)
| ProductInfo.   (* '产品信息' *)

Inductive sheet_body :=
| Frame (t : frame)
| Info (t : table).

(** One [chart.add_series({...})]: the cell of the series name
    [[sheet, row, col]], the ranges of the categories and of the values
    [[sheet, first_row, first_col, last_row, last_col]], and the line. *)
Record series_spec := {
  ss_name : sheet_id * nat * nat;
  ss_categories : sheet_id * nat * nat * nat * nat;
  ss_values : sheet_id * nat * nat * nat * nat;
  ss_color : str;
  ss_width : float
}.

(** A line chart: the worksheet it is inserted in (at 'H2') and its series
    in the order they are added.  Title, axis names, legend position and
    size are constants of the scripts and are left out. *)
Record chart := {
  chart_host : sheet_id;
  chart_series : list series_spec
}.

Record report := {
  report_folder : str;
  report_sheets : list (sheet_id * sheet_body);
  report_charts : list chart
}.

(** The state of the per-file loop. *)
Record loop_state := {
  product_nav : list (str * series);
  codes_in_folder : list str;
  stdout : list message
}.

Definition print (m : message) (st : loop_state) : loop_state :=
  {| product_nav := product_nav st;
     codes_in_folder := codes_in_folder st;
     stdout := stdout st ++ [m] |}.

(** [product_nav[k] = v] and [product_nav[k]] on the dict. *)
Definition dict_set (k : str) (v : series) (d : list (str * series))
  : list (str * series) :=
  assoc_set k v d.

Definition dict_get (k : str) (d : list (str * series)) : option series :=
  assoc k d.

(** [s.update(l)] on a set of strings. *)
Definition set_update (s l : list str) : list str :=
  fold_left (fun acc c => if str_mem c acc then acc else acc ++ [c]) l s.

Definition store_series (prod : str) (t : series) (st : loop_state) : loop_state :=
  {| product_nav := dict_set prod t (product_nav st);
     codes_in_folder := codes_in_folder st;
     stdout := stdout st |}.

Definition update_codes (codes : list str) (st : loop_state) : loop_state :=
  {| product_nav := product_nav st;
     codes_in_folder := set_update (codes_in_folder st) codes;
     stdout := stdout st |}.

(* ================================================================== *)
(** * Code shared by the two scripts *)

(** [os.path.splitext(filename)[0]] for a bare file name: cut at the last
    dot unless only dots precede it. *)
Fixpoint find_index (ch : N) (s : str) : option nat :=
  match s with
  | [] => None
  | x :: s' => if N.eqb x ch then Some O else option_map S (find_index ch s')
  end.

Definition rfind (ch : N) (s : str) : option nat :=
  option_map (fun k => (length s - 1 - k)%nat) (find_index ch (rev s)).

Definition splitext_root (p : str) : str :=
  match rfind 0x2e%N p with
  | Some k =>
      if existsb (fun ch => negb (N.eqb ch 0x2e%N)) (firstn k p)
      then firstn k p else p
  | None => p
  end.

(** The character class [[一-龥A-Za-z0-9（）()]]. *)
Definition name_char (c : N) : bool :=
  ((0x4e00 <=? c) && (c <=? 0x9fa5) ||
   (0x41 <=? c) && (c <=? 0x5a) ||
   (0x61 <=? c) && (c <=? 0x7a) ||
   (0x30 <=? c) && (c <=? 0x39) ||
   (c =? 0xff08) || (c =? 0xff09) || (c =? 0x28) || (c =? 0x29))%N.

Fixpoint take_while (f : N -> bool) (s : str) : str :=
  match s with
  | [] => []
  | x :: s' => if f x then x :: take_while f s' else []
  end.

Fixpoint drop_while (f : N -> bool) (s : str) : str :=
  match s with
  | [] => []
  | x :: s' => if f x then drop_while f s' else s
  end.

(** [re.search(r'[...]+$', name)]: the longest run of class characters that
    ends the name ([$] also matches before one final newline); [None] when
    that run is empty. *)
Definition search_trailing_name (name : str) : option str :=
  let r := rev name in
  let r := match r with
           | 0x0a%N :: r' => r'
           | _ => r
           end in
  match rev (take_while name_char r) with
  | [] => None
  | m => Some m
  end.

(** [str.isspace] *)
Definition isspace (c : N) : bool :=
  ((0x09 <=? c) && (c <=? 0x0d) || (0x1c <=? c) && (c <=? 0x20) ||
   (c =? 0x85) || (c =? 0xa0) || (c =? 0x1680) ||
   (0x2000 <=? c) && (c <=? 0x200a) ||
   (c =? 0x2028) || (c =? 0x2029) || (c =? 0x202f) || (c =? 0x205f) ||
   (c =? 0x3000))%N.

(** [s.strip()] *)
Definition strip (s : str) : str :=
  rev (drop_while isspace (rev (drop_while isspace s))).

(** The first sheet whose name contains one of the two markers. *)
Definition find_sheet (full short : str) (sheets : list sheet) : option sheet :=
  find (fun s => contains full (sheet_name s) || contains short (sheet_name s)) sheets.

(** The first column whose label contains [marker]. *)
Definition find_column (marker : str) (t : sheet_table) : option (str * list xcell) :=
  find (fun c => contains marker (fst c)) t.

(** [df[c]] on a parsed sheet: the first column labelled exactly [c]. *)
Definition sheet_column (c : str) (t : sheet_table) : option (list xcell) :=
  assoc c t.

(** The series of one file from its date and NAV columns:
<<
      tmp = df_hist[[date_col, nav_col]].dropna()
      tmp.columns = ['date', prod_name]
      tmp['date'] = pd.to_datetime(tmp['date'], errors='coerce')
      tmp[prod_name] = pd.to_numeric(tmp[prod_name], errors='coerce')
      tmp = tmp.dropna(subset=['date', prod_name]).groupby('date').last()
>>
    A product called ['date'] gives two columns of that label, and
    [pd.to_datetime] of the two-column selection raises ValueError. *)
Definition coerce_row (r : xcell * xcell) : option Z * float :=
  (as_datetime (fst r), as_numeric (snd r)).

Definition keep_row (r : option Z * float) : list (Z * float) :=
  match fst r with
  | Some d => if isna (snd r) then [] else [(d, snd r)]
  | None => []
  end.

(** The rows that reach [groupby], in sheet order. *)
Definition usable_rows (date_cells nav_cells : list xcell) : list (Z * float) :=
  let tmp := filter (fun r => negb (raw_isna (fst r)) && negb (raw_isna (snd r)))
                    (combine date_cells nav_cells) in
  flat_map keep_row (map coerce_row tmp).

Definition history_series (prod_name : str) (date_cells nav_cells : list xcell)
  : result series :=
  if str_eqb prod_name lit_date then Raise ValueError
  else Ok (groupby_last (usable_rows date_cells nav_cells)).

(** [df['登记编码'].dropna().astype(str).tolist()] *)
Definition code_list (cells : list xcell) : list str :=
  map as_str (filter (fun c => negb (raw_isna c)) cells).

(** [df_query[df_query['登记编码'].astype(str).isin(codes_in_folder)]] *)
Fixpoint label_pos (c : str) (ls : list str) : option nat :=
  match ls with
  | [] => None
  | c' :: ls' => if str_eqb c c' then Some O else option_map S (label_pos c ls')
  end.

Definition blank_cell : xcell :=
  {| raw_isna := true; as_datetime := None; as_numeric := nan; as_str := [] |}.

Definition filter_by_codes (df_query : table) (codes : list str) : result table :=
  match label_pos lit_reg_code (t_labels df_query) with
  | None => Raise KeyError
  | Some k =>
      let mask := map (fun r => str_mem (as_str (nth k r blank_cell)) codes)
                      (t_rows df_query) in
      Ok {| t_labels := t_labels df_query;
            t_rows := mask_select mask (t_rows df_query) |}
  end.

(** The folders are processed one after the other; an exception that
    escapes a folder ends the run. *)
Record session := {
  printed : list message;
  written : list report;
  crashed : option exn
}.

Definition run_folders (process : folder -> list message * result (option report))
  : list folder -> session :=
  fix go (folders : list folder) : session :=
    match folders with
    | [] => {| printed := []; written := []; crashed := None |}
    | fd :: rest =>
        match process fd with
        | (msgs, Raise e) =>
            {| printed := msgs; written := []; crashed := Some e |}
        | (msgs, Ok out) =>
            let r := go rest in
            {| printed := msgs ++ printed r;
               written := match out with
                          | Some rep => rep :: written r
                          | None => written r
                          end;
               crashed := crashed r |}
        end
    end.

(** An error-propagating sequence of steps. *)
Definition bind {A B : Type} (r : result A) (k : A -> result B) : result B :=
  match r with
  | Ok a => k a
  | Raise e => Raise e
  end.

Notation "x <- r ;; k" := (bind r (fun x => k))
  (at level 61, r at next level, right associativity).

(** [pd.concat(product_nav.values(), axis=1).sort_index()] *)
Definition merge (product_nav : list (str * series)) : frame :=
  sort_index (concat product_nav).

(** [pd.date_range(df.index.min(), df.index.max(), freq='D')] *)
Definition calendar (t : frame) : result (list Z) :=
  date_range (index_min (index t)) (index_max (index t)).

(** [df.reindex(full_idx).interpolate('linear')] *)
Definition resample (t : frame) (full_idx : list Z) : frame :=
  interpolate (reindex t full_idx).

Definition initial_state (fd : folder) : loop_state :=
  {| product_nav := []; codes_in_folder := []; stdout := [MsgFolder (folder_name fd)] |}.

Definition is_loaded (df_query : option table) : bool :=
  match df_query with
  | Some _ => true
  | None => false
  end.

(* ================================================================== *)
(** * Laying a table out on a sheet *)

Definition lit_nav_date : str := [0x51c0; 0x503c; 0x65e5; 0x671f]%N.   (* '净值日期' *)
Definition lit_index : str := [0x69; 0x6e; 0x64; 0x65; 0x78]%N.         (* 'index' *)
Definition lit_level_0 : str :=
  [0x6c; 0x65; 0x76; 0x65; 0x6c; 0x5f; 0x30]%N.                         (* 'level_0' *)

(** [df.reset_index()]: the row labels become the first column, under the
    name of the index; an index without name gives the column 'index', or
    'level_0' when a column 'index' is there already.  ValueError when a
    column of the chosen name exists.  The result is given by its column
    labels; the rows stay the same. *)
Definition reset_index (name : option str) (t : frame) : result (list str) :=
  let label :=
    match name with
    | Some n => n
    | None => if str_mem lit_index (labels t) then lit_level_0 else lit_index
    end in
  if str_mem label (labels t) then Raise ValueError else Ok (label :: labels t).

(* ================================================================== *)
(** * The line colours of the chart *)

(** Python's [int(x)] on a float: truncation towards zero; ValueError on
    NaN, OverflowError on an infinity. *)
Definition py_int (x : float) : result Z :=
  match Prim2SF x with
  | S754_zero _ => Ok 0
  | S754_finite s m e =>
      let a := if 0 <=? e then Z.pos m * 2 ^ e else Z.pos m / 2 ^ (- e) in
      Ok (if s then - a else a)
  | S754_nan => Raise ValueError
  | S754_infinity _ => Raise OverflowError
  end.

(** The float of a Python int (exact below 2^53). *)
Definition float_of_Z (z : Z) : float :=
  if z <? 0 then (- PrimFloat.of_uint63 (Uint63.of_Z (- z)))%float
  else PrimFloat.of_uint63 (Uint63.of_Z z).

(** [colorsys.hsv_to_rgb] *)
Definition hsv_to_rgb (h s v : float) : result (float * float * float) :=
  if PrimFloat.eqb s 0%float then Ok (v, v, v)
  else
    i <- py_int (h * 6)%float;;
    let f := (h * 6 - float_of_Z i)%float in
    let p := (v * (1 - s))%float in
    let q := (v * (1 - s * f))%float in
    let t := (v * (1 - s * (1 - f)))%float in
    let i := i mod 6 in
    if i =? 0 then Ok (v, t, p)
    else if i =? 1 then Ok (q, v, p)
    else if i =? 2 then Ok (p, v, t)
    else if i =? 3 then Ok (p, q, v)
    else if i =? 4 then Ok (t, p, v)
    else Ok (v, p, q).

(** Upper-case hexadecimal digits of a natural number, most significant
    first; the fuel bounds the number of digits. *)
Definition hex_digit (d : N) : N :=
  (if d <? 10 then 0x30 + d else 0x41 + (d - 10))%N.

Fixpoint hex_digits (fuel : nat) (n : N) (acc : str) : str :=
  match fuel with
  | O => acc
  | S fuel' =>
      let acc' := hex_digit (n mod 16)%N :: acc in
      if (n / 16 =? 0)%N then acc' else hex_digits fuel' (n / 16)%N acc'
  end.

Definition hex_upper (n : N) : str := hex_digits (S (N.to_nat (N.log2 n))) n [].

(** ['{:02X}'.format(z)]: zero padded to width 2, the sign counted. *)
Definition format_02X (z : Z) : str :=
  let ds := hex_upper (Z.abs_N z) in
  if z <? 0 then
    0x2d%N :: (if (length ds <? 1)%nat then [0x30%N] else []) ++ ds
  else
    repeat 0x30%N (2 - length ds) ++ ds.

(** The colour string ['#{:02X}{:02X}{:02X}'] of the three [int(c*255)]. *)
Definition color_of_rgb (rgb : float * float * float) : result str :=
  let '(r, g, b) := rgb in
  r' <- py_int (r * 255)%float;;
  g' <- py_int (g * 255)%float;;
  b' <- py_int (b * 255)%float;;
  Ok (0x23%N :: format_02X r' ++ format_02X g' ++ format_02X b').

(** The literals [0.4] and [0.502], and [120/360]. *)
Definition lit_0_4 : float := 0x1.999999999999ap-2%float.
Definition lit_0_502 : float := 0x1.010624dd2f1aap-1%float.
Definition green_hue : float := (120 / 360)%float.

(** The [i]-th of [n] greens:
    [hsv_to_rgb(h, 1-0.4*(i/max(n-1,1)), 0.502+0.4*(i/max(n-1,1)))]. *)
Definition green_at (n i : nat) : result str :=
  let x := (pos_float i / pos_float (Nat.max (n - 1) 1))%float in
  rgb <- hsv_to_rgb green_hue (1 - lit_0_4 * x)%float (lit_0_502 + lit_0_4 * x)%float;;
  color_of_rgb rgb.

(** [[f(x) for x in l]] where [f] may raise: the first exception wins. *)
Fixpoint all_ok {A : Type} (l : list (result A)) : result (list A) :=
  match l with
  | [] => Ok []
  | Ok a :: l' => r <- all_ok l';; Ok (a :: r)
  | Raise e :: _ => Raise e
  end.

(** [gen_green(n)] (the same function in both scripts). *)
Definition gen_green (n : nat) : result (list str) :=
  all_ok (map (green_at n) (seq 0 n)).

(** [non_green] / [other_cols]: the palette of the other products. *)
Definition other_cols : list str := [
  [0x23; 0x35; 0x42; 0x39; 0x42; 0x44; 0x35]%N;   (* '#5B9BD5' *)
  [0x23; 0x45; 0x44; 0x37; 0x44; 0x33; 0x31]%N;   (* '#ED7D31' *)
  [0x23; 0x46; 0x46; 0x43; 0x30; 0x30; 0x30]%N;   (* '#FFC000' *)
  [0x23; 0x34; 0x34; 0x37; 0x32; 0x43; 0x34]%N;   (* '#4472C4' *)
  [0x23; 0x41; 0x35; 0x41; 0x35; 0x41; 0x35]%N;   (* '#A5A5A5' *)
  [0x23; 0x46; 0x46; 0x36; 0x36; 0x36; 0x36]%N;   (* '#FF6666' *)
  [0x23; 0x38; 0x45; 0x34; 0x34; 0x41; 0x44]%N;   (* '#8E44AD' *)
  [0x23; 0x32; 0x43; 0x33; 0x45; 0x35; 0x30]%N    (* '#2C3E50' *)
].

(* ================================================================== *)
(** * The comparison chart *)

(** [enumerate(l)] *)
Definition enumerate {A : Type} (l : list A) : list (nat * A) :=
  combine (seq 0 (length l)) l.

(** [l[i]] *)
Definition list_get {A : Type} (l : list A) (i : nat) : result A :=
  match nth_error l i with
  | Some a => Ok a
  | None => Raise IndexError
  end.

(** [l.index(x)] *)
Definition list_index (x : str) (l : list str) : result nat :=
  match label_pos x l with
  | Some k => Ok k
  | None => Raise ValueError
  end.

(** The series of the data column at sheet column [idx]. *)
Definition line_series (sheet : sheet_id) (nrows idx : nat) (color : str)
  : series_spec :=
  {| ss_name := (sheet, O, idx);
     ss_categories := (sheet, 1%nat, O, nrows, O);
     ss_values := (sheet, 1%nat, idx, nrows, idx);
     ss_color := color;
     ss_width := 2%float |}.

(** What [Index.get_loc] returns: an integer position for a label that
    occurs once, and for a label that occurs more often a slice when the
    labels are in non-decreasing order, a boolean mask otherwise. *)
Inductive loc :=
| Pos (k : nat)
| Slice
| Mask.

(** [a <= b] on Python strings: lexicographic on the code points. *)
Fixpoint str_leb (a b : str) : bool :=
  match a, b with
  | [], _ => true
  | _ :: _, [] => false
  | x :: a', y :: b' =>
      if (x <? y)%N then true
      else if (x =? y)%N then str_leb a' b'
      else false
  end.

(** [Index.is_monotonic_increasing] *)
Fixpoint is_monotonic_increasing (l : list str) : bool :=
  match l with
  | a :: l' =>
      match l' with
      | b :: _ => str_leb a b && is_monotonic_increasing l'
      | [] => true
      end
  | [] => true
  end.

(** [df.columns.get_loc(nm)] *)
Definition get_loc (nm : str) (df_columns : list str) : result loc :=
  match length (filter (str_eqb nm) df_columns), label_pos nm df_columns with
  | 1%nat, Some k => Ok (Pos k)
  | S (S _), _ => Ok (if is_monotonic_increasing df_columns then Slice else Mask)
  | _, _ => Raise KeyError
  end.

(** [chart.add_series({...})] with the column given by [idx]: xlsxwriter
    turns the row and column numbers into a cell name, comparing them with
    0 on the way, which is a TypeError for a slice and (the truth value of
    an array being ambiguous) a ValueError for a mask. *)
Definition add_series (sheet : sheet_id) (nrows : nat) (idx : loc) (color : str)
  : result series_spec :=
  match idx with
  | Pos i => Ok (line_series sheet nrows i color)
  | Slice => Raise TypeError
  | Mask => Raise ValueError
  end.

(* ================================================================== *)
(** * 封闭式同业产品对比-V1.3.py *)

Module Closed.

Definition extract_product_name (filename : str) : str :=
  let name := splitext_root filename in
  match search_trailing_name name with
  | Some m => m
  | None => name
  end.

(** Lines 66-82 of the [try] block. *)
Definition history_part (file prod_name : str) (sheets : list sheet)
    (st : loop_state) : result loop_state :=
  match find_sheet lit_hist_nav lit_hist sheets with
  | Some sheet_hist =>
      df_hist <- parse sheet_hist;;
      match find_column lit_riqi df_hist, find_column lit_unit_nav df_hist with
      | Some date_col, Some nav_col =>
          tmp <- history_series prod_name (snd date_col) (snd nav_col);;
          Ok (store_series prod_name tmp st)
      | _, _ => Ok (print (MsgNoDateOrNav file) st)
      end
  | None => Ok (print (MsgNoHistorySheet file) st)
  end.

(** Lines 84-95 of the [try] block. *)
Definition latest_part (df_query : option table) (file : str)
    (sheets : list sheet) (st : loop_state) : result loop_state :=
  if is_loaded df_query then
    match find_sheet lit_latest_nav lit_latest sheets with
    | Some sheet_latest =>
        df_latest <- parse sheet_latest;;
        match sheet_column lit_reg_code df_latest with
        | Some cells => Ok (update_codes (code_list cells) st)
        | None => Ok (print (MsgNoCodeColumn file) st)
        end
    | None => Ok (print (MsgNoLatestSheet file) st)
    end
  else Ok st.

(** The [try] block: the state reached, and the exception if one was
    raised (what was stored before it stays stored). *)
Definition try_block (df_query : option table) (f : xlsx) (st : loop_state)
  : loop_state * option exn :=
  let prod_name := extract_product_name (file_name f) in
  match excel_file f with
  | Raise e => (st, Some e)
  | Ok sheets =>
      match history_part (file_name f) prod_name sheets st with
      | Raise e => (st, Some e)
      | Ok st1 =>
          match latest_part df_query (file_name f) sheets st1 with
          | Raise e => (st1, Some e)
          | Ok st2 => (st2, None)
          end
      end
  end.

(** One turn of [for file_name in file_list]. *)
Definition file_step (df_query : option table) (st : loop_state) (f : xlsx)
  : loop_state :=
  match try_block df_query f st with
  | (st', None) => st'
  | (st', Some _) => print (MsgReadError (file_name f)) st'
  end.

Definition file_list (fd : folder) : list xlsx :=
  filter (fun f => endswith (file_name f) lit_xlsx) (listing fd).

Definition read_folder (df_query : option table) (fd : folder) : loop_state :=
  fold_left (file_step df_query) (file_list fd) (initial_state fd).

Definition merged_nav (product_nav : list (str * series)) : frame :=
  merge product_nav.

Definition full_idx (product_nav : list (str * series)) : result (list Z) :=
  calendar (merged_nav product_nav).

Definition plot_nav (product_nav : list (str * series)) : result frame :=
  idx <- full_idx product_nav;;
  Ok (resample (merged_nav product_nav) idx).

(** The optional product-information sheet. *)
Definition df_info (df_query : option table) (codes : list str)
  : result (list (sheet_id * sheet_body)) :=
  match df_query, codes with
  | Some q, _ :: _ =>
      info <- filter_by_codes q codes;;
      Ok [(ProductInfo, Info info)]
  | _, _ => Ok []
  end.

(** Lines 129-172: the chart over [df_plot], given by its column labels
    and its number of rows.  A product column stands in the sheet where it
    stands in [df_plot]: one place to the right of its place in
    [cols = df_plot.columns[1:]]. *)
Definition insert_chart (df_plot : list str) (nrows : nat) : result chart :=
  let cols := tl df_plot in
  let fab_list := filter (contains lit_fab_abc) cols in
  let other := filter (fun c => negb (str_mem c fab_list)) cols in
  green_colors <- gen_green (length fab_list);;
  green_series <-
    all_ok (map (fun e : nat * str =>
                   idx <- list_index (snd e) cols;;
                   color <- list_get green_colors (fst e);;
                   add_series PlotData nrows (Pos (S idx)) color)
                (enumerate fab_list));;
  other_series <-
    all_ok (map (fun e : nat * str =>
                   idx <- list_index (snd e) cols;;
                   color <- list_get other_cols (fst e mod length other_cols);;
                   add_series PlotData nrows (Pos (S idx)) color)
                (enumerate other));;
  Ok {| chart_host := NavData; chart_series := green_series ++ other_series |}.

(** One turn of [for folder in folders]: what is printed, and the report
    written ([None] when the folder is skipped) or the exception that
    escapes.  Inside the [with] block the steps are those of lines 114-172
    in their order: the two [reset_index] calls (the index of both tables
    is named '净值日期', lines 103 and 107), the product information, the
    chart.  A report stands for a workbook whose [with] block ran to its
    end; what is saved of a workbook whose block raises is not modelled. *)
Definition process_folder (df_query : option table) (fd : folder)
  : list message * result (option report) :=
  let st := read_folder df_query fd in
  match product_nav st with
  | [] => (stdout st ++ [MsgSkipped (folder_name fd)], Ok None)
  | _ :: _ =>
      match
        (plot <- plot_nav (product_nav st);;
         df_out <- reset_index (Some lit_nav_date) (merged_nav (product_nav st));;
         df_plot <- reset_index (Some lit_nav_date) plot;;
         info <- df_info df_query (codes_in_folder st);;
         chart <- insert_chart df_plot (length (index plot));;
         Ok {| report_folder := folder_name fd;
               report_sheets :=
                 [(NavData, Frame (merged_nav (product_nav st)));
                  (PlotData, Frame plot)] ++ info;
               report_charts := [chart] |})
      with
      | Ok rep => (stdout st ++ [MsgWritten (folder_name fd)], Ok (Some rep))
      | Raise e => (stdout st, Raise e)
      end
  end.

Definition run (df_query : option table) (folders : list folder) : session :=
  run_folders (process_folder df_query) folders.

End Closed.

(* ================================================================== *)
(** * 开放式同业产品对比-V1.2.py *)

Module Open.

Definition desired_info_cols : list str := [
  [0x7406; 0x8d22; 0x4ea7; 0x54c1; 0x540d; 0x79f0]%N;
    (* '理财产品名称' *)
  [0x6700; 0x65e9; 0x5b9e; 0x9645; 0x6210; 0x7acb; 0x65e5; 0x671f]%N;
    (* '最早实际成立日期' *)
  [0x6700; 0x65e9; 0x5b9e; 0x9645; 0x7ed3; 0x675f; 0x65e5; 0x671f]%N;
    (* '最早实际结束日期' *)
  [0x6295; 0x8d44; 0x5468; 0x671f; 0xff08; 0x5929; 0xff09]%N;
    (* '投资周期（天）' *)
  [0x4e1a; 0x7ee9; 0x6bd4; 0x8f83; 0x57fa; 0x51c6; 0xff08; 0x25; 0xff09]%N;
    (* '业绩比较基准（%）' *)
  [0x6700; 0x65b0; 0x9500; 0x552e; 0x8d39; 0x28; 0x25; 0x29]%N;
    (* '最新销售费(%)' *)
  [0x6700; 0x65b0; 0x56fa; 0x5b9a; 0x7ba1; 0x7406; 0x8d39; 0x28; 0x25; 0x29]%N;
    (* '最新固定管理费(%)' *)
  [0x6298; 0x5408; 0x4eba; 0x6c11; 0x5e01; 0x8ba1; 0x7b97; 0x65e5; 0x671f;
   0x5b58; 0x7eed; 0x89c4; 0x6a21]%N;
    (* '折合人民币计算日期存续规模' *)
  [0x8fd1; 0x31; 0x4e2a; 0x6708; 0x5e74; 0x5316; 0x6536; 0x76ca; 0x7387;
   0x28; 0x25; 0x29]%N;
    (* '近1个月年化收益率(%)' *)
  [0x8fd1; 0x33; 0x4e2a; 0x6708; 0x5e74; 0x5316; 0x6536; 0x76ca; 0x7387;
   0x28; 0x25; 0x29]%N;
    (* '近3个月年化收益率(%)' *)
  [0x6210; 0x7acb; 0x4ee5; 0x6765; 0x5e74; 0x5316; 0x6536; 0x76ca; 0x7387;
   0x28; 0x25; 0x29]%N;
    (* '成立以来年化收益率(%)' *)
  [0x8fd1; 0x31; 0x4e2a; 0x6708; 0x6700; 0x5927; 0x56de; 0x64a4; 0x28; 0x25; 0x29]%N;
    (* '近1个月最大回撤(%)' *)
  [0x8fd1; 0x33; 0x4e2a; 0x6708; 0x6700; 0x5927; 0x56de; 0x64a4; 0x28; 0x25; 0x29]%N;
    (* '近3个月最大回撤(%)' *)
  [0x6210; 0x7acb; 0x4ee5; 0x6765; 0x6700; 0x5927; 0x56de; 0x64a4; 0x28; 0x25; 0x29]%N
    (* '成立以来最大回撤(%)' *)
].

(** Lines 77-79. *)
Definition extract_product_name (fname : str) : str :=
  let name := splitext_root fname in
  match search_trailing_name name with
  | Some m => strip m
  | None => strip name
  end.

(** Lines 83-95 of the [try] block. *)
Definition history_part (prod : str) (sheets : list sheet) (st : loop_state)
  : result loop_state :=
  match find_sheet lit_hist_nav lit_hist sheets with
  | Some sheet_h =>
      df_h <- parse sheet_h;;
      match find_column lit_riqi df_h, find_column lit_unit_nav df_h with
      | Some dc, Some nc =>
          t <- history_series prod (snd dc) (snd nc);;
          Ok (store_series prod t st)
      | _, _ => Ok st
      end
  | None => Ok st
  end.

(** Lines 96-102 of the [try] block. *)
Definition latest_part (df_query : option table) (sheets : list sheet)
    (st : loop_state) : result loop_state :=
  if is_loaded df_query then
    match find_sheet lit_latest_nav lit_latest sheets with
    | Some sheet_l =>
        df_l <- parse sheet_l;;
        match sheet_column lit_reg_code df_l with
        | Some cells => Ok (update_codes (code_list cells) st)
        | None => Ok st
        end
    | None => Ok st
    end
  else Ok st.

Definition try_block (df_query : option table) (f : xlsx) (st : loop_state)
  : loop_state * option exn :=
  let prod := extract_product_name (file_name f) in
  match excel_file f with
  | Raise e => (st, Some e)
  | Ok sheets =>
      match history_part prod sheets st with
      | Raise e => (st, Some e)
      | Ok st1 =>
          match latest_part df_query sheets st1 with
          | Raise e => (st1, Some e)
          | Ok st2 => (st2, None)
          end
      end
  end.

(** One turn of [for fname in excel_files]. *)
Definition file_step (df_query : option table) (st : loop_state) (f : xlsx)
  : loop_state :=
  match try_block df_query f st with
  | (st', None) => st'
  | (st', Some _) => print (MsgReadError (file_name f)) st'
  end.

Definition excel_files (fd : folder) : list xlsx :=
  filter (fun f => endswith (file_name f) lit_xlsx
                   && negb (startswith (file_name f) lit_tmp_prefix))
         (listing fd).

Definition read_folder (df_query : option table) (fd : folder) : loop_state :=
  fold_left (file_step df_query) (excel_files fd) (initial_state fd).

Definition df_raw (product_nav : list (str * series)) : frame :=
  merge product_nav.

(** [[c for c in df_raw.columns if '法巴' in c]] *)
Definition fab_cols (product_nav : list (str * series)) : list str :=
  filter (contains lit_fab) (labels (df_raw product_nav)).

(** [df_raw[fab_cols].dropna(how='all').index.min()]; [None] is NaT. *)
Definition start (product_nav : list (str * series)) : result (option Z) :=
  sub <- select_columns (df_raw product_nav) (fab_cols product_nav);;
  Ok (index_min (index (dropna_all sub))).

Definition unified_label (col : str) : str := col ++ lit_unified.

(** [df_raw[col]] for a label of [df_raw]. *)
Definition cells (t : frame) (col : str) : list float :=
  match column col (columns t) with
  | Some l => l
  | None => []
  end.

(** One turn of [for col in df_raw.columns] (lines 121-124). *)
Definition normalise_step (raw : frame) (fab : list str) (start : option Z)
    (df_norm : frame) (col : str) : frame :=
  if str_mem col fab then df_norm
  else
    match start with
    | Some s =>
        if date_mem s (index raw) && notna (cell raw s col)
        then setitem df_norm (unified_label col)
               (map (fun v => (v / cell raw s col)%float) (cells raw col))
        else df_norm
    | None => df_norm
    end.

(** Lines 127-132. *)
Definition order (raw df_norm : frame) : list str :=
  flat_map (fun c => c :: (if str_mem (unified_label c) (labels df_norm)
                           then [unified_label c] else []))
           (labels raw).

Definition df_norm (product_nav : list (str * series)) : result frame :=
  let raw := df_raw product_nav in
  s <- start product_nav;;
  let normed := fold_left (normalise_step raw (fab_cols product_nav) s)
                          (labels raw) raw in
  select_columns normed (order raw normed).

Definition full_idx (product_nav : list (str * series)) : result (list Z) :=
  calendar (df_raw product_nav).

Definition df_plot_raw (product_nav : list (str * series)) : result frame :=
  idx <- full_idx product_nav;;
  Ok (resample (df_raw product_nav) idx).

(** [index >= start]; every comparison with NaT is False. *)
Definition on_or_after (start : option Z) (d : Z) : bool :=
  match start with
  | Some s => s <=? d
  | None => false
  end.

Definition df_plot_norm (product_nav : list (str * series)) : result frame :=
  s <- start product_nav;;
  normed <- df_norm product_nav;;
  idx <- full_idx product_nav;;
  let plot := resample normed idx in
  Ok (select_rows (map (on_or_after s) (index plot)) plot).

(** [df[names]] on the lookup table. *)
Fixpoint label_positions (ls names : list str) : result (list nat) :=
  match names with
  | [] => Ok []
  | n :: names' =>
      match label_pos n ls with
      | Some k => ks <- label_positions ls names';; Ok (k :: ks)
      | None => Raise KeyError
      end
  end.

Definition select_info_columns (t : table) (names : list str) : result table :=
  ks <- label_positions (t_labels t) names;;
  Ok {| t_labels := names;
        t_rows := map (fun r => map (fun k => nth k r blank_cell) ks) (t_rows t) |}.

(** Lines 154-159. *)
Definition df_info (df_query : option table) (codes : list str)
  : result (list (sheet_id * sheet_body)) :=
  match df_query, codes with
  | Some q, _ :: _ =>
      info <- filter_by_codes q codes;;
      let cols1 := filter (fun c => str_mem c (t_labels info)) desired_info_cols in
      let cols2 := filter (fun c => negb (str_mem c cols1)) (t_labels info) in
      info <- select_info_columns info (cols1 ++ cols2);;
      Ok [(ProductInfo, Info info)]
  | _, _ => Ok []
  end.

(** [add_chart(sheet, df, title)] (lines 169-192), [df] given by its
    column labels and its number of rows; [fab_cols] is the list of line
    116. *)
Definition add_chart (fab_cols : list str) (sheet : sheet_id)
    (df : list str) (nrows : nat) : result chart :=
  let names := tl df in
  let fab := filter (fun n => str_mem n fab_cols) names in
  let oth := filter (fun n => negb (str_mem n fab)) names in
  green <- gen_green (length fab);;
  fab_series <-
    all_ok (map (fun e : nat * str =>
                   idx <- get_loc (snd e) df;;
                   color <- list_get green (fst e);;
                   add_series sheet nrows idx color)
                (enumerate fab));;
  oth_series <-
    all_ok (map (fun e : nat * str =>
                   idx <- get_loc (snd e) df;;
                   color <- list_get other_cols (fst e mod length other_cols);;
                   add_series sheet nrows idx color)
                (enumerate oth));;
  Ok {| chart_host := sheet; chart_series := fab_series ++ oth_series |}.

(** Lines 194-195: [add_chart(sheet, df_plot.reset_index(), title)] for a
    resampled table, whose index has no name. *)
Definition plot_chart (fab_cols : list str) (sheet : sheet_id) (df_plot : frame)
  : result chart :=
  df <- reset_index None df_plot;;
  add_chart fab_cols sheet df (length (index df_plot)).

(** One turn of [for work in work_dirs].  Inside the [with] block the steps
    are those of lines 148-195 in their order: the four [reset_index] calls
    (the index of [df_raw] and [df_norm] is named '净值日期', lines 113 and
    134; the index of the two resampled tables has no name), the product
    information, the two charts.  A report stands for a workbook whose
    [with] block ran to its end; what is saved of a workbook whose block
    raises is not modelled. *)
Definition process_folder (df_query : option table) (fd : folder)
  : list message * result (option report) :=
  let st := read_folder df_query fd in
  match product_nav st with
  | [] => (stdout st ++ [MsgSkipped (folder_name fd)], Ok None)
  | _ :: _ =>
      match
        (normed <- df_norm (product_nav st);;
         plot_raw <- df_plot_raw (product_nav st);;
         plot_norm <- df_plot_norm (product_nav st);;
         _ <- reset_index (Some lit_nav_date) (df_raw (product_nav st));;
         _ <- reset_index (Some lit_nav_date) normed;;
         _ <- reset_index None plot_raw;;
         _ <- reset_index None plot_norm;;
         info <- df_info df_query (codes_in_folder st);;
         chart_raw <- plot_chart (fab_cols (product_nav st)) RawPlot plot_raw;;
         chart_norm <- plot_chart (fab_cols (product_nav st)) UnifiedPlot plot_norm;;
         Ok {| report_folder := folder_name fd;
               report_sheets :=
                 [(RawNav, Frame (df_raw (product_nav st)));
                  (UnifiedNav, Frame normed);
                  (RawPlot, Frame plot_raw);
                  (UnifiedPlot, Frame plot_norm)] ++ info;
               report_charts := [chart_raw; chart_norm] |})
      with
      | Ok rep => (stdout st ++ [MsgWritten (folder_name fd)], Ok (Some rep))
      | Raise e => (stdout st, Raise e)
      end
  end.

Definition run (df_query : option table) (work_dirs : list folder) : session :=
  run_folders (process_folder df_query) work_dirs.

End Open.

(* ================================================================== *)
(** * The two scripts side by side *)

Inductive script :=
| ClosedV13     (* 封闭式同业产品对比-V1.3.py *)
| OpenV12.      (* 开放式同业产品对比-V1.2.py *)

Definition file_step_of (v : script)
  : option table -> loop_state -> xlsx -> loop_state :=
  match v with
  | ClosedV13 => Closed.file_step
  | OpenV12 => Open.file_step
  end.

Definition extract_product_name_of (v : script) : str -> str :=
  match v with
  | ClosedV13 => Closed.extract_product_name
  | OpenV12 => Open.extract_product_name
  end.

Definition files_of (v : script) : folder -> list xlsx :=
  match v with
  | ClosedV13 => Closed.file_list
  | OpenV12 => Open.excel_files
  end.

Definition read_folder_of (v : script) : option table -> folder -> loop_state :=
  match v with
  | ClosedV13 => Closed.read_folder
  | OpenV12 => Open.read_folder
  end.

Definition process_folder_of (v : script)
  : option table -> folder -> list message * result (option report) :=
  match v with
  | ClosedV13 => Closed.process_folder
  | OpenV12 => Open.process_folder
  end.

Definition run_of (v : script) : option table -> list folder -> session :=
  match v with
  | ClosedV13 => Closed.run
  | OpenV12 => Open.run
  end.

(** The merged table ([merged_nav], [df_raw]) and the calendar-resampled
    table ([plot_nav], [df_plot_raw]) of a folder's [product_nav]. *)
Definition merged_of (v : script) : list (str * series) -> frame :=
  match v with
  | ClosedV13 => Closed.merged_nav
  | OpenV12 => Open.df_raw
  end.

Definition resampled_of (v : script) : list (str * series) -> result frame :=
  match v with
  | ClosedV13 => Closed.plot_nav
  | OpenV12 => Open.df_plot_raw
  end.

(** The product-information sheet of a folder. *)
Definition info_of (v : script)
  : option table -> list str -> result (list (sheet_id * sheet_body)) :=
  match v with
  | ClosedV13 => Closed.df_info
  | OpenV12 => Open.df_info
  end.

Definition empty_state : loop_state :=
  {| product_nav := []; codes_in_folder := []; stdout := [] |}.

(** What one file, read on its own, leaves in [product_nav] and prints. *)
Definition contribution (v : script) (df_query : option table) (f : xlsx)
  : list (str * series) :=
  product_nav (file_step_of v df_query empty_state f).

Definition messages_of (v : script) (df_query : option table) (f : xlsx)
  : list message :=
  stdout (file_step_of v df_query empty_state f).

(* ================================================================== *)
(** * Notions used in the statements *)

(** The cells found under a label, none when the label is absent. *)
Definition cells_of (cols : list (str * list float)) (n : str) : list float :=
  match assoc n cols with
  | Some l => l
  | None => []
  end.

(** The test of line 123 of the open-end script:
    [start in df_raw.index and pd.notna(df_raw.at[start, col])]. *)
Definition has_baseline (raw : frame) (start : option Z) (col : str) : bool :=
  match start with
  | Some s => date_mem s (index raw) && notna (cell raw s col)
  | None => false
  end.

(** A workbook from which the loop takes the series [s] for the product
    [p]: it opens, its first history sheet parses and has a date and a
    unit-NAV column, [p] is the name taken from the file name, and the rows
    of the two columns give [s]. *)
Definition yields (v : script) (f : xlsx) (p : str) (s : series) : Prop :=
  exists sheets sh df dc nc,
    excel_file f = Ok sheets /\
    find_sheet lit_hist_nav lit_hist sheets = Some sh /\
    parse sh = Ok df /\
    find_column lit_riqi df = Some dc /\
    find_column lit_unit_nav df = Some nc /\
    p = extract_product_name_of v (file_name f) /\
    history_series p (snd dc) (snd nc) = Ok s.

(** One assignment [product_nav[k] = t], as a step over the dict. *)
Definition put (d : list (str * series)) (e : str * series) : list (str * series) :=
  dict_set (fst e) (snd e) d.

(** Sample points in strictly increasing position. *)
Definition increasing (l : list (nat * float)) : Prop :=
  StronglySorted (fun a b => (fst a < fst b)%nat) l.

(** The cell of a lookup-table row under a label. *)
Definition row_cell (ls : list str) (r : list xcell) (c : str) : xcell :=
  match label_pos c ls with
  | Some k => nth k r blank_cell
  | None => blank_cell
  end.

(** The same, keeping the equation of every case. *)
Ltac split_cases_eqn :=
  repeat match goal with
         | |- context [match ?x with _ => _ end] =>
             lazymatch x with
             | context [match _ with _ => _ end] => fail
             | _ => destruct x eqn:?
             end
         end.

(** Case analysis on every [match] of the goal, innermost scrutinee first. *)
Ltac split_cases :=
  repeat match goal with
         | |- context [match ?x with _ => _ end] =>
             lazymatch x with
             | context [match _ with _ => _ end] => fail
             | _ => destruct x
             end
         end.

(** One step of a sequence of fallible calls inside a hypothesis. *)
Ltac step_in H x :=
  match type of H with
  | context [bind ?r _] =>
      destruct r as [x|] eqn:?; cbn [bind] in H; [|discriminate H]
  end.
From Stdlib Require Import Permutation.


(* ================================================================== *)
(** * The chart of either script *)

(** The chart over a resampled table: [reset_index], then the chart code.
    For the closed-end script the reference group is found by name in the
    table itself and [fab_cols] and [sheet] are not used. *)
Definition chart_of (v : script) (fab_cols : list str) (sheet : sheet_id) (df : frame)
  : result chart :=
  match v with
  | ClosedV13 =>
      df_plot <- reset_index (Some lit_nav_date) df;;
      Closed.insert_chart df_plot (length (index df))
  | OpenV12 => Open.plot_chart fab_cols sheet df
  end.

(** The sheet column the closed-end script computes for a product. *)
Definition closed_loc (cols : list str) (c : str) : result nat :=
  idx <- list_index c cols;; Ok (S idx).

(** The sheet column the open-end script passes on for a product, when
    [get_loc] gives an integer. *)
Definition open_loc (df : list str) (c : str) : result nat :=
  idx <- get_loc c df;;
  match idx with
  | Pos k => Ok k
  | Slice => Raise TypeError
  | Mask => Raise ValueError
  end.

(** The column of the sheet a series draws. *)
Definition series_column (s : series_spec) : nat := snd (ss_name s).

(* ================================================================== *)
(** * The start of the scripts *)

Definition lit_query : str := [0x4ea7; 0x54c1; 0x67e5; 0x8be2]%N.   (* '产品查询' *)

(** An entry of [os.listdir(root_dir)]: a file, with what [pd.ExcelFile]
    and [pd.read_excel(path, sheet_name='产品列表', header=8)] make of it, or
    a sub-folder. *)
Inductive root_entry :=
| RootFile (f : xlsx) (as_query : result table)
| RootDir (fd : folder).

Definition entry_name (e : root_entry) : str :=
  match e with
  | RootFile f _ => file_name f
  | RootDir fd => folder_name fd
  end.

(** What the scripts print before the folders. *)
Inductive start_message :=
| MsgRoot                          (* the root path *)
| MsgQueryLoaded (file : str)      (* lookup table read *)
| MsgQueryFailed                   (* reading the lookup table raised *)
| MsgQueryMissing.                 (* no lookup file *)

(** Lines 31-44 (closed-end) and 41-56 (open-end): the lookup table is read
    from the first entry whose name ends in '.xlsx' and contains '产品查询';
    [pd.read_excel] of a folder raises. *)
Definition is_query_file (name : str) : bool :=
  endswith name lit_xlsx && contains lit_query name.

Definition load_query (entries : list root_entry)
  : option table * list start_message :=
  match find (fun e => is_query_file (entry_name e)) entries with
  | Some (RootFile f (Ok t)) => (Some t, [MsgQueryLoaded (file_name f)])
  | Some _ => (None, [MsgQueryFailed])
  | None => (None, [MsgQueryMissing])
  end.

(** [[d for d in os.listdir(root_dir) if os.path.isdir(...)]] *)
Definition sub_folders (entries : list root_entry) : list folder :=
  flat_map (fun e => match e with
                     | RootDir fd => [fd]
                     | RootFile _ _ => []
                     end) entries.

Definition root_files (entries : list root_entry) : list xlsx :=
  flat_map (fun e => match e with
                     | RootFile f _ => [f]
                     | RootDir _ => []
                     end) entries.

(** The closed-end script as a whole. *)
Definition closed_main (entries : list root_entry) : list start_message * session :=
  let (df_query, msgs) := load_query entries in
  (MsgRoot :: msgs, Closed.run df_query (sub_folders entries)).

(** The open-end script as a whole:
    [work_dirs = subdirs if subdirs else [root_dir]]. *)
Definition open_main (root_dir : str) (entries : list root_entry)
  : list start_message * session :=
  let (df_query, msgs) := load_query entries in
  let subdirs := sub_folders entries in
  let work_dirs :=
    match subdirs with
    | [] => [ {| folder_name := root_dir; listing := root_files entries |} ]
    | _ :: _ => subdirs
    end in
  (MsgRoot :: msgs, Open.run df_query work_dirs).

(** The names the scripts give to the sheets they write. *)
Definition sheet_title (id : sheet_id) : str :=
  match id with
  | NavData => [0x51c0; 0x503c; 0x6570; 0x636e]%N                       (* '净值数据' *)
  | PlotData => [0x4f5c; 0x56fe; 0x6570; 0x636e]%N                      (* '作图数据' *)
  | RawNav => [0x539f; 0x59cb; 0x51c0; 0x503c]%N                        (* '原始净值' *)
  | UnifiedNav => [0x7edf; 0x4e00; 0x57fa; 0x51c6; 0x51c0; 0x503c]%N    (* '统一基准净值' *)
  | RawPlot => [0x539f; 0x59cb; 0x51c0; 0x503c; 0x4f5c; 0x56fe]%N       (* '原始净值作图' *)
  | UnifiedPlot => [0x7edf; 0x4e00; 0x57fa; 0x51c6; 0x4f5c; 0x56fe]%N   (* '统一基准作图' *)
  | ProductInfo => [0x4ea7; 0x54c1; 0x4fe1; 0x606f]%N                   (* '产品信息' *)
  end.

(** The codes one file, read on its own, adds to [codes_in_folder]. *)
Definition codes_of (v : script) (df_query : option table) (f : xlsx) : list str :=
  codes_in_folder (file_step_of v df_query empty_state f).

(** Labels that are pairwise different. *)
Fixpoint distinct (l : list str) : bool :=
  match l with
  | [] => true
  | x :: l' => negb (str_mem x l') && distinct l'
  end.

(** The sheet the series of a chart read their data from. *)
Definition data_sheet (v : script) (sheet : sheet_id) : sheet_id :=
  match v with
  | ClosedV13 => PlotData
  | OpenV12 => sheet
  end.

(** The test that puts a column into the reference group of the chart:
    ['法巴农银' in c] in the closed-end script, [n in fab_cols] in the
    open-end script. *)
Definition in_reference_group (v : script) (fab_cols : list str) (c : str) : bool :=
  match v with
  | ClosedV13 => contains lit_fab_abc c
  | OpenV12 => str_mem c fab_cols
  end.

(** Names of the date column of the sheets a script writes ([reset_index]
    uses the name of the index, or 'index'): when no product carries one
    of them, every sheet can be laid out. *)
Definition index_labels (v : script) : list str :=
  match v with
  | ClosedV13 => [lit_nav_date]
  | OpenV12 => [lit_nav_date; lit_index]
  end.

(** A bare file name, as [os.listdir] gives it: no path separator ('/',
    nor the backslash of Windows). *)
Definition bare_name (s : str) : bool :=
  forallb (fun ch => negb (N.eqb ch 0x2f%N) && negb (N.eqb ch 0x5c%N)) s.

(** Unfolding one turn of the loop over the files. *)
Ltac unfold_file_step :=
  unfold codes_of, contribution, messages_of, file_step_of, extract_product_name_of,
    Closed.file_step, Closed.try_block, Closed.history_part, Closed.latest_part,
    Open.file_step, Open.try_block, Open.history_part, Open.latest_part, bind.

(* ================================================================== *)
(** * A small folder, used to exercise the statements below *)

Module Example.

Definition fab_a : str := lit_fab_abc ++ [0x41%N].     (* '法巴农银A' *)
Definition comp_x : str := [0x58%N].                   (* 'X' *)

(** The reference product reports on days 1, 2, 4 and 5; the competitor on
    days 1 to 3. *)
Definition nav : list (str * series) :=
  [(comp_x, [(1, 100%float); (2, 101%float); (3, 102%float)]);
   (fab_a, [(1, 1%float); (2, 1.25%float); (4, 1.5%float); (5, 2%float)])].

Definition merged : frame :=
  {| index := [1; 2; 3; 4; 5];
     columns :=
       [(comp_x, [100; 101; 102; nan; nan]%float);
        (fab_a, [1; 1.25; nan; 1.5; 2]%float)] |}.

Definition plot : frame :=
  {| index := [1; 2; 3; 4; 5];
     columns :=
       [(comp_x, [100; 101; 102; 102; 102]%float);
        (fab_a, [1; 1.25; 1.375; 1.5; 2]%float)] |}.

(** The normalised table of that folder: the baseline is day 1. *)
Definition norm : frame :=
  {| index := [1; 2; 3; 4; 5];
     columns :=
       [(comp_x, [100; 101; 102; nan; nan]%float);
        (Open.unified_label comp_x,
         [100 / 100; 101 / 100; 102 / 100; nan; nan]%float);
        (fab_a, [1; 1.25; nan; 1.5; 2]%float)] |}.

(** A folder whose competitor is worth 0 on the baseline day. *)
Definition nav_zero : list (str * series) :=
  [(comp_x, [(1, 0%float); (2, 101%float)]);
   (fab_a, [(1, 1%float)])].

Definition norm_zero : frame :=
  {| index := [1; 2];
     columns :=
       [(comp_x, [0; 101]%float);
        (Open.unified_label comp_x, [nan; infinity]%float);
        (fab_a, [1; nan]%float)] |}.

(** A folder whose competitor starts after the baseline day, and its
    tables. *)
Definition nav_late : list (str * series) :=
  [(comp_x, [(1, 100%float); (3, 102%float)]);
   (fab_a, [(2, 1%float); (4, 2%float)])].

Definition norm_late : frame :=
  {| index := [1; 2; 3; 4];
     columns :=
       [(comp_x, [100; nan; 102; nan]%float);
        (fab_a, [nan; 1; nan; 2]%float)] |}.

Definition plot_raw_late : frame :=
  {| index := [1; 2; 3; 4];
     columns :=
       [(comp_x, [100; 101; 102; 102]%float);
        (fab_a, [nan; 1; 1.5; 2]%float)] |}.

Definition plot_norm_late : frame :=
  {| index := [2; 3; 4];
     columns :=
       [(comp_x, [101; 102; 102]%float);
        (fab_a, [1; 1.5; 2]%float)] |}.

(** Cells of a sheet: a date, a number, a text. *)
Definition day_cell (d : Z) : xcell :=
  {| raw_isna := false; as_datetime := Some d; as_numeric := nan; as_str := [] |}.

Definition num_cell (x : float) : xcell :=
  {| raw_isna := false; as_datetime := None; as_numeric := x; as_str := [] |}.

Definition text_cell (s : str) : xcell :=
  {| raw_isna := false; as_datetime := None; as_numeric := nan; as_str := s |}.

(** A history sheet that lists day 1 twice. *)
Definition dup_dates : list xcell := [day_cell 1; day_cell 2; day_cell 1].
Definition dup_navs : list xcell :=
  [num_cell 10%float; num_cell 20%float; num_cell 30%float].

(** A lookup table with a code column, one preferred column and one other
    column; and the codes collected in a folder. *)
Definition code_a1 : str := [0x41; 0x31]%N.     (* 'A1' *)
Definition code_b2 : str := [0x42; 0x32]%N.     (* 'B2' *)
Definition col_z : str := [0x5a]%N.             (* 'Z' *)
Definition col_name : str :=
  [0x7406; 0x8d22; 0x4ea7; 0x54c1; 0x540d; 0x79f0]%N.   (* '理财产品名称' *)

Definition query : table :=
  {| t_labels := [lit_reg_code; col_z; col_name];
     t_rows :=
       [[text_cell code_a1; num_cell 1%float; text_cell [0x50; 0x31]%N];
        [text_cell code_b2; num_cell 2%float; text_cell [0x50; 0x32]%N]] |}.

Definition codes : list str := [code_a1].

(** A folder of two workbooks of the same product name ('X'): each has a
    historical-NAV sheet with a date and a unit-NAV column. *)
Definition history_sheet (days navs : list xcell) : sheet :=
  {| sheet_name := lit_hist_nav;
     parse := Ok [(lit_riqi, days); (lit_unit_nav, navs)] |}.

Definition book_old : xlsx :=
  {| file_name := [0x61; 0x5f; 0x58]%N ++ lit_xlsx;                (* 'a_X.xlsx' *)
     excel_file := Ok [history_sheet [day_cell 1; day_cell 2]
                                     [num_cell 10%float; num_cell 20%float]] |}.

Definition book_new : xlsx :=
  {| file_name := [0x62; 0x5f; 0x58]%N ++ lit_xlsx;                (* 'b_X.xlsx' *)
     excel_file := Ok [history_sheet [day_cell 2; day_cell 3]
                                     [num_cell 21%float; num_cell 31%float]] |}.

Definition twice : folder :=
  {| folder_name := [0x54]%N; listing := [book_old; book_new] |}.

(** File names: '季报_法巴农银A.xlsx', and 'draft .xlsx' whose stem ends in a
    blank. *)
Definition name_report : str :=
  [0x5b63; 0x62a5; 0x5f]%N ++ fab_a ++ lit_xlsx.
Definition name_draft : str :=
  [0x64; 0x72; 0x61; 0x66; 0x74; 0x20]%N ++ lit_xlsx.

(** A folder without any workbook (a text file only), and a broken one. *)
Definition notes : xlsx :=
  {| file_name := [0x6e; 0x2e; 0x74; 0x78; 0x74]%N;                (* 'n.txt' *)
     excel_file := Raise ReadFailure |}.

Definition broken : xlsx :=
  {| file_name := [0x63]%N ++ lit_xlsx;                            (* 'c.xlsx' *)
     excel_file := Raise ReadFailure |}.

Definition barren : folder :=
  {| folder_name := [0x45]%N; listing := [notes; broken] |}.

(** A folder whose only workbook has the history columns but no row. *)
Definition hollow : folder :=
  {| folder_name := [0x48]%N;
     listing := [ {| file_name := [0x64; 0x5f; 0x58]%N ++ lit_xlsx;   (* 'd_X.xlsx' *)
                     excel_file := Ok [history_sheet [] []] |} ] |}.

End Example.

(* ================================================================== *)
(** * More example data *)

Module Example2.

(** A stem that ends in a run of name characters after an underscore:
    '季报_法巴农银A'. *)
Definition stem_report : str := [0x5b63; 0x62a5; 0x5f]%N ++ Example.fab_a.

(** A workbook with a history sheet (days 1 and 2) and a latest-NAV sheet
    that cannot be parsed; and one whose history sheet cannot be parsed
    while its latest-NAV sheet lists a code. *)
Definition latest_sheet (r : result sheet_table) : sheet :=
  {| sheet_name := lit_latest_nav; parse := r |}.

Definition book_half : xlsx :=
  {| file_name := [0x65; 0x5f; 0x58]%N ++ lit_xlsx;                (* 'e_X.xlsx' *)
     excel_file :=
       Ok [Example.history_sheet
             [Example.day_cell 1; Example.day_cell 2]
             [Example.num_cell 10%float; Example.num_cell 20%float];
           latest_sheet (Raise ReadFailure)] |}.

Definition book_nohist : xlsx :=
  {| file_name := [0x66; 0x5f; 0x58]%N ++ lit_xlsx;                (* 'f_X.xlsx' *)
     excel_file :=
       Ok [ {| sheet_name := lit_hist_nav; parse := Raise ReadFailure |};
            latest_sheet (Ok [(lit_reg_code, [Example.text_cell Example.code_a1])]) ] |}.

(** A workbook with the sheets of a report of the open-end script. *)
Definition book_report : xlsx :=
  {| file_name := [0x54]%N ++ lit_xlsx;
     excel_file :=
       Ok (map (fun id => {| sheet_name := sheet_title id; parse := Ok [] |})
               [RawNav; UnifiedNav; RawPlot; UnifiedPlot; ProductInfo]) |}.

(** A lookup table without the code column. *)
Definition query_nocode : table :=
  {| t_labels := [Example.col_z; Example.col_name];
     t_rows := [[Example.num_cell 1%float; Example.text_cell [0x50; 0x31]%N]] |}.

(** A workbook of product 'X' with a history and a code. *)
Definition book_full : xlsx :=
  {| file_name := [0x67; 0x5f; 0x58]%N ++ lit_xlsx;                (* 'g_X.xlsx' *)
     excel_file :=
       Ok [Example.history_sheet
             [Example.day_cell 1; Example.day_cell 3]
             [Example.num_cell 10%float; Example.num_cell 30%float];
           latest_sheet (Ok [(lit_reg_code, [Example.text_cell Example.code_a1])])] |}.

Definition coded : folder :=
  {| folder_name := [0x43]%N; listing := [book_full] |}.

(** A root directory with a lookup file that cannot be read, and the folder
    of the two workbooks of 'X'. *)
Definition lookup_name : str := lit_query ++ lit_xlsx.            (* '产品查询.xlsx' *)

Definition root_broken_lookup : list root_entry :=
  [RootFile {| file_name := lookup_name; excel_file := Raise ReadFailure |}
            (Raise ReadFailure);
   RootDir Example.twice].

(** A folder without reference product. *)
Definition nav_plain : list (str * series) :=
  [(Example.comp_x, [(1, 100%float); (3, 102%float)])].

End Example2.

Module Example3.

(** The chart the closed-end script draws over [Example.plot]: the reference
    product (sheet column 2) first, in the only green '#008000', then the
    competitor (sheet column 1) in the first palette colour. *)
Definition green_1 : str := [0x23; 0x30; 0x30; 0x38; 0x30; 0x30; 0x30]%N.

Definition plot_chart : chart :=
  {| chart_host := NavData;
     chart_series :=
       [line_series PlotData 5 2 green_1;
        line_series PlotData 5 1 (hd [] other_cols)] |}.

(** A resampled table of the open-end script with a product called
    'index' (the date column of its sheet is then 'level_0'), and its
    chart. *)
Definition plot_indexed : frame :=
  {| index := [1; 2];
     columns := [(lit_index, [10; 20]%float); (Example.fab_a, [1; 2]%float)] |}.

Definition chart_indexed : chart :=
  {| chart_host := RawPlot;
     chart_series :=
       [line_series RawPlot 2 2 green_1;
        line_series RawPlot 2 1 (hd [] other_cols)] |}.

(** A workbook of a product called '净值日期', and its folder. *)
Definition book_dated : xlsx :=
  {| file_name := [0x68; 0x5f]%N ++ lit_nav_date ++ lit_xlsx;     (* 'h_净值日期.xlsx' *)
     excel_file :=
       Ok [Example.history_sheet
             [Example.day_cell 1; Example.day_cell 2]
             [Example.num_cell 10%float; Example.num_cell 20%float]] |}.

Definition dated : folder :=
  {| folder_name := [0x44]%N; listing := [book_dated] |}.

End Example3.

(* ================================================================== *)
(** * Properties of the library model *)

Section StringFacts.

Lemma str_eqb_eq (a b : str) : str_eqb a b = true <-> a = b.
Proof.
  revert b; induction a as [|x a IH]; intros [|y b]; simpl; split;
    try discriminate; try reflexivity.
  - rewrite andb_true_iff, N.eqb_eq, IH. intros [-> ->]; reflexivity.
  - intros H; injection H as -> ->.
    rewrite N.eqb_refl; simpl. apply IH; reflexivity.
Qed.

Lemma str_eqb_refl (a : str) : str_eqb a a = true.
Proof. apply str_eqb_eq; reflexivity. Qed.

Lemma str_eqb_neq (a b : str) : str_eqb a b = false <-> a <> b.
Proof.
  rewrite <- str_eqb_eq. destruct (str_eqb a b); split; congruence.
Qed.

Lemma str_mem_In (x : str) (l : list str) : str_mem x l = true <-> In x l.
Proof.
  unfold str_mem. rewrite existsb_exists. split.
  - intros (y & Hy & E). apply str_eqb_eq in E. subst; assumption.
  - intros H. exists x. split; [assumption | apply str_eqb_refl].
Qed.

Lemma str_mem_false (x : str) (l : list str) : str_mem x l = false <-> ~ In x l.
Proof.
  rewrite <- str_mem_In. destruct (str_mem x l); split; congruence.
Qed.

End StringFacts.

Section Interpolation.

Lemma enumerate_from_nth_error (y : list float) :
  forall k i,
    nth_error (enumerate_from k y) i =
    option_map (fun v => ((k + i)%nat, v)) (nth_error y i).
Proof.
  induction y as [|v y IH]; intros k [|i]; simpl; try reflexivity.
  - rewrite Nat.add_0_r; reflexivity.
  - rewrite IH. replace (S k + i)%nat with (k + S i)%nat by lia. reflexivity.
Qed.

Lemma enumerate_from_In (y : list float) :
  forall k j v,
    In (j, v) (enumerate_from k y) <->
    (k <= j)%nat /\ nth_error y (j - k) = Some v.
Proof.
  induction y as [|w y IH]; intros k j v; simpl.
  - split; [tauto | intros [_ H]]. destruct (j - k)%nat; discriminate.
  - rewrite IH. split.
    + intros [E | [Hle Hn]].
      * injection E as <- <-. rewrite Nat.sub_diag; simpl. split; [lia | reflexivity].
      * split; [lia |]. replace (j - k)%nat with (S (j - S k)) by lia. exact Hn.
    + intros [Hle Hn]. destruct (Nat.eq_dec j k) as [-> | Hne].
      * rewrite Nat.sub_diag in Hn; simpl in Hn. injection Hn as ->. left; reflexivity.
      * right. split; [lia |].
        replace (j - k)%nat with (S (j - S k)) in Hn by lia. exact Hn.
Qed.

Lemma enumerate_from_increasing (y : list float) :
  forall k, increasing (enumerate_from k y).
Proof.
  induction y as [|v y IH]; intros k; simpl; constructor.
  - apply IH.
  - apply Forall_forall. intros [j w] Hin. apply enumerate_from_In in Hin.
    simpl. lia.
Qed.

Lemma increasing_filter (f : nat * float -> bool) (l : list (nat * float)) :
  increasing l -> increasing (filter f l).
Proof.
  induction 1 as [|a l Hs IH Hall]; simpl; [constructor|].
  destruct (f a); [|exact IH]. constructor; [exact IH|].
  apply Forall_forall. intros b Hb. apply filter_In in Hb.
  rewrite Forall_forall in Hall. apply Hall, Hb.
Qed.

Lemma valid_points_increasing (y : list float) : increasing (valid_points y).
Proof. apply increasing_filter, enumerate_from_increasing. Qed.

Lemma valid_points_In (y : list float) (j : nat) (v : float) :
  In (j, v) (valid_points y) <-> nth_error y j = Some v /\ isna v = false.
Proof.
  unfold valid_points, valid_points_from. rewrite filter_In, enumerate_from_In.
  simpl. rewrite Nat.sub_0_r. unfold notna. rewrite negb_true_iff.
  split; [intros [[_ H] H'] | intros [H H']]; repeat split; auto; lia.
Qed.

(** What [interpolate_1d] leaves in row [i]. *)
Lemma interpolate_1d_nth_error (y : list float) (i : nat) (v : float) :
  nth_error y i = Some v ->
  nth_error (interpolate_1d y) i =
  Some (match valid_points y with
        | [] => v
        | (first_valid, _) :: _ =>
            if isna v
            then (if (i <? first_valid)%nat then nan
                  else np_interp i (valid_points y))
            else v
        end).
Proof.
  intros Hi. unfold interpolate_1d.
  destruct (valid_points y) as [|[fv w] pts] eqn:E; [exact Hi|].
  rewrite nth_error_map, enumerate_from_nth_error, Hi. reflexivity.
Qed.

Lemma interpolate_1d_length (y : list float) :
  length (interpolate_1d y) = length y.
Proof.
  unfold interpolate_1d. destruct (valid_points y) as [|[fv w] pts]; [reflexivity|].
  rewrite length_map. clear. generalize 0%nat.
  induction y; intros k; simpl; congruence.
Qed.

(** Known cells are kept. *)
Lemma interpolate_1d_known (y : list float) (i : nat) (v : float) :
  nth_error y i = Some v -> isna v = false ->
  nth_error (interpolate_1d y) i = Some v.
Proof.
  intros Hi Hv. rewrite (interpolate_1d_nth_error y i v Hi).
  destruct (valid_points y) as [|[fv w] pts]; [reflexivity|].
  rewrite Hv; reflexivity.
Qed.

(** The head of the valid points is the first valid row. *)
Lemma valid_points_head (y : list float) fv w pts :
  valid_points y = (fv, w) :: pts ->
  nth_error y fv = Some w /\ isna w = false /\
  forall p, In p pts -> (fv < fst p)%nat.
Proof.
  intros E. pose proof (valid_points_increasing y) as Hs.
  assert (Hin : In (fv, w) (valid_points y)) by (rewrite E; left; reflexivity).
  apply valid_points_In in Hin. destruct Hin as [H1 H2].
  repeat split; try assumption.
  rewrite E in Hs. inversion Hs as [|a l Hs' Hall]; subst.
  rewrite Forall_forall in Hall. intros p Hp. apply (Hall p Hp).
Qed.

(** Rows before the first known value stay null. *)
Lemma interpolate_1d_leading (y : list float) (i : nat) (v : float) :
  nth_error y i = Some v ->
  (forall j w, (j <= i)%nat -> nth_error y j = Some w -> isna w = true) ->
  exists r, nth_error (interpolate_1d y) i = Some r /\ isna r = true.
Proof.
  intros Hi Hlead. rewrite (interpolate_1d_nth_error y i v Hi).
  destruct (valid_points y) as [|[fv w] pts] eqn:E.
  - exists v. split; [reflexivity|]. apply (Hlead i v); [lia | exact Hi].
  - destruct (valid_points_head y fv w pts E) as (Hfv & Hw & _).
    rewrite (Hlead i v (Nat.le_refl i) Hi).
    destruct (i <? fv)%nat eqn:Hlt.
    + exists nan. split; reflexivity.
    + apply Nat.ltb_ge in Hlt. rewrite (Hlead fv w Hlt Hfv) in Hw. discriminate.
Qed.

Lemma increasing_In_head (p0 : nat * float) (rest : list (nat * float)) a :
  increasing (p0 :: rest) -> In a (p0 :: rest) ->
  a = p0 \/ (In a rest /\ (fst p0 < fst a)%nat).
Proof.
  intros Hs [<- | Hin]; [left; reflexivity | right].
  inversion Hs as [|x l Hs' Hall]; subst. rewrite Forall_forall in Hall.
  split; [assumption | apply Hall; assumption].
Qed.

Lemma increasing_tail (p0 : nat * float) (rest : list (nat * float)) :
  increasing (p0 :: rest) -> increasing rest.
Proof. intros Hs; inversion Hs; assumption. Qed.

(** Between two neighbouring sample points [np.interp] is their [lerp]. *)
Lemma interp_scan_between (x : nat) (a b : nat * float) :
  forall rest p0,
    increasing (p0 :: rest) -> (fst p0 <= x)%nat ->
    In a (p0 :: rest) -> In b (p0 :: rest) ->
    (fst a < x)%nat -> (x < fst b)%nat ->
    (forall p, In p (p0 :: rest) -> ~ (fst a < fst p < fst b)%nat) ->
    interp_scan x p0 rest = lerp a b x.
Proof.
  induction rest as [|p1 rest IH]; intros p0 Hs Hp0 Ha Hb Hax Hxb Hgap.
  - destruct Hb as [<- | []]. lia.
  - pose proof (increasing_tail _ _ Hs) as Hs1.
    assert (H01 : (fst p0 < fst p1)%nat).
    { inversion Hs as [|? ? _ Hall]; subst. inversion Hall; assumption. }
    simpl. destruct (x <? fst p1)%nat eqn:Hlt.
    + apply Nat.ltb_lt in Hlt.
      assert (Ea : a = p0).
      { destruct (increasing_In_head _ _ _ Hs Ha) as [E | [Hin Hlt0]]; [exact E|].
        destruct (increasing_In_head _ _ _ Hs1 Hin) as [-> | [_ Hlt1]]; lia. }
      assert (Eb : b = p1).
      { destruct (increasing_In_head _ _ _ Hs Hb) as [-> | [Hin _]]; [lia|].
        destruct (increasing_In_head _ _ _ Hs1 Hin) as [E | [_ Hlt1]]; [exact E|].
        exfalso. apply (Hgap p1); [right; left; reflexivity | subst a; lia]. }
      subst a b. destruct (x =? fst p0)%nat eqn:Hx; [|reflexivity].
      apply Nat.eqb_eq in Hx. lia.
    + apply Nat.ltb_ge in Hlt.
      assert (Hb' : In b (p1 :: rest)).
      { destruct (increasing_In_head _ _ _ Hs Hb) as [-> | [Hin _]]; [lia | exact Hin]. }
      assert (Ha' : In a (p1 :: rest)).
      { destruct (increasing_In_head _ _ _ Hs Ha) as [-> | [Hin _]]; [|exact Hin].
        exfalso. apply (Hgap p1); [right; left; reflexivity | lia]. }
      apply IH; try assumption.
      intros p Hp. apply Hgap. right; exact Hp.
Qed.

(** At or after the last sample point [np.interp] is the last sample. *)
Lemma interp_scan_last (x : nat) (a : nat * float) :
  forall rest p0,
    increasing (p0 :: rest) -> (fst p0 <= x)%nat ->
    In a (p0 :: rest) -> (fst a <= x)%nat ->
    (forall p, In p (p0 :: rest) -> (fst p <= fst a)%nat) ->
    interp_scan x p0 rest = snd a.
Proof.
  induction rest as [|p1 rest IH]; intros p0 Hs Hp0 Ha Hax Hmax.
  - destruct Ha as [<- | []]. reflexivity.
  - pose proof (increasing_tail _ _ Hs) as Hs1.
    assert (H1a : (fst p1 <= fst a)%nat) by (apply Hmax; right; left; reflexivity).
    simpl. replace (x <? fst p1)%nat with false by (symmetry; apply Nat.ltb_ge; lia).
    apply IH; try assumption; try lia.
    + destruct (increasing_In_head _ _ _ Hs Ha) as [-> | [Hin _]]; [|exact Hin].
      inversion Hs as [|? ? _ Hall]; subst. inversion Hall; subst. lia.
    + intros p Hp. apply Hmax. right; exact Hp.
Qed.

(** An interior gap: the null rows strictly between two known rows, with no
    known row in between, receive the [lerp] of those two rows. *)
Lemma interpolate_1d_interior (y : list float) (i0 i i1 : nat) (v0 v v1 : float) :
  nth_error y i0 = Some v0 -> isna v0 = false ->
  nth_error y i1 = Some v1 -> isna v1 = false ->
  nth_error y i = Some v ->
  (i0 < i < i1)%nat ->
  (forall j w, (i0 < j < i1)%nat -> nth_error y j = Some w -> isna w = true) ->
  nth_error (interpolate_1d y) i = Some (lerp (i0, v0) (i1, v1) i).
Proof.
  intros H0 N0 H1 N1 Hi Hlt Hgap.
  rewrite (interpolate_1d_nth_error y i v Hi).
  assert (In0 : In (i0, v0) (valid_points y)) by (apply valid_points_In; auto).
  assert (In1 : In (i1, v1) (valid_points y)) by (apply valid_points_In; auto).
  pose proof (valid_points_increasing y) as Hs.
  destruct (valid_points y) as [|[fv w] pts] eqn:E; [destruct In0|].
  rewrite (Hgap i v Hlt Hi).
  assert (Hfv : (fv <= i0)%nat).
  { destruct (increasing_In_head _ _ _ Hs In0) as [Eq | [_ Hl]].
    - injection Eq as -> _. lia.
    - simpl in Hl. lia. }
  replace (i <? fv)%nat with false by (symmetry; apply Nat.ltb_ge; lia).
  f_equal. unfold np_interp. simpl fst.
  replace (i <? fv)%nat with false by (symmetry; apply Nat.ltb_ge; lia).
  apply interp_scan_between;
    [assumption | simpl; lia | assumption | assumption | simpl; lia | simpl; lia |].
  intros [j u] Hp Hbetween. simpl in Hbetween.
  rewrite <- E in Hp. apply valid_points_In in Hp. destruct Hp as [Hj Hu].
  rewrite (Hgap j u Hbetween Hj) in Hu. discriminate.
Qed.

(** A trailing gap: the null rows after the last known row receive the last
    known value. *)
Lemma interpolate_1d_trailing (y : list float) (i0 i : nat) (v0 v : float) :
  nth_error y i0 = Some v0 -> isna v0 = false ->
  nth_error y i = Some v ->
  (i0 < i)%nat ->
  (forall j w, (i0 < j)%nat -> nth_error y j = Some w -> isna w = true) ->
  nth_error (interpolate_1d y) i = Some v0.
Proof.
  intros H0 N0 Hi Hlt Hgap.
  rewrite (interpolate_1d_nth_error y i v Hi).
  assert (In0 : In (i0, v0) (valid_points y)) by (apply valid_points_In; auto).
  pose proof (valid_points_increasing y) as Hs.
  destruct (valid_points y) as [|[fv w] pts] eqn:E; [destruct In0|].
  rewrite (Hgap i v Hlt Hi).
  assert (Hfv : (fv <= i0)%nat).
  { destruct (increasing_In_head _ _ _ Hs In0) as [Eq | [_ Hl]].
    - injection Eq as -> _. lia.
    - simpl in Hl. lia. }
  replace (i <? fv)%nat with false by (symmetry; apply Nat.ltb_ge; lia).
  f_equal. unfold np_interp. simpl fst.
  replace (i <? fv)%nat with false by (symmetry; apply Nat.ltb_ge; lia).
  change v0 with (snd (i0, v0)).
  apply interp_scan_last;
    [assumption | simpl; lia | assumption | simpl; lia |].
  intros [j u] Hp. simpl.
  rewrite <- E in Hp. apply valid_points_In in Hp. destruct Hp as [Hj Hu].
  destruct (Nat.le_gt_cases j i0) as [Hle | Hgt]; [exact Hle|].
  rewrite (Hgap j u Hgt Hj) in Hu. discriminate.
Qed.

End Interpolation.

Section Tables.

Lemma date_mem_In (d : Z) (idx : list Z) : date_mem d idx = true <-> In d idx.
Proof.
  unfold date_mem. rewrite existsb_exists. split.
  - intros (x & Hx & E). apply Z.eqb_eq in E. subst; assumption.
  - intros H. exists d. split; [assumption | apply Z.eqb_refl].
Qed.

Lemma date_mem_false (d : Z) (idx : list Z) : date_mem d idx = false <-> ~ In d idx.
Proof.
  rewrite <- date_mem_In. destruct (date_mem d idx); split; congruence.
Qed.

Lemma lookup_not_In (d : Z) (s : series) : ~ In d (dates s) -> lookup d s = None.
Proof.
  induction s as [|[d' v] s IH]; simpl; intros H; [reflexivity|].
  destruct (Z.eqb_spec d d') as [-> | Hne]; [exfalso; apply H; left; reflexivity|].
  apply IH. intros Hin. apply H. right; exact Hin.
Qed.

Lemma lookup_Some_In (d : Z) (s : series) (v : float) :
  lookup d s = Some v -> In (d, v) s.
Proof.
  induction s as [|[d' w] s IH]; simpl; [discriminate|].
  destruct (Z.eqb_spec d d') as [-> | Hne].
  - intros H; injection H as ->. left; reflexivity.
  - intros H. right. apply IH, H.
Qed.

Lemma lookup_Some_dates (d : Z) (s : series) (v : float) :
  lookup d s = Some v -> In d (dates s).
Proof.
  intros H. apply lookup_Some_In in H. apply (in_map fst) in H. exact H.
Qed.

Lemma lookup_combine_not_In (d : Z) (idx : list Z) (col : list float) :
  ~ In d idx -> lookup d (combine idx col) = None.
Proof.
  intros H. apply lookup_not_In. intros Hin. apply H.
  unfold dates in Hin. apply in_map_iff in Hin. destruct Hin as ([x v] & E & Hin).
  simpl in E; subst x. apply in_combine_l in Hin. exact Hin.
Qed.

Lemma lookup_combine_map (f : Z -> float) (d : Z) (idx : list Z) :
  lookup d (combine idx (map f idx)) = if date_mem d idx then Some (f d) else None.
Proof.
  induction idx as [|x idx IH]; simpl; [reflexivity|].
  destruct (Z.eqb_spec d x) as [-> | Hne]; simpl; [reflexivity | exact IH].
Qed.

Lemma take_map (f : Z -> float) (d : Z) (idx : list Z) :
  take idx (map f idx) d = if date_mem d idx then f d else nan.
Proof.
  unfold take. rewrite lookup_combine_map. destruct (date_mem d idx); reflexivity.
Qed.

Lemma take_not_In (d : Z) (idx : list Z) (col : list float) :
  ~ In d idx -> take idx col d = nan.
Proof. intros H. unfold take. rewrite lookup_combine_not_In by exact H. reflexivity. Qed.

Lemma assoc_map_snd {A B : Type} (g : A -> B) (c : str) (l : list (str * A)) :
  assoc c (map (fun e => (fst e, g (snd e))) l) = option_map g (assoc c l).
Proof.
  induction l as [|[c' a] l IH]; simpl; [reflexivity|].
  destruct (str_eqb c c'); [reflexivity | exact IH].
Qed.

Lemma assoc_Some_In {A : Type} (c : str) (l : list (str * A)) (a : A) :
  assoc c l = Some a -> In (c, a) l.
Proof.
  induction l as [|[c' b] l IH]; simpl; [discriminate|].
  destruct (str_eqb c c') eqn:E.
  - intros H; injection H as ->. apply str_eqb_eq in E. subst. left; reflexivity.
  - intros H. right. apply IH, H.
Qed.

Lemma assoc_None {A : Type} (c : str) (l : list (str * A)) :
  assoc c l = None <-> ~ In c (map fst l).
Proof.
  induction l as [|[c' b] l IH]; simpl; [tauto|].
  destruct (str_eqb c c') eqn:E.
  - apply str_eqb_eq in E. subst. split; [discriminate | intros H; exfalso; apply H; left; reflexivity].
  - apply str_eqb_neq in E. rewrite IH. split.
    + intros H [H' | H']; [congruence | tauto].
    + intros H H'. apply H. right; exact H'.
Qed.

Lemma assoc_In_Some {A : Type} (c : str) (l : list (str * A)) :
  In c (map fst l) -> exists a, assoc c l = Some a.
Proof.
  intros H. destruct (assoc c l) as [a|] eqn:E; [exists a; reflexivity|].
  apply assoc_None in E. contradiction.
Qed.

(** Cells of a reindexed table. *)
Lemma cell_reindex (t : frame) (idx : list Z) (d : Z) (c : str) :
  cell (reindex t idx) d c = if date_mem d idx then cell t d c else nan.
Proof.
  unfold cell, reindex, column; simpl.
  rewrite (assoc_map_snd (fun col => map (take (index t) col) idx)).
  destruct (assoc c (columns t)) as [col|]; simpl.
  - apply take_map.
  - destruct (date_mem d idx); reflexivity.
Qed.

Lemma cell_absent_date (t : frame) (d : Z) (c : str) :
  ~ In d (index t) -> cell t d c = nan.
Proof.
  intros H. unfold cell. destruct (column c (columns t)); [|reflexivity].
  apply take_not_In, H.
Qed.

Lemma labels_reindex (t : frame) (idx : list Z) : labels (reindex t idx) = labels t.
Proof. unfold labels, reindex; simpl. rewrite map_map. reflexivity. Qed.

(** Sorting. *)
Lemma insert_sorted_In (d x : Z) (l : list Z) :
  In x (insert_sorted d l) <-> x = d \/ In x l.
Proof.
  induction l as [|y l IH]; simpl; [intuition|].
  destruct (d <=? y); simpl; [intuition|]. rewrite IH. intuition.
Qed.

Lemma sort_In (x : Z) (l : list Z) : In x (sort l) <-> In x l.
Proof.
  induction l as [|y l IH]; simpl; [tauto|].
  rewrite insert_sorted_In, IH. intuition.
Qed.

Lemma insert_sorted_strict (d : Z) (l : list Z) :
  StronglySorted Z.lt l -> ~ In d l -> StronglySorted Z.lt (insert_sorted d l).
Proof.
  induction 1 as [|y l Hs IH Hall]; intros Hnin; simpl.
  - constructor; constructor.
  - rewrite Forall_forall in Hall.
    destruct (Z.leb_spec d y) as [Hle | Hgt].
    + assert (d < y) by (assert (d <> y) by (intros ->; apply Hnin; left; reflexivity); lia).
      constructor; [constructor; [assumption | apply Forall_forall; assumption]|].
      apply Forall_forall. intros x [<- | Hx]; [assumption|].
      specialize (Hall x Hx). lia.
    + constructor.
      * apply IH. intros Hin. apply Hnin. right; exact Hin.
      * apply Forall_forall. intros x Hx. apply insert_sorted_In in Hx.
        destruct Hx as [-> | Hx]; [lia | apply Hall, Hx].
Qed.

Lemma sort_strict (l : list Z) : NoDup l -> StronglySorted Z.lt (sort l).
Proof.
  induction 1 as [|x l Hnin Hnd IH]; simpl; [constructor|].
  apply insert_sorted_strict; [exact IH|]. rewrite sort_In. exact Hnin.
Qed.

Lemma cell_sort_index (t : frame) (d : Z) (c : str) :
  cell (sort_index t) d c = cell t d c.
Proof.
  unfold sort_index. rewrite cell_reindex.
  destruct (date_mem d (sort (index t))) eqn:E; [reflexivity|].
  apply date_mem_false in E. rewrite sort_In in E.
  symmetry. apply cell_absent_date, E.
Qed.

(** The union of indexes. *)
Lemma index_union_In (a b : list Z) (d : Z) :
  In d (index_union a b) <-> In d a \/ In d b.
Proof.
  unfold index_union. revert a. induction b as [|x b IH]; intros a; simpl; [tauto|].
  rewrite IH. destruct (date_mem x a) eqn:E.
  - apply date_mem_In in E. split; [tauto|]. intros [H | [<- | H]]; tauto.
  - rewrite in_app_iff; simpl. tauto.
Qed.

Lemma index_union_NoDup (a b : list Z) : NoDup a -> NoDup (index_union a b).
Proof.
  unfold index_union. revert a. induction b as [|x b IH]; intros a Ha; simpl; [exact Ha|].
  apply IH. destruct (date_mem x a) eqn:E; [exact Ha|].
  apply date_mem_false in E.
  apply NoDup_rev in Ha. rewrite <- (rev_involutive (a ++ [x])).
  apply NoDup_rev. rewrite rev_app_distr; simpl. constructor; [|exact Ha].
  rewrite <- in_rev. exact E.
Qed.

Lemma concat_index_In (pn : list (str * series)) (d : Z) :
  In d (index (concat pn)) <-> exists c s, In (c, s) pn /\ In d (dates s).
Proof.
  unfold concat; simpl.
  assert (G : forall acc,
             In d (fold_left (fun acc f => index_union acc (dates (snd f))) pn acc) <->
             In d acc \/ exists c s, In (c, s) pn /\ In d (dates s)).
  { induction pn as [|[c s] pn IH]; intros acc; simpl.
    - split; [tauto | intros [H | (c & s & [] & _)]; exact H].
    - rewrite IH, index_union_In. split.
      + intros [[H | H] | (c' & s' & H1 & H2)].
        * left; exact H.
        * right. exists c, s. split; [left; reflexivity | exact H].
        * right. exists c', s'. split; [right; exact H1 | exact H2].
      + intros [H | (c' & s' & [E | H1] & H2)].
        * left; left; exact H.
        * injection E as <- <-. left; right; exact H2.
        * right. exists c', s'. split; assumption. }
  rewrite G. simpl. tauto.
Qed.

Lemma concat_index_NoDup (pn : list (str * series)) : NoDup (index (concat pn)).
Proof.
  unfold concat; simpl.
  assert (G : forall acc, NoDup acc ->
             NoDup (fold_left (fun acc f => index_union acc (dates (snd f))) pn acc)).
  { induction pn as [|[c s] pn IH]; intros acc Hacc; simpl; [exact Hacc|].
    apply IH, index_union_NoDup, Hacc. }
  apply G. constructor.
Qed.

Lemma cell_concat (pn : list (str * series)) (d : Z) (c : str) :
  cell (concat pn) d c =
  match assoc c pn with
  | Some s => value_or_nan (lookup d s)
  | None => nan
  end.
Proof.
  unfold cell, column.
  remember (index (concat pn)) as idx eqn:Eidx.
  assert (Hc : columns (concat pn) =
               map (fun f : str * series =>
                      (fst f, (fun s => map (fun d => value_or_nan (lookup d s)) idx)
                                (snd f))) pn)
    by (subst idx; reflexivity).
  rewrite Hc.
  rewrite (assoc_map_snd (fun s => map (fun d => value_or_nan (lookup d s)) idx)).
  destruct (assoc c pn) as [s|] eqn:E; simpl; [|reflexivity].
  rewrite take_map. destruct (date_mem d idx) eqn:Hd; [reflexivity|].
  apply date_mem_false in Hd. subst idx. rewrite concat_index_In in Hd.
  rewrite lookup_not_In; [reflexivity|].
  intros Hin. apply Hd. exists c, s. split; [apply assoc_Some_In, E | exact Hin].
Qed.

(** The merged table, cell by cell. *)
Lemma cell_merge (pn : list (str * series)) (d : Z) (c : str) :
  cell (merge pn) d c =
  match assoc c pn with
  | Some s => value_or_nan (lookup d s)
  | None => nan
  end.
Proof. unfold merge. rewrite cell_sort_index. apply cell_concat. Qed.

Lemma merge_index_In (pn : list (str * series)) (d : Z) :
  In d (index (merge pn)) <-> exists c s, In (c, s) pn /\ In d (dates s).
Proof. unfold merge, sort_index; simpl. rewrite sort_In. apply concat_index_In. Qed.

Lemma merge_index_sorted (pn : list (str * series)) :
  StronglySorted Z.lt (index (merge pn)).
Proof. unfold merge, sort_index; simpl. apply sort_strict, concat_index_NoDup. Qed.

Lemma merge_labels (pn : list (str * series)) : labels (merge pn) = map fst pn.
Proof.
  unfold merge, sort_index. rewrite labels_reindex.
  unfold labels, concat; simpl. rewrite map_map. reflexivity.
Qed.

Lemma merge_column_length (pn : list (str * series)) (c : str) (col : list float) :
  In (c, col) (columns (merge pn)) -> length col = length (index (merge pn)).
Proof.
  unfold merge, sort_index, reindex; simpl. intros H.
  apply in_map_iff in H. destruct H as (e & E & _). injection E as _ <-.
  apply length_map.
Qed.

End Tables.

Section Calendar.

Lemma fold_min_spec (l : list Z) :
  forall d, let m := fold_left Z.min l d in
            In m (d :: l) /\ forall x, In x (d :: l) -> m <= x.
Proof.
  induction l as [|y l IH]; intros d; simpl.
  - split; [left; reflexivity | intros x [<- | []]; lia].
  - destruct (IH (Z.min d y)) as [Hin Hle]. split.
    + destruct Hin as [E | Hin]; [|right; right; exact Hin].
      rewrite <- E. destruct (Z.min_spec d y) as [[_ ->] | [_ ->]]; [left | right; left]; reflexivity.
    + intros x [E | [E | Hx]].
      * specialize (Hle (Z.min d y) (or_introl eq_refl)). lia.
      * specialize (Hle (Z.min d y) (or_introl eq_refl)). lia.
      * apply Hle. right; exact Hx.
Qed.

Lemma fold_max_spec (l : list Z) :
  forall d, let m := fold_left Z.max l d in
            In m (d :: l) /\ forall x, In x (d :: l) -> x <= m.
Proof.
  induction l as [|y l IH]; intros d; simpl.
  - split; [left; reflexivity | intros x [<- | []]; lia].
  - destruct (IH (Z.max d y)) as [Hin Hle]. split.
    + destruct Hin as [E | Hin]; [|right; right; exact Hin].
      rewrite <- E. destruct (Z.max_spec d y) as [[_ ->] | [_ ->]]; [right; left | left]; reflexivity.
    + intros x [E | [E | Hx]].
      * specialize (Hle (Z.max d y) (or_introl eq_refl)). lia.
      * specialize (Hle (Z.max d y) (or_introl eq_refl)). lia.
      * apply Hle. right; exact Hx.
Qed.

Lemma index_min_spec (idx : list Z) (lo : Z) :
  index_min idx = Some lo -> In lo idx /\ forall x, In x idx -> lo <= x.
Proof.
  destruct idx as [|d idx]; simpl; [discriminate|].
  intros H; injection H as <-. apply fold_min_spec.
Qed.

Lemma index_max_spec (idx : list Z) (hi : Z) :
  index_max idx = Some hi -> In hi idx /\ forall x, In x idx -> x <= hi.
Proof.
  destruct idx as [|d idx]; simpl; [discriminate|].
  intros H; injection H as <-. apply fold_max_spec.
Qed.

Lemma index_min_None (idx : list Z) : index_min idx = None <-> idx = [].
Proof. destruct idx; simpl; split; congruence. Qed.

Lemma days_from_In (n : nat) :
  forall a d, In d (days_from a n) <-> a <= d < a + Z.of_nat n.
Proof.
  induction n as [|n IH]; intros a d.
  - simpl. lia.
  - change (days_from a (S n)) with (a :: days_from (a + 1) n).
    simpl In. rewrite IH. lia.
Qed.

Lemma days_from_length (n : nat) : forall a, length (days_from a n) = n.
Proof. induction n as [|n IH]; intros a; simpl; [reflexivity | rewrite IH; reflexivity]. Qed.

Lemma days_from_NoDup (n : nat) : forall a, NoDup (days_from a n).
Proof.
  induction n as [|n IH]; intros a; simpl; constructor.
  - rewrite days_from_In. lia.
  - apply IH.
Qed.

Lemma days_from_sorted (n : nat) : forall a, StronglySorted Z.lt (days_from a n).
Proof.
  induction n as [|n IH]; intros a; simpl; constructor.
  - apply IH.
  - apply Forall_forall. intros x Hx. apply days_from_In in Hx. lia.
Qed.

Lemma days_from_nth_error (n : nat) :
  forall a i, (i < n)%nat -> nth_error (days_from a n) i = Some (a + Z.of_nat i).
Proof.
  induction n as [|n IH]; intros a i Hi; [lia|].
  destruct i as [|i]; simpl.
  - f_equal. lia.
  - rewrite IH by lia. f_equal. lia.
Qed.

Lemma map_days_from_nth_error (f : Z -> float) (n : nat) (a : Z) (j : nat) (w : float) :
  nth_error (map f (days_from a n)) j = Some w ->
  (j < n)%nat /\ w = f (a + Z.of_nat j).
Proof.
  intros H. assert (Hj : (j < n)%nat).
  { rewrite <- (days_from_length n a), <- (length_map f).
    apply nth_error_Some. congruence. }
  split; [exact Hj|].
  rewrite nth_error_map, (days_from_nth_error n a j Hj) in H. simpl in H. congruence.
Qed.

Lemma take_days_from (n : nat) :
  forall a col i v,
    (i < n)%nat -> nth_error col i = Some v ->
    take (days_from a n) col (a + Z.of_nat i) = v.
Proof.
  unfold take. induction n as [|n IH]; intros a col i v Hi Hc; [lia|].
  destruct col as [|v0 col]; [destruct i; discriminate|].
  destruct i as [|i].
  - simpl in Hc. injection Hc as ->.
    change (days_from a (S n)) with (a :: days_from (a + 1) n). simpl.
    rewrite Z.add_0_r, Z.eqb_refl. reflexivity.
  - simpl in Hc.
    change (days_from a (S n)) with (a :: days_from (a + 1) n).
    cbn [combine lookup].
    destruct (Z.eqb_spec (a + Z.of_nat (S i)) a) as [E | _]; [lia|].
    replace (a + Z.of_nat (S i)) with (a + 1 + Z.of_nat i) by lia.
    apply IH; [lia | exact Hc].
Qed.

(** The calendar of a table with at least one row is every day from the
    smallest to the largest row label. *)
Lemma calendar_Ok (t : frame) (idx : list Z) :
  calendar t = Ok idx ->
  exists lo hi,
    index_min (index t) = Some lo /\ index_max (index t) = Some hi /\
    lo <= hi /\ idx = days_from lo (Z.to_nat (hi - lo + 1)).
Proof.
  unfold calendar, date_range.
  destruct (index_min (index t)) as [lo|] eqn:Elo; [|discriminate].
  destruct (index_max (index t)) as [hi|] eqn:Ehi; [|discriminate].
  intros H; injection H as <-. exists lo, hi. repeat split; try reflexivity.
  destruct (index_min_spec _ _ Elo) as [Hin _].
  destruct (index_max_spec _ _ Ehi) as [_ Hle]. apply Hle, Hin.
Qed.

Lemma calendar_nonempty (t : frame) :
  index t <> [] -> exists idx, calendar t = Ok idx.
Proof.
  unfold calendar, date_range. destruct (index t) as [|d l]; [congruence|].
  intros _. simpl. eexists; reflexivity.
Qed.

Lemma calendar_empty (t : frame) : index t = [] -> calendar t = Raise ValueError.
Proof. unfold calendar. intros ->. reflexivity. Qed.

Lemma calendar_In (t : frame) (idx : list Z) (lo hi : Z) :
  calendar t = Ok idx ->
  index_min (index t) = Some lo -> index_max (index t) = Some hi ->
  forall d, In d idx <-> lo <= d <= hi.
Proof.
  intros H Elo Ehi d. destruct (calendar_Ok t idx H) as (lo' & hi' & E1 & E2 & Hle & ->).
  rewrite Elo in E1. rewrite Ehi in E2. injection E1 as <-. injection E2 as <-.
  rewrite days_from_In. lia.
Qed.

Lemma calendar_covers (t : frame) (idx : list Z) :
  calendar t = Ok idx -> forall d, In d (index t) -> In d idx.
Proof.
  intros H d Hd. destruct (calendar_Ok t idx H) as (lo & hi & E1 & E2 & Hle & ->).
  destruct (index_min_spec _ _ E1) as [_ Hlo].
  destruct (index_max_spec _ _ E2) as [_ Hhi].
  rewrite days_from_In. specialize (Hlo d Hd). specialize (Hhi d Hd). lia.
Qed.

End Calendar.

Section Resampling.

Variable t : frame.
Variable lo : Z.
Variable n : nat.

Let idx := days_from lo n.

(** The column [c] of [t] laid out on the calendar, before interpolation. *)
Let laid (c : str) : list float := map (fun d => cell t d c) idx.

Lemma resample_index : index (resample t idx) = idx.
Proof. reflexivity. Qed.

Lemma resample_labels : labels (resample t idx) = labels t.
Proof.
  unfold resample, interpolate, labels; simpl. rewrite !map_map. reflexivity.
Qed.

Lemma cell_resample_no_column (c : str) (d : Z) :
  ~ In c (labels t) -> cell (resample t idx) d c = nan.
Proof.
  intros H. unfold cell, column.
  replace (assoc c (columns (resample t idx))) with (@None (list float)); [reflexivity|].
  symmetry. apply assoc_None. fold (labels (resample t idx)).
  rewrite resample_labels. exact H.
Qed.

Lemma cell_resample (c : str) (d : Z) :
  In c (labels t) ->
  cell (resample t idx) d c = take idx (interpolate_1d (laid c)) d.
Proof.
  intros H. apply assoc_In_Some in H. destruct H as [col Hcol].
  unfold cell, column, resample, interpolate. simpl.
  rewrite (assoc_map_snd interpolate_1d).
  rewrite (assoc_map_snd (fun col => map (take (index t) col) idx)).
  rewrite Hcol. simpl. f_equal. f_equal. unfold laid.
  apply map_ext. intros d'. unfold cell, column. rewrite Hcol. reflexivity.
Qed.

Lemma cell_resample_outside (c : str) (d : Z) :
  ~ In d idx -> cell (resample t idx) d c = nan.
Proof. intros H. apply cell_absent_date. exact H. Qed.

Lemma laid_nth_error (c : str) (i : nat) :
  (i < n)%nat -> nth_error (laid c) i = Some (cell t (lo + Z.of_nat i) c).
Proof.
  intros Hi. unfold laid, idx. rewrite nth_error_map, days_from_nth_error by exact Hi.
  reflexivity.
Qed.

Lemma cell_resample_nth (c : str) (i : nat) (v : float) :
  In c (labels t) -> (i < n)%nat ->
  nth_error (interpolate_1d (laid c)) i = Some v ->
  cell (resample t idx) (lo + Z.of_nat i) c = v.
Proof.
  intros Hc Hi Hv. rewrite cell_resample by exact Hc.
  apply take_days_from; assumption.
Qed.

Lemma notna_cell_label (c : str) (d : Z) :
  isna (cell t d c) = false -> In c (labels t).
Proof.
  unfold cell, column. destruct (assoc c (columns t)) as [col|] eqn:E.
  - intros _. apply assoc_Some_In in E. apply (in_map fst) in E. exact E.
  - discriminate.
Qed.

Lemma notna_cell_date (c : str) (d : Z) :
  isna (cell t d c) = false -> In d (index t).
Proof.
  intros H. destruct (date_mem d (index t)) eqn:E; [apply date_mem_In, E|].
  apply date_mem_false in E. rewrite (cell_absent_date t d c E) in H. discriminate.
Qed.

(** Known cells are kept by resampling. *)
Lemma resample_known (c : str) (d : Z) :
  In d idx -> isna (cell t d c) = false ->
  cell (resample t idx) d c = cell t d c.
Proof.
  intros Hd Hv. apply days_from_In in Hd.
  replace d with (lo + Z.of_nat (Z.to_nat (d - lo))) by lia.
  apply cell_resample_nth.
  - apply (notna_cell_label c d Hv).
  - lia.
  - apply interpolate_1d_known.
    + apply laid_nth_error. lia.
    + replace (lo + Z.of_nat (Z.to_nat (d - lo))) with d by lia. exact Hv.
Qed.

Lemma label_cases (c : str) : In c (labels t) \/ ~ In c (labels t).
Proof.
  destruct (assoc c (columns t)) as [col|] eqn:E.
  - left. apply assoc_Some_In in E. apply (in_map fst) in E. exact E.
  - right. apply assoc_None, E.
Qed.

Lemma day_cases (d : Z) : In d idx \/ ~ In d idx.
Proof.
  destruct (date_mem d idx) eqn:E; [left; apply date_mem_In | right; apply date_mem_false];
    exact E.
Qed.

(** Days before a column's first known value stay null. *)
Lemma resample_leading (c : str) (d : Z) :
  (forall d', d' <= d -> isna (cell t d' c) = true) ->
  isna (cell (resample t idx) d c) = true.
Proof.
  intros Hlead.
  destruct (label_cases c) as [Hc | Hc];
    [|rewrite cell_resample_no_column by exact Hc; reflexivity].
  destruct (day_cases d) as [Hd | Hd];
    [|rewrite cell_resample_outside by exact Hd; reflexivity].
  apply days_from_In in Hd.
  set (i := Z.to_nat (d - lo)).
  assert (Hi : (i < n)%nat) by (unfold i; lia).
  assert (Ed : d = lo + Z.of_nat i) by (unfold i; lia).
  clearbody i. subst d.
  destruct (interpolate_1d_leading (laid c) i (cell t (lo + Z.of_nat i) c))
    as (r & Hr & Hna).
  - apply laid_nth_error, Hi.
  - intros j w Hj Hw. apply map_days_from_nth_error in Hw. destruct Hw as [_ ->].
    apply Hlead. lia.
  - rewrite (cell_resample_nth c i r Hc Hi Hr). exact Hna.
Qed.

(** Days after a column's last known value receive that value. *)
Lemma resample_trailing (c : str) (d0 d : Z) :
  In d0 idx -> In d idx -> d0 < d ->
  isna (cell t d0 c) = false ->
  (forall d', d0 < d' -> isna (cell t d' c) = true) ->
  cell (resample t idx) d c = cell t d0 c.
Proof.
  intros H0 Hd Hlt Hv Htrail.
  pose proof (notna_cell_label c d0 Hv) as Hc.
  apply days_from_In in H0. apply days_from_In in Hd.
  set (i0 := Z.to_nat (d0 - lo)). set (i := Z.to_nat (d - lo)).
  assert (Hi0 : (i0 < n)%nat) by (unfold i0; lia).
  assert (Hi : (i < n)%nat) by (unfold i; lia).
  assert (E0 : d0 = lo + Z.of_nat i0) by (unfold i0; lia).
  assert (Ed : d = lo + Z.of_nat i) by (unfold i; lia).
  clearbody i0 i. subst d0 d.
  apply cell_resample_nth; [exact Hc | exact Hi |].
  apply (interpolate_1d_trailing (laid c) i0 i _ (cell t (lo + Z.of_nat i) c)).
  - apply laid_nth_error, Hi0.
  - exact Hv.
  - apply laid_nth_error, Hi.
  - lia.
  - intros j w Hj Hw. apply map_days_from_nth_error in Hw. destruct Hw as [_ ->].
    apply Htrail. lia.
Qed.

(** Days of an interior gap receive the [lerp] of the two known values
    that enclose the gap. *)
Lemma resample_interior (c : str) (d0 d d1 : Z) :
  In d0 idx -> In d1 idx -> d0 < d < d1 ->
  isna (cell t d0 c) = false -> isna (cell t d1 c) = false ->
  (forall d', d0 < d' < d1 -> isna (cell t d' c) = true) ->
  cell (resample t idx) d c =
  lerp (Z.to_nat (d0 - lo), cell t d0 c) (Z.to_nat (d1 - lo), cell t d1 c)
       (Z.to_nat (d - lo)).
Proof.
  intros H0 H1 Hlt Hv0 Hv1 Hgap.
  pose proof (notna_cell_label c d0 Hv0) as Hc.
  apply days_from_In in H0. apply days_from_In in H1.
  set (i0 := Z.to_nat (d0 - lo)). set (i1 := Z.to_nat (d1 - lo)).
  set (i := Z.to_nat (d - lo)).
  assert (Hi0 : (i0 < n)%nat) by (unfold i0; lia).
  assert (Hi1 : (i1 < n)%nat) by (unfold i1; lia).
  assert (Hi : (i < n)%nat) by (unfold i; lia).
  assert (E0 : d0 = lo + Z.of_nat i0) by (unfold i0; lia).
  assert (E1 : d1 = lo + Z.of_nat i1) by (unfold i1; lia).
  assert (Ed : d = lo + Z.of_nat i) by (unfold i; lia).
  clearbody i0 i1 i. subst d0 d1 d.
  apply cell_resample_nth; [exact Hc | exact Hi |].
  apply (interpolate_1d_interior (laid c) i0 i i1 _ (cell t (lo + Z.of_nat i) c) _).
  - apply laid_nth_error, Hi0.
  - exact Hv0.
  - apply laid_nth_error, Hi1.
  - exact Hv1.
  - apply laid_nth_error, Hi.
  - lia.
  - intros j w Hj Hw. apply map_days_from_nth_error in Hw. destruct Hw as [_ ->].
    apply Hgap. lia.
Qed.

End Resampling.

(* ================================================================== *)
(** * Product names *)

Section ProductNames.

(** The product name is the trailing run of name characters of the stem. *)
Example extract_product_name_trailing_run :
  Closed.extract_product_name Example.name_report = Example.fab_a /\
  Open.extract_product_name Example.name_report = Example.fab_a.
Proof. split; reflexivity. Qed.

(** Without such a run the stem is the name; only the open-end script
    strips it. *)
Example extract_product_name_fallback :
  Closed.extract_product_name Example.name_draft
    = [0x64; 0x72; 0x61; 0x66; 0x74; 0x20]%N /\
  Open.extract_product_name Example.name_draft
    = [0x64; 0x72; 0x61; 0x66; 0x74]%N.
Proof. split; reflexivity. Qed.

End ProductNames.

(* ================================================================== *)
(** * The merged table *)

Section MergedTable.

Lemma strict_sorted_NoDup (l : list Z) : StronglySorted Z.lt l -> NoDup l.
Proof.
  induction 1 as [|x l Hs IH Hall]; constructor; [|exact IH].
  rewrite Forall_forall in Hall. intros Hin. specialize (Hall x Hin). lia.
Qed.

Lemma merged_of_merge (v : script) (pn : list (str * series)) :
  merged_of v pn = merge pn.
Proof. destruct v; reflexivity. Qed.

(** C5.  In both scripts the row labels of the merged table are the dates
    of the folder's series, each once and in increasing order; the table has
    one column per product, in the order of [product_nav], every column as
    long as the index; and a cell holds the product's value at that date, or
    null where the product has no row for the date. *)
Theorem merged_table_is_outer_join (v : script) (pn : list (str * series)) :
  let m := merged_of v pn in
  StronglySorted Z.lt (index m) /\
  NoDup (index m) /\
  (forall d, In d (index m) <-> exists c s, In (c, s) pn /\ In d (dates s)) /\
  labels m = map fst pn /\
  (forall c col, In (c, col) (columns m) -> length col = length (index m)) /\
  (forall c s d, dict_get c pn = Some s -> ~ In d (dates s) ->
                 isna (cell m d c) = true) /\
  (forall c s d x, dict_get c pn = Some s -> lookup d s = Some x ->
                   cell m d c = x).
Proof.
  intros m. unfold m. rewrite merged_of_merge. repeat split.
  - apply merge_index_sorted.
  - apply strict_sorted_NoDup, merge_index_sorted.
  - apply merge_index_In.
  - apply merge_index_In.
  - apply merge_labels.
  - apply merge_column_length.
  - intros c s d Hs Hd. rewrite cell_merge. unfold dict_get in Hs. rewrite Hs.
    rewrite lookup_not_In by exact Hd. reflexivity.
  - intros c s d x Hs Hx. rewrite cell_merge. unfold dict_get in Hs. rewrite Hs, Hx.
    reflexivity.
Qed.

Example merged_example (v : script) : merged_of v Example.nav = Example.merged.
Proof. destruct v; vm_compute; reflexivity. Qed.

End MergedTable.

(* ================================================================== *)
(** * The calendar-resampled table *)

Section ResampledTable.

Lemma resampled_of_Ok (v : script) (pn : list (str * series)) (p : frame) :
  resampled_of v pn = Ok p ->
  exists idx, calendar (merge pn) = Ok idx /\ p = resample (merge pn) idx.
Proof.
  destruct v; unfold resampled_of, Closed.plot_nav, Closed.full_idx,
    Closed.merged_nav, Open.df_plot_raw, Open.full_idx, Open.df_raw, bind;
    destruct (calendar (merge pn)) as [idx|e]; try discriminate;
    intros H; injection H as <-; exists idx; split; reflexivity.
Qed.

(** A folder with at least one dated value does get its resampled table. *)
Lemma resampled_of_exists (v : script) (pn : list (str * series)) :
  index (merge pn) <> [] -> exists p, resampled_of v pn = Ok p.
Proof.
  intros H. destruct (calendar_nonempty _ H) as [idx E].
  exists (resample (merge pn) idx).
  destruct v; unfold resampled_of, Closed.plot_nav, Closed.full_idx,
    Closed.merged_nav, Open.df_plot_raw, Open.full_idx, Open.df_raw, bind;
    rewrite E; reflexivity.
Qed.

(** C1, as the scripts have it.  In both scripts a column of the resampled
    table stays null on every day before the column's first known value,
    and on every day of the table after the column's last known value it
    repeats that last value. *)
Theorem resampled_outside_known_range
    (v : script) (pn : list (str * series)) (p : frame) (c : str) (d : Z) :
  resampled_of v pn = Ok p ->
  let m := merged_of v pn in
  ((forall d', d' <= d -> isna (cell m d' c) = true) ->
   isna (cell p d c) = true) /\
  (forall d0, In d (index p) -> d0 < d ->
              isna (cell m d0 c) = false ->
              (forall d', d0 < d' -> isna (cell m d' c) = true) ->
              cell p d c = cell m d0 c).
Proof.
  intros Hp m. unfold m. rewrite merged_of_merge.
  destruct (resampled_of_Ok v pn p Hp) as (idx & Hcal & ->).
  pose proof (calendar_covers _ _ Hcal) as Hcov.
  destruct (calendar_Ok _ _ Hcal) as (lo & hi & _ & _ & _ & ->).
  split.
  - apply resample_leading.
  - intros d0 Hd Hlt Hv Htrail. apply resample_trailing; try assumption.
    apply Hcov. apply (notna_cell_date _ c d0 Hv).
Qed.

(** C4.  In both scripts a folder with at least one dated value gets its
    resampled table; the table has one row for each day from the smallest
    to the largest date of the merged table, each column as long as the
    index, and on a day inside a gap of a column the cell is numpy's linear
    interpolation between the known values that enclose the gap (positions
    counted in days from the first row). *)
Theorem resampled_calendar_and_interior
    (v : script) (pn : list (str * series)) :
  index (merged_of v pn) <> [] ->
  let m := merged_of v pn in
  exists p lo hi,
    resampled_of v pn = Ok p /\
    index_min (index m) = Some lo /\ index_max (index m) = Some hi /\
    (forall d, In d (index m) -> lo <= d <= hi) /\
    index p = days_from lo (Z.to_nat (hi - lo + 1)) /\
    NoDup (index p) /\
    (forall d, In d (index p) <-> lo <= d <= hi) /\
    (forall c col, In (c, col) (columns p) -> length col = length (index p)) /\
    (forall c d0 d d1,
        d0 < d < d1 ->
        isna (cell m d0 c) = false -> isna (cell m d1 c) = false ->
        (forall d', d0 < d' < d1 -> isna (cell m d' c) = true) ->
        cell p d c =
        lerp (Z.to_nat (d0 - lo), cell m d0 c) (Z.to_nat (d1 - lo), cell m d1 c)
             (Z.to_nat (d - lo))).
Proof.
  intros Hne m. unfold m in *. rewrite merged_of_merge in *.
  destruct (resampled_of_exists v pn Hne) as [p Hp].
  destruct (resampled_of_Ok v pn p Hp) as (idx & Hcal & Ep).
  rewrite Hp. subst p.
  pose proof (calendar_covers _ _ Hcal) as Hcov.
  destruct (calendar_Ok _ _ Hcal) as (lo & hi & Elo & Ehi & Hle & ->).
  exists (resample (merge pn) (days_from lo (Z.to_nat (hi - lo + 1)))), lo, hi.
  split; [reflexivity|].
  repeat split; try assumption.
  - apply (index_min_spec _ _ Elo), H.
  - apply (index_max_spec _ _ Ehi), H.
  - apply days_from_NoDup.
  - simpl in H. apply days_from_In in H. lia.
  - simpl in H. apply days_from_In in H. lia.
  - intros [Hlo Hhi]. simpl. apply days_from_In. lia.
  - intros c col Hin. unfold resample, interpolate, reindex in Hin. simpl in Hin.
    rewrite map_map in Hin. apply in_map_iff in Hin.
    destruct Hin as (e & E & _). injection E as _ <-. simpl.
    rewrite interpolate_1d_length, length_map. reflexivity.
  - intros c d0 d d1 Hlt Hv0 Hv1 Hgap.
    apply resample_interior; try assumption.
    + apply Hcov. apply (notna_cell_date _ c d0 Hv0).
    + apply Hcov. apply (notna_cell_date _ c d1 Hv1).
Qed.

End ResampledTable.

Section ResampledTableExamples.

Lemma example_trailing_null (v : script) (d : Z) :
  3 < d -> isna (cell (merged_of v Example.nav) d Example.comp_x) = true.
Proof.
  intros Hd. rewrite merged_of_merge, cell_merge.
  assert (E : lookup d [(1, 100%float); (2, 101%float); (3, 102%float)] = None).
  { apply lookup_not_In. simpl. intros [H | [H | [H | []]]]; lia. }
  change (isna (value_or_nan
                  (lookup d [(1, 100%float); (2, 101%float); (3, 102%float)])) = true).
  rewrite E. reflexivity.
Qed.

(** C1 as worded does not hold: the competitor's last known value is on
    day 3, the merged table has nothing for it afterwards, and yet both
    scripts fill days 4 and 5 of its resampled column (with 102). *)
Lemma trailing_gap_is_filled :
  (resampled_of ClosedV13 Example.nav = Ok Example.plot /\
   resampled_of OpenV12 Example.nav = Ok Example.plot) /\
  isna (cell (merged_of ClosedV13 Example.nav) 3 Example.comp_x) = false /\
  (forall d, 3 < d ->
             isna (cell (merged_of ClosedV13 Example.nav) d Example.comp_x) = true) /\
  In 5 (index Example.plot) /\
  isna (cell Example.plot 5 Example.comp_x) = false /\
  cell Example.plot 5 Example.comp_x = 102%float.
Proof.
  repeat split; try (vm_compute; reflexivity).
  - apply example_trailing_null.
  - simpl. tauto.
Qed.

Lemma resampled_outside_known_range_witness :
  resampled_of OpenV12 Example.nav = Ok Example.plot /\
  cell Example.plot 5 Example.comp_x =
  cell (merged_of OpenV12 Example.nav) 3 Example.comp_x.
Proof.
  split; [vm_compute; reflexivity|].
  apply (resampled_outside_known_range OpenV12 Example.nav Example.plot
           Example.comp_x 5).
  - vm_compute; reflexivity.
  - simpl. tauto.
  - lia.
  - vm_compute; reflexivity.
  - apply example_trailing_null.
Defined.

Lemma resampled_calendar_and_interior_witness :
  (exists p, resampled_of ClosedV13 Example.nav = Ok p /\
             length (index p) = 5%nat /\
             cell p 3 Example.fab_a = 1.375%float) /\
  (exists p, resampled_of OpenV12 Example.nav = Ok p /\
             length (index p) = 5%nat /\
             cell p 3 Example.fab_a = 1.375%float).
Proof.
  split.
  - destruct (resampled_calendar_and_interior ClosedV13 Example.nav)
      as (p & lo & hi & Hp & Elo & Ehi & _ & Hidx & _ & _ & _ & Hgap).
    + vm_compute; discriminate.
    + assert (lo = 1) by (vm_compute in Elo; congruence).
      assert (hi = 5) by (vm_compute in Ehi; congruence).
      subst lo hi. exists p. split; [exact Hp|]. split; [rewrite Hidx; reflexivity|].
      rewrite (Hgap Example.fab_a 2 3 4).
      * vm_compute; reflexivity.
      * lia.
      * vm_compute; reflexivity.
      * vm_compute; reflexivity.
      * intros d' Hd'. assert (d' = 3) by lia. subst d'. vm_compute; reflexivity.
  - destruct (resampled_calendar_and_interior OpenV12 Example.nav)
      as (p & lo & hi & Hp & Elo & Ehi & _ & Hidx & _ & _ & _ & Hgap).
    + vm_compute; discriminate.
    + assert (lo = 1) by (vm_compute in Elo; congruence).
      assert (hi = 5) by (vm_compute in Ehi; congruence).
      subst lo hi. exists p. split; [exact Hp|]. split; [rewrite Hidx; reflexivity|].
      rewrite (Hgap Example.fab_a 2 3 4).
      * vm_compute; reflexivity.
      * lia.
      * vm_compute; reflexivity.
      * vm_compute; reflexivity.
      * intros d' Hd'. assert (d' = 3) by lia. subst d'. vm_compute; reflexivity.
Defined.

End ResampledTableExamples.

(* ================================================================== *)
(** * The series of one file *)

Section FileSeries.

Lemma lookup_upsert (x d : Z) (v : float) (s : series) :
  lookup x (upsert d v s) = if x =? d then Some v else lookup x s.
Proof.
  induction s as [|[d0 v0] s IH]; simpl; [reflexivity|].
  destruct (Z.ltb_spec d d0) as [Hlt | Hge]; simpl.
  - reflexivity.
  - destruct (Z.eqb_spec d d0) as [-> | Hne]; simpl.
    + destruct (x =? d0); reflexivity.
    + rewrite IH. destruct (Z.eqb_spec x d0) as [-> | Hx]; [|reflexivity].
      destruct (Z.eqb_spec d0 d); [congruence | reflexivity].
Qed.

Lemma lookup_app (x : Z) (l1 l2 : series) :
  lookup x (l1 ++ l2) =
  match lookup x l1 with
  | Some v => Some v
  | None => lookup x l2
  end.
Proof.
  induction l1 as [|[d v] l1 IH]; simpl; [reflexivity|].
  destruct (x =? d); [reflexivity | exact IH].
Qed.

Lemma lookup_fold_upsert (rows : list (Z * float)) :
  forall acc x,
    lookup x (fold_left (fun acc r => upsert (fst r) (snd r) acc) rows acc) =
    match lookup x (rev rows) with
    | Some v => Some v
    | None => lookup x acc
    end.
Proof.
  induction rows as [|[d v] rows IH]; intros acc x; simpl; [reflexivity|].
  rewrite IH, lookup_app, lookup_upsert. simpl.
  destruct (lookup x (rev rows)); [reflexivity|].
  destruct (x =? d); reflexivity.
Qed.

Lemma lookup_groupby_last (rows : list (Z * float)) (x : Z) :
  lookup x (groupby_last rows) = lookup x (rev rows).
Proof.
  unfold groupby_last. rewrite lookup_fold_upsert.
  destruct (lookup x (rev rows)); reflexivity.
Qed.

Lemma upsert_dates_In (x d : Z) (v : float) (s : series) :
  In x (dates (upsert d v s)) -> x = d \/ In x (dates s).
Proof.
  induction s as [|[d0 v0] s IH]; simpl; [intuition auto|].
  destruct (d <? d0); simpl; [intuition auto|].
  destruct (Z.eqb_spec d d0) as [-> | Hne]; simpl; [intuition auto|].
  intros [H | H]; [tauto|]. apply IH in H. tauto.
Qed.

Lemma upsert_sorted (d : Z) (v : float) (s : series) :
  StronglySorted Z.lt (dates s) -> StronglySorted Z.lt (dates (upsert d v s)).
Proof.
  induction s as [|[d0 v0] s IH]; simpl; intros Hs.
  - constructor; constructor.
  - inversion Hs as [|? ? Hs' Hall]; subst. rewrite Forall_forall in Hall.
    destruct (Z.ltb_spec d d0) as [Hlt | Hge]; simpl.
    + constructor; [exact Hs|]. apply Forall_forall.
      intros x [<- | Hx]; [exact Hlt | specialize (Hall x Hx); lia].
    + destruct (Z.eqb_spec d d0) as [-> | Hne]; simpl.
      * exact Hs.
      * constructor; [apply IH, Hs'|]. apply Forall_forall. intros x Hx.
        apply upsert_dates_In in Hx. destruct Hx as [-> | Hx]; [lia | apply Hall, Hx].
Qed.

Lemma groupby_last_sorted (rows : list (Z * float)) :
  StronglySorted Z.lt (dates (groupby_last rows)).
Proof.
  unfold groupby_last.
  assert (G : forall acc, StronglySorted Z.lt (dates acc) ->
              StronglySorted Z.lt
                (dates (fold_left (fun acc r => upsert (fst r) (snd r) acc) rows acc))).
  { induction rows as [|r rows IH]; intros acc Hacc; simpl; [exact Hacc|].
    apply IH, upsert_sorted, Hacc. }
  apply G. constructor.
Qed.

Lemma groupby_last_dates_In (rows : list (Z * float)) (x : Z) :
  In x (dates (groupby_last rows)) <-> In x (dates rows).
Proof.
  split.
  - intros H. destruct (lookup x (groupby_last rows)) as [v|] eqn:E.
    + rewrite lookup_groupby_last in E. apply lookup_Some_dates in E.
      unfold dates in *. rewrite map_rev in E. apply in_rev in E. exact E.
    + exfalso. revert H E. generalize (groupby_last rows) as s.
      induction s as [|[d v] s IH]; simpl; [tauto|].
      intros [-> | H]; [rewrite Z.eqb_refl; discriminate|].
      destruct (x =? d); [discriminate | apply IH, H].
  - intros H. destruct (lookup x (groupby_last rows)) as [v|] eqn:E.
    + apply lookup_Some_dates in E. exact E.
    + exfalso. rewrite lookup_groupby_last in E.
      assert (Hr : In x (dates (rev rows)))
        by (unfold dates in *; rewrite map_rev; apply in_rev; rewrite rev_involutive; exact H).
      revert Hr E. generalize (rev rows) as s.
      induction s as [|[d v] s IH]; simpl; [tauto|].
      intros [-> | Hr]; [rewrite Z.eqb_refl; discriminate|].
      destruct (x =? d); [discriminate | apply IH, Hr].
Qed.



End FileSeries.

(* ================================================================== *)
(** * Normalisation (open-end script) *)

Section Normalisation.

Lemma str_eqb_sym (a b : str) : str_eqb a b = str_eqb b a.
Proof.
  destruct (str_eqb a b) eqn:E.
  - apply str_eqb_eq in E. subst. symmetry. apply str_eqb_refl.
  - apply str_eqb_neq in E. symmetry. apply str_eqb_neq. congruence.
Qed.

Lemma assoc_assoc_set {A : Type} (x k : str) (v : A) (l : list (str * A)) :
  assoc x (assoc_set k v l) = if str_eqb x k then Some v else assoc x l.
Proof.
  induction l as [|[k' v'] l IH]; simpl.
  - destruct (str_eqb x k); reflexivity.
  - destruct (str_eqb k k') eqn:Ek; simpl.
    + apply str_eqb_eq in Ek. subst k'. destruct (str_eqb x k); reflexivity.
    + destruct (str_eqb x k') eqn:Ex; [|exact IH].
      apply str_eqb_eq in Ex. subst k'. rewrite str_eqb_sym, Ek. reflexivity.
Qed.

Lemma assoc_set_keys_In {A : Type} (x k : str) (v : A) (l : list (str * A)) :
  In x (map fst (assoc_set k v l)) <-> x = k \/ In x (map fst l).
Proof.
  induction l as [|[k' v'] l IH]; simpl.
  - intuition auto.
  - destruct (str_eqb k k') eqn:Ek; simpl.
    + apply str_eqb_eq in Ek. subst k'. intuition auto.
    + rewrite IH. intuition auto.
Qed.

Lemma assoc_set_keys_NoDup {A : Type} (k : str) (v : A) (l : list (str * A)) :
  NoDup (map fst l) -> NoDup (map fst (assoc_set k v l)).
Proof.
  induction l as [|[k' v'] l IH]; simpl; intros H.
  - constructor; [intros [] | constructor].
  - inversion H as [|? ? Hnin Hnd]; subst.
    destruct (str_eqb k k') eqn:Ek; simpl; [exact H|].
    constructor; [|apply IH, Hnd].
    rewrite assoc_set_keys_In. intros [-> | Hin]; [|contradiction].
    rewrite str_eqb_refl in Ek. discriminate.
Qed.

Lemma unified_label_inj (a b : str) :
  Open.unified_label a = Open.unified_label b -> a = b.
Proof. unfold Open.unified_label. apply app_inv_tail. Qed.

Lemma pick_columns_Ok (cols : list (str * list float)) (names : list str) :
  (forall n, In n names -> In n (map fst cols)) ->
  pick_columns cols names = Ok (map (fun n => (n, cells_of cols n)) names).
Proof.
  induction names as [|n names IH]; intros H; simpl; [reflexivity|].
  unfold column, cells_of at 1.
  destruct (assoc_In_Some n cols (H n (or_introl eq_refl))) as [col ->].
  rewrite IH by (intros m Hm; apply H; right; exact Hm). reflexivity.
Qed.

Lemma assoc_picked (cols : list (str * list float)) (names : list str) (n : str) :
  In n names ->
  assoc n (map (fun n => (n, cells_of cols n)) names) = Some (cells_of cols n).
Proof.
  induction names as [|m names IH]; simpl; [tauto|].
  intros H. destruct (str_eqb n m) eqn:E.
  - apply str_eqb_eq in E. subst. reflexivity.
  - destruct H as [-> | H]; [rewrite str_eqb_refl in E; discriminate | apply IH, H].
Qed.

Lemma mask_select_map {A : Type} (p : A -> bool) (l : list A) :
  mask_select (map p l) l = filter p l.
Proof.
  induction l as [|x l IH]; simpl; [reflexivity|].
  destruct (p x); rewrite IH; reflexivity.
Qed.

Lemma lookup_mask_select (p : Z -> bool) (d : Z) (idx : list Z) :
  forall col,
    lookup d (combine (mask_select (map p idx) idx) (mask_select (map p idx) col)) =
    if p d then lookup d (combine idx col) else None.
Proof.
  induction idx as [|x idx IH]; intros col; simpl.
  - destruct (p d); reflexivity.
  - destruct col as [|v col].
    + destruct (p x); simpl; destruct (p d); try reflexivity;
        destruct (mask_select (map p idx) idx); reflexivity.
    + destruct (p x) eqn:Px; simpl.
      * destruct (Z.eqb_spec d x) as [-> | Hne]; [rewrite Px; reflexivity | apply IH].
      * rewrite IH. destruct (Z.eqb_spec d x) as [-> | Hne]; [rewrite Px|]; reflexivity.
Qed.

Lemma existsb_map {A B : Type} (f : B -> bool) (g : A -> B) (l : list A) :
  existsb f (map g l) = existsb (fun x => f (g x)) l.
Proof. induction l as [|x l IH]; simpl; [reflexivity | rewrite IH; reflexivity]. Qed.

Lemma existsb_ext_In {A : Type} (f g : A -> bool) (l : list A) :
  (forall x, In x l -> f x = g x) -> existsb f l = existsb g l.
Proof.
  induction l as [|x l IH]; intros H; simpl; [reflexivity|].
  rewrite (H x (or_introl eq_refl)), IH; [reflexivity|].
  intros y Hy. apply H. right; exact Hy.
Qed.

Lemma cell_cells_of (t : frame) (d : Z) (c : str) :
  In c (labels t) -> cell t d c = take (index t) (cells_of (columns t) c) d.
Proof.
  intros H. apply assoc_In_Some in H. destruct H as [col E].
  unfold cell, column, cells_of. rewrite E. reflexivity.
Qed.

Lemma select_columns_Ok (t : frame) (names : list str) :
  (forall n, In n names -> In n (labels t)) ->
  select_columns t names =
  Ok {| index := index t;
        columns := map (fun n => (n, cells_of (columns t) n)) names |}.
Proof.
  intros H. unfold select_columns. rewrite pick_columns_Ok by exact H. reflexivity.
Qed.

Lemma dropna_all_picked_index (t : frame) (names : list str) :
  (forall n, In n names -> In n (labels t)) ->
  index (dropna_all {| index := index t;
                       columns := map (fun n => (n, cells_of (columns t) n)) names |}) =
  filter (fun d => existsb (fun n => notna (cell t d n)) names) (index t).
Proof.
  intros H. unfold dropna_all, select_rows, any_notna_mask.
  cbn [index columns]. rewrite mask_select_map.
  apply filter_ext. intros d.
  rewrite existsb_map. apply existsb_ext_In. intros n Hn. cbn [snd].
  rewrite cell_cells_of by (apply H, Hn). reflexivity.
Qed.

Variable pn : list (str * series).

Let raw := Open.df_raw pn.
Let fab := Open.fab_cols pn.

Lemma fab_cols_In (n : str) :
  In n fab <-> In n (labels raw) /\ contains lit_fab n = true.
Proof. unfold fab, Open.fab_cols. apply filter_In. Qed.

(** Whether some reference column has a value on day [d]. *)
Let fab_has_data (d : Z) : bool :=
  existsb (fun n => notna (cell raw d n)) fab.

(** The baseline day never raises: it is the smallest row label on which a
    reference column has a value. *)
Lemma start_Ok :
  Open.start pn = Ok (index_min (filter fab_has_data (index raw))).
Proof.
  assert (Hfab : forall n, In n fab -> In n (labels raw))
    by (intros n Hn; apply fab_cols_In in Hn; apply Hn).
  unfold Open.start. fold raw. fold fab.
  rewrite (select_columns_Ok raw fab Hfab). unfold bind.
  rewrite (dropna_all_picked_index raw fab Hfab). reflexivity.
Qed.

Lemma fab_has_data_true (d : Z) :
  fab_has_data d = true <-> exists n, In n fab /\ isna (cell raw d n) = false.
Proof.
  unfold fab_has_data. rewrite existsb_exists. unfold notna.
  split; intros (n & Hn & H); exists n; split; try assumption.
  - apply negb_true_iff, H.
  - apply negb_true_iff, H.
Qed.

(** The baseline day is the earliest day on which a reference column has a
    value. *)
Lemma start_Some (s : Z) :
  Open.start pn = Ok (Some s) ->
  In s (index raw) /\
  (exists n, In n fab /\ isna (cell raw s n) = false) /\
  (forall d n, In n fab -> isna (cell raw d n) = false -> s <= d).
Proof.
  rewrite start_Ok. intros H. injection H as H.
  destruct (index_min_spec _ _ H) as [Hin Hmin].
  apply filter_In in Hin. destruct Hin as [Hidx Hdata].
  repeat split.
  - exact Hidx.
  - apply fab_has_data_true, Hdata.
  - intros d n Hn Hv. apply Hmin. apply filter_In. split.
    + apply (notna_cell_date raw n d Hv).
    + apply fab_has_data_true. exists n. split; assumption.
Qed.

(** There is no baseline day exactly when the reference family has no value
    at all. *)
Lemma start_None :
  Open.start pn = Ok None <->
  (forall d n, In n fab -> isna (cell raw d n) = true).
Proof.
  rewrite start_Ok. set (L := filter fab_has_data (index raw)).
  assert (HL : forall d, In d L <-> In d (index raw) /\ fab_has_data d = true)
    by (intros d; apply filter_In).
  clearbody L. split.
  - intros H. injection H as H. apply index_min_None in H. subst L.
    intros d n Hn. destruct (isna (cell raw d n)) eqn:E; [reflexivity|].
    exfalso. apply (proj2 (HL d)). split; [apply (notna_cell_date raw n d E)|].
    apply fab_has_data_true. exists n. split; assumption.
  - intros H. f_equal. apply index_min_None.
    destruct L as [|d l]; [reflexivity|]. exfalso.
    destruct (proj1 (HL d) (or_introl eq_refl)) as [_ Hd].
    apply fab_has_data_true in Hd. destruct Hd as (n & Hn & Hv).
    rewrite (H d n Hn) in Hv. discriminate.
Qed.

End Normalisation.

Section NormaliseLoop.

Variable raw : frame.
Variable fab : list str.
Variable s : option Z.

Let step := Open.normalise_step raw fab s.

(** A product is normalised when it is not a reference product and has a
    value on the baseline day. *)
Let normalises (c : str) : bool := negb (str_mem c fab) && has_baseline raw s c.

Let ratio (c : str) : list float :=
  match s with
  | Some s0 => map (fun v => (v / cell raw s0 c)%float) (Open.cells raw c)
  | None => []
  end.

Lemma normalise_step_spec (t : frame) (c : str) :
  step t c = if normalises c then setitem t (Open.unified_label c) (ratio c) else t.
Proof.
  unfold step, Open.normalise_step, normalises, has_baseline, ratio.
  destruct (str_mem c fab); [reflexivity|]. destruct s as [s0|]; [|reflexivity].
  simpl. destruct (date_mem s0 (index raw) && notna (cell raw s0 c)); reflexivity.
Qed.

Lemma normalise_loop_index (L : list str) :
  forall t0, index (fold_left step L t0) = index t0.
Proof.
  induction L as [|c L IH]; intros t0; simpl; [reflexivity|].
  rewrite IH, normalise_step_spec. destruct (normalises c); reflexivity.
Qed.

Lemma normalise_loop_labels (L : list str) (x : str) :
  forall t0,
    In x (labels (fold_left step L t0)) <->
    In x (labels t0) \/
    exists c, In c L /\ normalises c = true /\ x = Open.unified_label c.
Proof.
  induction L as [|c L IH]; intros t0; simpl.
  - split; [tauto | intros [H | (c & [] & _)]; exact H].
  - rewrite IH, normalise_step_spec. destruct (normalises c) eqn:G.
    + unfold labels, setitem; simpl. rewrite assoc_set_keys_In. split.
      * intros [[-> | H] | (c' & Hc' & G' & E)].
        -- right. exists c. auto.
        -- left; exact H.
        -- right. exists c'. auto.
      * intros [H | (c' & [<- | Hc'] & G' & E)].
        -- left; right; exact H.
        -- left; left; exact E.
        -- right. exists c'. auto.
    + split.
      * intros [H | (c' & Hc' & G' & E)]; [left; exact H | right; exists c'; auto].
      * intros [H | (c' & [<- | Hc'] & G' & E)]; [left; exact H | congruence |].
        right. exists c'. auto.
Qed.

Lemma normalise_loop_hit (L : list str) (c : str) :
  forall t0,
    In c L -> normalises c = true ->
    assoc (Open.unified_label c) (columns (fold_left step L t0)) = Some (ratio c).
Proof.
  induction L as [|c' L IH] using rev_ind; intros t0 Hc G; [destruct Hc|].
  rewrite fold_left_app. simpl. rewrite normalise_step_spec.
  destruct (normalises c') eqn:G'.
  - unfold setitem; simpl. rewrite assoc_assoc_set.
    destruct (str_eqb (Open.unified_label c) (Open.unified_label c')) eqn:E.
    + apply str_eqb_eq, unified_label_inj in E. subst c'. reflexivity.
    + apply in_app_or in Hc. destruct Hc as [Hc | [<- | []]].
      * apply IH; assumption.
      * rewrite str_eqb_refl in E. discriminate.
  - apply in_app_or in Hc. destruct Hc as [Hc | [<- | []]].
    + apply IH; assumption.
    + congruence.
Qed.

Lemma normalise_loop_miss (L : list str) (x : str) :
  forall t0,
    (forall c, In c L -> normalises c = true -> x <> Open.unified_label c) ->
    assoc x (columns (fold_left step L t0)) = assoc x (columns t0).
Proof.
  induction L as [|c L IH]; intros t0 H; simpl; [reflexivity|].
  rewrite IH by (intros c' Hc'; apply H; right; exact Hc').
  rewrite normalise_step_spec. destruct (normalises c) eqn:G; [|reflexivity].
  unfold setitem; simpl. rewrite assoc_assoc_set.
  destruct (str_eqb x (Open.unified_label c)) eqn:E; [|reflexivity].
  apply str_eqb_eq in E. exfalso. apply (H c (or_introl eq_refl) G E).
Qed.

Lemma lookup_combine_map_values (f : float -> float) (d : Z) (idx : list Z) :
  forall col,
    lookup d (combine idx (map f col)) = option_map f (lookup d (combine idx col)).
Proof.
  induction idx as [|x idx IH]; intros [|v col]; simpl; try reflexivity.
  destruct (d =? x); [reflexivity | apply IH].
Qed.

End NormaliseLoop.

(** A defined raw cell divided by the baseline cell is what the normalised
    column holds on that day. *)
Lemma ratio_cell (raw : frame) (c : str) (s0 d : Z) :
  isna (cell raw d c) = false ->
  take (index raw)
       (map (fun v => (v / cell raw s0 c)%float) (Open.cells raw c)) d =
  (cell raw d c / cell raw s0 c)%float.
Proof.
  intros Hv. unfold take. rewrite lookup_combine_map_values.
  revert Hv. generalize (cell raw s0 c) as b. intros b.
  unfold cell, Open.cells, column, take.
  destruct (assoc c (columns raw)) as [col|]; [|discriminate].
  destruct (lookup d (combine (index raw) col)) as [x|]; [|discriminate].
  reflexivity.
Qed.

Section NormalisedTable.

Variable pn : list (str * series).

Let raw := Open.df_raw pn.
Let fab := Open.fab_cols pn.

(** The table after the loop of lines 120-124, for a baseline [so]. *)
Let normed (so : option Z) : frame :=
  fold_left (Open.normalise_step raw fab so) (labels raw) raw.

Lemma order_In (t : frame) (x : str) :
  In x (Open.order raw t) <->
  In x (labels raw) \/
  exists c, In c (labels raw) /\ x = Open.unified_label c /\ In x (labels t).
Proof.
  unfold Open.order. rewrite in_flat_map. split.
  - intros (c & Hc & [<- | Hx]); [left; exact Hc|].
    destruct (str_mem (Open.unified_label c) (labels t)) eqn:E; [|destruct Hx].
    destruct Hx as [<- | []]. right. exists c. repeat split; try assumption.
    apply str_mem_In, E.
  - intros [Hx | (c & Hc & -> & Hin)].
    + exists x. split; [exact Hx | left; reflexivity].
    + exists c. split; [exact Hc|]. right.
      apply str_mem_In in Hin. rewrite Hin. left; reflexivity.
Qed.

Lemma order_in_normed (so : option Z) (x : str) :
  In x (Open.order raw (normed so)) -> In x (labels (normed so)).
Proof.
  intros H. apply order_In in H. destruct H as [H | (c & _ & _ & H)]; [|exact H].
  apply normalise_loop_labels. left; exact H.
Qed.

(** The normalised table is always produced. *)
Lemma df_norm_Ok :
  exists so,
    Open.start pn = Ok so /\
    Open.df_norm pn =
    Ok {| index := index raw;
          columns := map (fun n => (n, cells_of (columns (normed so)) n))
                         (Open.order raw (normed so)) |}.
Proof.
  eexists. split; [apply start_Ok|].
  unfold Open.df_norm. rewrite start_Ok. unfold bind. fold raw. fold fab.
  match goal with
  | |- select_columns ?t _ = _ => change t with (normed (index_min (filter
         (fun d => existsb (fun n => notna (cell raw d n)) fab) (index raw))))
  end.
  rewrite select_columns_Ok by (apply order_in_normed).
  unfold normed at 1. rewrite normalise_loop_index. reflexivity.
Qed.

Lemma df_norm_inv (t : frame) :
  Open.df_norm pn = Ok t ->
  exists so,
    Open.start pn = Ok so /\
    index t = index raw /\
    labels t = Open.order raw (normed so) /\
    (forall x d, In x (labels t) -> cell t d x = cell (normed so) d x).
Proof.
  intros Ht. destruct df_norm_Ok as (so & Hso & E). rewrite E in Ht.
  injection Ht as <-. exists so. repeat split; try assumption.
  - unfold labels; simpl. rewrite map_map. simpl. apply map_id.
  - intros x d Hx. unfold labels in Hx. simpl in Hx.
    rewrite map_map in Hx. simpl in Hx. rewrite map_id in Hx.
    unfold cell at 1, column. simpl.
    rewrite assoc_picked by exact Hx.
    rewrite (cell_cells_of (normed so)) by (apply order_in_normed, Hx).
    unfold normed at 2. rewrite normalise_loop_index. reflexivity.
Qed.

(** A column labelled [c（统一基准）] that is no product's own column is in
    the normalised table only if the loop normalised [c]. *)
Lemma unified_column_origin (t : frame) (so : option Z) (c : str) :
  Open.start pn = Ok so ->
  Open.df_norm pn = Ok t ->
  ~ In (Open.unified_label c) (labels raw) ->
  In (Open.unified_label c) (labels t) ->
  In c (labels raw) /\ str_mem c fab = false /\ has_baseline raw so c = true.
Proof.
  intros Hso Ht Hfresh Hin.
  destruct (df_norm_inv t Ht) as (so' & Hso' & _ & Hl & _).
  rewrite Hso in Hso'. injection Hso' as <-.
  rewrite Hl in Hin. apply order_in_normed in Hin.
  apply normalise_loop_labels in Hin.
  destruct Hin as [Hin | (c' & Hc' & G & E)]; [contradiction|].
  apply unified_label_inj in E. subst c'.
  apply andb_true_iff in G. destruct G as [G1 G2].
  apply negb_true_iff in G1. repeat split; assumption.
Qed.

(** C2, as the script has it.  A non-reference product receives no
    normalised column when the reference family has no data at all, or when
    the product's raw value on the baseline day is null; in every other
    case -- a raw value of zero on the baseline day included -- it does
    receive one.  (The label [c（统一基准）] is assumed not to be the name
    of a product of the folder.) *)
Theorem normalised_column_by_baseline (t : frame) (c : str) :
  Open.df_norm pn = Ok t ->
  In c (labels (Open.df_raw pn)) ->
  contains lit_fab c = false ->
  ~ In (Open.unified_label c) (labels (Open.df_raw pn)) ->
  ((forall d f, In f (Open.fab_cols pn) ->
                isna (cell (Open.df_raw pn) d f) = true) \/
   (exists s0, Open.start pn = Ok (Some s0) /\
               isna (cell (Open.df_raw pn) s0 c) = true) ->
   ~ In (Open.unified_label c) (labels t)) /\
  (forall s0, Open.start pn = Ok (Some s0) ->
              isna (cell (Open.df_raw pn) s0 c) = false ->
              In (Open.unified_label c) (labels t)).
Proof.
  intros Ht Hc Hnf Hfresh.
  destruct df_norm_Ok as (so & Hso & _). split.
  - intros Hcase Hin.
    destruct (unified_column_origin t so c Hso Ht Hfresh Hin) as (_ & _ & Hb).
    destruct Hcase as [Hnone | (s0 & Hs0 & Hna)].
    + apply start_None in Hnone. rewrite Hnone in Hso. injection Hso as <-.
      discriminate.
    + rewrite Hs0 in Hso. injection Hso as <-. simpl in Hb.
      apply andb_true_iff in Hb. destruct Hb as [_ Hb].
      unfold notna in Hb. fold raw in Hb. unfold raw in Hb. rewrite Hna in Hb.
      discriminate.
  - intros s0 Hs0 Hv. rewrite Hs0 in Hso. injection Hso as <-.
    destruct (df_norm_inv t Ht) as (so' & Hso' & _ & Hl & _).
    rewrite Hs0 in Hso'. injection Hso' as <-.
    assert (Hlab : In (Open.unified_label c) (labels (normed (Some s0)))).
    { apply normalise_loop_labels. right. exists c. repeat split; [exact Hc|].
      apply andb_true_iff. split.
      - apply negb_true_iff. apply str_mem_false. intros Hf.
        apply fab_cols_In in Hf. destruct Hf as [_ Hf]. congruence.
      - simpl. apply andb_true_iff. split.
        + apply date_mem_In. apply (start_Some pn s0 Hs0).
        + unfold notna. fold raw. unfold raw. rewrite Hv. reflexivity. }
    rewrite Hl. apply order_In. right. exists c. repeat split; assumption.
Qed.

(** C3.  A product that has a normalised column is a non-reference product
    with a value on the baseline day; the baseline day is the earliest day
    on which a reference column has a value; and on every day on which the
    product's raw value is defined the normalised column holds the raw
    value divided by the raw value of the baseline day. *)
Theorem normalised_column_is_ratio (t : frame) (c : str) :
  Open.df_norm pn = Ok t ->
  ~ In (Open.unified_label c) (labels (Open.df_raw pn)) ->
  In (Open.unified_label c) (labels t) ->
  exists s0,
    Open.start pn = Ok (Some s0) /\
    (exists f, In f (Open.fab_cols pn) /\ isna (cell (Open.df_raw pn) s0 f) = false) /\
    (forall d f, In f (Open.fab_cols pn) ->
                 isna (cell (Open.df_raw pn) d f) = false -> s0 <= d) /\
    In c (labels (Open.df_raw pn)) /\
    contains lit_fab c = false /\
    isna (cell (Open.df_raw pn) s0 c) = false /\
    forall d, isna (cell (Open.df_raw pn) d c) = false ->
              cell t d (Open.unified_label c) =
              (cell (Open.df_raw pn) d c / cell (Open.df_raw pn) s0 c)%float.
Proof.
  intros Ht Hfresh Hin.
  destruct (df_norm_inv t Ht) as (so & Hso & _ & _ & Hcell).
  destruct (unified_column_origin t so c Hso Ht Hfresh Hin) as (Hc & Hnf & Hb).
  destruct so as [s0|]; [|discriminate].
  simpl in Hb. apply andb_true_iff in Hb. destruct Hb as [_ Hb].
  apply negb_true_iff in Hb.
  destruct (start_Some pn s0 Hso) as (_ & Hf & Hmin).
  exists s0. repeat split; try assumption.
  - destruct (contains lit_fab c) eqn:E; [|reflexivity].
    apply str_mem_false in Hnf. exfalso. apply Hnf.
    apply fab_cols_In. split; assumption.
  - intros d Hv. rewrite (Hcell _ d Hin).
    unfold cell at 1, column, normed.
    rewrite (normalise_loop_hit raw fab (Some s0) (labels raw) c raw Hc).
    + rewrite normalise_loop_index.
      exact (ratio_cell raw c s0 d Hv).
    + apply andb_true_iff. split; [apply negb_true_iff, Hnf|].
      simpl. apply andb_true_iff. split; [|apply negb_true_iff, Hb].
      apply date_mem_In. apply (start_Some pn s0 Hso).
Qed.

End NormalisedTable.

Section NormalisedTableExamples.

(** C2 as worded does not hold for a zero: the competitor is worth 0 on
    the baseline day (day 1), and the script still gives it a normalised
    column, holding 0/0 = NaN and 101/0 = infinity. *)
Lemma zero_baseline_is_normalised :
  Open.df_norm Example.nav_zero = Ok Example.norm_zero /\
  Open.start Example.nav_zero = Ok (Some 1) /\
  contains lit_fab Example.comp_x = false /\
  cell (Open.df_raw Example.nav_zero) 1 Example.comp_x = 0%float /\
  In (Open.unified_label Example.comp_x) (labels Example.norm_zero) /\
  cell Example.norm_zero 2 (Open.unified_label Example.comp_x) = infinity.
Proof.
  repeat split; try (vm_compute; reflexivity).
  right; left; reflexivity.
Qed.

Lemma normalised_column_by_baseline_witness :
  Open.df_norm Example.nav_late = Ok Example.norm_late /\
  ~ In (Open.unified_label Example.comp_x) (labels Example.norm_late).
Proof.
  split; [vm_compute; reflexivity|].
  apply (normalised_column_by_baseline Example.nav_late
           Example.norm_late Example.comp_x).
  - vm_compute; reflexivity.
  - left; reflexivity.
  - vm_compute; reflexivity.
  - vm_compute. intros [H | [H | []]]; discriminate H.
  - right. exists 2. split; vm_compute; reflexivity.
Defined.

Lemma normalised_column_is_ratio_witness :
  Open.df_norm Example.nav = Ok Example.norm /\
  cell Example.norm 2 (Open.unified_label Example.comp_x) = (101 / 100)%float.
Proof.
  split; [vm_compute; reflexivity|].
  destruct (normalised_column_is_ratio Example.nav Example.norm Example.comp_x)
    as (s0 & Hs & _ & _ & _ & _ & _ & Hratio).
  - vm_compute; reflexivity.
  - vm_compute. intros [H | [H | []]]; discriminate H.
  - right; left; reflexivity.
  - assert (s0 = 1) by (vm_compute in Hs; congruence). subst s0.
    rewrite (Hratio 2); vm_compute; reflexivity.
Defined.

End NormalisedTableExamples.

(* ================================================================== *)
(** * The normalised chart sheet (open-end script) *)

Section UnifiedPlot.

Lemma cell_select_rows (p : Z -> bool) (t : frame) (d : Z) (c : str) :
  cell (select_rows (map p (index t)) t) d c =
  if p d then cell t d c else nan.
Proof.
  unfold cell, column, select_rows. cbn [index columns].
  rewrite (assoc_map_snd (mask_select (map p (index t)))).
  destruct (assoc c (columns t)) as [col|]; simpl.
  - unfold take. rewrite lookup_mask_select. destruct (p d); reflexivity.
  - destruct (p d); reflexivity.
Qed.

Lemma df_plot_raw_inv (pn : list (str * series)) (p : frame) :
  Open.df_plot_raw pn = Ok p ->
  exists idx, calendar (Open.df_raw pn) = Ok idx /\
              p = resample (Open.df_raw pn) idx.
Proof. apply (resampled_of_Ok OpenV12). Qed.

(** C10.  The normalised chart sheet keeps, of the calendar days of the raw
    chart sheet, exactly those on or after the baseline day, with the cells
    the resampled normalised table has there; the raw chart sheet has every
    day from the first to the last date.  (Without a baseline day the
    normalised chart sheet has no row.) *)
Theorem unified_plot_starts_at_baseline
    (pn : list (str * series)) (p_norm : frame) :
  Open.df_plot_norm pn = Ok p_norm ->
  exists so t p_raw lo hi,
    Open.start pn = Ok so /\
    Open.df_norm pn = Ok t /\
    Open.df_plot_raw pn = Ok p_raw /\
    index_min (index (Open.df_raw pn)) = Some lo /\
    index_max (index (Open.df_raw pn)) = Some hi /\
    (forall d, In d (index p_raw) <-> lo <= d <= hi) /\
    match so with
    | Some s0 =>
        (forall d, In d (index p_norm) <-> lo <= d <= hi /\ s0 <= d) /\
        (forall d c, s0 <= d ->
                     cell p_norm d c = cell (resample t (index p_raw)) d c)
    | None => index p_norm = []
    end.
Proof.
  unfold Open.df_plot_norm, Open.df_plot_raw, Open.full_idx.
  destruct (df_norm_Ok pn) as (so & Hso & Ht).
  match type of Ht with _ = Ok ?x => set (t := x) in Ht end. clearbody t.
  rewrite Hso, Ht. unfold bind.
  destruct (calendar (Open.df_raw pn)) as [idx|e] eqn:Hcal; [|discriminate].
  intros H. injection H as <-.
  destruct (calendar_Ok _ _ Hcal) as (lo & hi & Elo & Ehi & Hle & Eidx).
  assert (Hidx : forall d, In d idx <-> lo <= d <= hi)
    by (intros d; rewrite Eidx, days_from_In; lia).
  clear Eidx.
  exists so, t, (resample (Open.df_raw pn) idx), lo, hi.
  split; [reflexivity|]. split; [reflexivity|]. split; [reflexivity|].
  split; [exact Elo|]. split; [exact Ehi|]. split; [exact Hidx|].
  change (index (resample (Open.df_raw pn) idx)) with idx.
  change (index (resample t idx)) with idx.
  destruct so as [s0|].
  - split.
    + intros d. unfold select_rows. cbn [index].
      change (index (resample t idx)) with idx.
      rewrite mask_select_map, filter_In, Hidx.
      unfold Open.on_or_after. rewrite Z.leb_le. tauto.
    + intros d c Hd.
      change idx with (index (resample t idx)) at 1.
      rewrite cell_select_rows. unfold Open.on_or_after.
      replace (s0 <=? d) with true by (symmetry; apply Z.leb_le; exact Hd).
      reflexivity.
  - unfold select_rows. cbn [index].
    change (index (resample t idx)) with idx.
    rewrite mask_select_map. unfold Open.on_or_after.
    clear. induction idx; simpl; [reflexivity | assumption].
Qed.

(** A folder with at least one dated value does get its normalised chart
    sheet. *)
Lemma df_plot_norm_exists (pn : list (str * series)) :
  index (Open.df_raw pn) <> [] -> exists p, Open.df_plot_norm pn = Ok p.
Proof.
  intros H. unfold Open.df_plot_norm, Open.full_idx.
  destruct (df_norm_Ok pn) as (so & Hso & Ht). rewrite Hso, Ht. unfold bind.
  destruct (calendar_nonempty _ H) as [idx ->]. eexists; reflexivity.
Qed.

Lemma unified_plot_starts_at_baseline_witness :
  Open.df_plot_norm Example.nav_late = Ok Example.plot_norm_late /\
  Open.df_plot_raw Example.nav_late = Ok Example.plot_raw_late /\
  ~ In 1 (index Example.plot_norm_late).
Proof.
  split; [vm_compute; reflexivity|]. split; [vm_compute; reflexivity|].
  destruct (unified_plot_starts_at_baseline Example.nav_late Example.plot_norm_late)
    as (so & t & p_raw & lo & hi & Hso & _ & _ & _ & _ & _ & H).
  - vm_compute; reflexivity.
  - assert (so = Some 2) by (vm_compute in Hso; congruence). subst so.
    destruct H as [H _]. intros Hin. apply H in Hin. lia.
Defined.

End UnifiedPlot.

(* ================================================================== *)
(** * The product-information sheet *)

Section ProductInformation.

Lemma label_pos_In (c : str) (ls : list str) :
  In c ls -> exists k, label_pos c ls = Some k.
Proof.
  induction ls as [|c' ls IH]; simpl; [tauto|].
  intros H. destruct (str_eqb c c') eqn:E; [exists O; reflexivity|].
  destruct H as [-> | H]; [rewrite str_eqb_refl in E; discriminate|].
  destruct (IH H) as [k ->]. exists (S k). reflexivity.
Qed.

Lemma label_positions_Ok (ls names : list str) :
  (forall n, In n names -> In n ls) ->
  exists ks,
    Open.label_positions ls names = Ok ks /\
    forall r, map (fun k => nth k r blank_cell) ks = map (row_cell ls r) names.
Proof.
  induction names as [|n names IH]; intros H; simpl.
  - exists []. split; [reflexivity | intros r; reflexivity].
  - destruct (label_pos_In n ls (H n (or_introl eq_refl))) as [k Ek].
    destruct IH as (ks & Eks & Hks); [intros m Hm; apply H; right; exact Hm|].
    rewrite Ek, Eks. exists (k :: ks). split; [reflexivity|].
    intros r. simpl. rewrite Hks. unfold row_cell at 2. rewrite Ek. reflexivity.
Qed.

Lemma filter_by_codes_Ok (q : table) (codes : list str) :
  In lit_reg_code (t_labels q) ->
  filter_by_codes q codes =
  Ok {| t_labels := t_labels q;
        t_rows := filter (fun r => str_mem (as_str (row_cell (t_labels q) r lit_reg_code))
                                           codes)
                         (t_rows q) |}.
Proof.
  intros H. destruct (label_pos_In _ _ H) as [k Ek].
  unfold filter_by_codes. rewrite Ek, mask_select_map. do 2 f_equal.
  apply filter_ext. intros r. unfold row_cell. rewrite Ek. reflexivity.
Qed.

Lemma label_pos_Some_In (c : str) (ls : list str) :
  forall k, label_pos c ls = Some k -> In c ls.
Proof.
  induction ls as [|c' ls IH]; simpl; intros k E; [discriminate E|].
  destruct (str_eqb c c') eqn:Ec.
  - left. symmetry. apply str_eqb_eq, Ec.
  - destruct (label_pos c ls) as [k'|]; [|discriminate E].
    right. apply (IH k' eq_refl).
Qed.

(** A lookup table without the code column makes the sheet raise. *)
Lemma filter_by_codes_KeyError (q : table) (codes : list str) :
  ~ In lit_reg_code (t_labels q) -> filter_by_codes q codes = Raise KeyError.
Proof.
  intros H. unfold filter_by_codes.
  destruct (label_pos lit_reg_code (t_labels q)) as [k|] eqn:E; [|reflexivity].
  exfalso. apply H. apply (label_pos_Some_In _ _ k E).
Qed.

(** C7.  With a lookup table (that has the code column) and at least one
    collected code, the product-information sheet holds exactly the rows of
    the lookup table whose code, as a string, is one of the collected codes,
    in table order; the closed-end script keeps the columns as they are, the
    open-end script puts the preferred columns that exist first, in the
    order of the preferred list, then the other columns in table order. *)
Theorem product_info_is_code_filter (v : script) (q : table) (codes : list str) :
  codes <> [] ->
  In lit_reg_code (t_labels q) ->
  let kept :=
    filter (fun r => str_mem (as_str (row_cell (t_labels q) r lit_reg_code)) codes)
           (t_rows q) in
  match v with
  | ClosedV13 =>
      info_of v (Some q) codes =
      Ok [(ProductInfo, Info {| t_labels := t_labels q; t_rows := kept |})]
  | OpenV12 =>
      let cols1 := filter (fun c => str_mem c (t_labels q)) Open.desired_info_cols in
      let cols2 := filter (fun c => negb (str_mem c cols1)) (t_labels q) in
      info_of v (Some q) codes =
      Ok [(ProductInfo,
           Info {| t_labels := cols1 ++ cols2;
                   t_rows := map (fun r => map (row_cell (t_labels q) r) (cols1 ++ cols2))
                                 kept |})]
  end.
Proof.
  intros Hcodes Hcol. destruct codes as [|c0 codes]; [congruence|].
  destruct v; unfold info_of.
  - unfold Closed.df_info. rewrite filter_by_codes_Ok by exact Hcol. reflexivity.
  - unfold Open.df_info, Open.select_info_columns.
    generalize Open.desired_info_cols as desired. intros desired.
    rewrite filter_by_codes_Ok by exact Hcol. unfold bind at 1.
    cbv zeta. cbn [t_labels t_rows].
    set (cols1 := filter (fun c => str_mem c (t_labels q)) desired).
    set (cols2 := filter (fun c => negb (str_mem c cols1)) (t_labels q)).
    destruct (label_positions_Ok (t_labels q) (cols1 ++ cols2)) as (ks & Eks & Hks).
    { intros n Hn. apply in_app_or in Hn. destruct Hn as [Hn | Hn].
      - apply filter_In in Hn. apply str_mem_In, Hn.
      - apply filter_In in Hn. apply Hn. }
    rewrite Eks. unfold bind. do 5 f_equal.
    apply map_ext. intros r. apply Hks.
Qed.

Lemma product_info_is_code_filter_witness :
  Example.codes <> [] /\
  In lit_reg_code (t_labels Example.query) /\
  info_of OpenV12 (Some Example.query) Example.codes =
  Ok [(ProductInfo,
       Info {| t_labels := [Example.col_name; lit_reg_code; Example.col_z];
               t_rows := [[Example.text_cell [0x50; 0x31]%N;
                           Example.text_cell Example.code_a1;
                           Example.num_cell 1%float]] |})].
Proof.
  split; [discriminate|]. split; [left; reflexivity|].
  apply (product_info_is_code_filter OpenV12 Example.query Example.codes).
  - discriminate.
  - left; reflexivity.
Defined.

End ProductInformation.

(* ================================================================== *)
(** * The per-file loop *)

Section FileLoop.

(** What a file adds to [product_nav] and to the printed text does not
    depend on what was collected before it. *)
Lemma file_step_effect (v : script) (q : option table) (st : loop_state) (f : xlsx) :
  product_nav (file_step_of v q st f) =
    fold_left (fun d e => dict_set (fst e) (snd e) d) (contribution v q f)
              (product_nav st) /\
  stdout (file_step_of v q st f) = stdout st ++ messages_of v q f.
Proof.
  unfold contribution, messages_of.
  destruct v; unfold file_step_of, Closed.file_step, Closed.try_block,
    Closed.history_part, Closed.latest_part, Open.file_step, Open.try_block,
    Open.history_part, Open.latest_part, bind;
    split_cases; simpl; rewrite ?app_nil_r, <- ?app_assoc; simpl; split; reflexivity.
Qed.

Lemma contribution_cases (v : script) (q : option table) (f : xlsx) :
  contribution v q f = [] \/ exists p s, contribution v q f = [(p, s)].
Proof.
  unfold contribution.
  destruct v; unfold file_step_of, Closed.file_step, Closed.try_block,
    Closed.history_part, Closed.latest_part, Open.file_step, Open.try_block,
    Open.history_part, Open.latest_part, bind;
    split_cases; simpl; auto; right; eexists; eexists; reflexivity.
Qed.

(** The series a file leaves in [product_nav] is the [history_series] of
    the date and unit-NAV columns of its first history sheet, under the
    product name taken from the file name. *)
Lemma contribution_is_history_series
    (v : script) (q : option table) (f : xlsx) (p : str) (s : series) :
  contribution v q f = [(p, s)] ->
  exists sheets sh df dc nc,
    excel_file f = Ok sheets /\
    find_sheet lit_hist_nav lit_hist sheets = Some sh /\
    parse sh = Ok df /\
    find_column lit_riqi df = Some dc /\
    find_column lit_unit_nav df = Some nc /\
    p = extract_product_name_of v (file_name f) /\
    history_series p (snd dc) (snd nc) = Ok s.
Proof.
  unfold contribution.
  destruct v; unfold file_step_of, extract_product_name_of, Closed.file_step,
    Closed.try_block, Closed.history_part, Closed.latest_part, Open.file_step,
    Open.try_block, Open.history_part, Open.latest_part, bind;
    split_cases_eqn; simpl; intros H; try discriminate H;
    injection H as <- <-; do 5 eexists; repeat split; eassumption.
Qed.

Lemma read_loop (v : script) (q : option table) (fs : list xlsx) :
  forall st,
    product_nav (fold_left (file_step_of v q) fs st) =
      fold_left put (flat_map (contribution v q) fs) (product_nav st) /\
    stdout (fold_left (file_step_of v q) fs st) =
      stdout st ++ flat_map (messages_of v q) fs.
Proof.
  induction fs as [|f fs IH]; intros st; simpl.
  - rewrite app_nil_r. split; reflexivity.
  - destruct (IH (file_step_of v q st f)) as [H1 H2].
    destruct (file_step_effect v q st f) as [E1 E2].
    rewrite H1, H2, E1, E2, fold_left_app, <- app_assoc. split; reflexivity.
Qed.

Lemma read_folder_of_eq (v : script) (q : option table) (fd : folder) :
  read_folder_of v q fd =
  fold_left (file_step_of v q) (files_of v fd) (initial_state fd).
Proof. destruct v; reflexivity. Qed.

Lemma assoc_app {A : Type} (k : str) (l1 l2 : list (str * A)) :
  assoc k (l1 ++ l2) =
  match assoc k l1 with
  | Some a => Some a
  | None => assoc k l2
  end.
Proof.
  induction l1 as [|[k' a] l1 IH]; simpl; [reflexivity|].
  destruct (str_eqb k k'); [reflexivity | exact IH].
Qed.

(** Reading the dict after a run of assignments: the last assignment to a
    key wins. *)
Lemma assoc_fold_put (k : str) (entries : list (str * series)) :
  forall d0,
    assoc k (fold_left put entries d0) =
    match assoc k (rev entries) with
    | Some s => Some s
    | None => assoc k d0
    end.
Proof.
  induction entries as [|[k' s'] entries IH]; intros d0; simpl; [reflexivity|].
  rewrite IH, assoc_app. unfold put, dict_set. simpl. rewrite assoc_assoc_set.
  destruct (assoc k (rev entries)); [reflexivity|].
  destruct (str_eqb k k'); reflexivity.
Qed.

Lemma fold_put_keys_NoDup (entries : list (str * series)) :
  forall d0, NoDup (map fst d0) -> NoDup (map fst (fold_left put entries d0)).
Proof.
  induction entries as [|e entries IH]; intros d0 H; simpl; [exact H|].
  apply IH. unfold put, dict_set. apply assoc_set_keys_NoDup, H.
Qed.

Lemma fold_put_nil (entries : list (str * series)) :
  fold_left put entries [] = [] -> entries = [].
Proof.
  destruct entries as [|[k s] entries]; [reflexivity|]. simpl. intros H. exfalso.
  assert (G : forall es d0, d0 <> [] -> fold_left put es d0 <> []).
  { induction es as [|e es IH]; intros d0 Hd; simpl; [exact Hd|].
    apply IH. unfold put, dict_set. destruct d0 as [|[k0 s0] d0]; [congruence|].
    simpl. destruct (str_eqb (fst e) k0); discriminate. }
  apply (G entries (put [] (k, s))); [discriminate | exact H].
Qed.

Lemma assoc_rev_None {A : Type} (k : str) (l : list (str * A)) :
  assoc k l = None -> assoc k (rev l) = None.
Proof.
  rewrite !assoc_None. intros H Hin. apply H.
  rewrite map_rev in Hin. apply in_rev in Hin. exact Hin.
Qed.

Lemma assoc_flat_map_None (v : script) (q : option table) (k : str) (fs : list xlsx) :
  (forall f, In f fs -> dict_get k (contribution v q f) = None) ->
  assoc k (flat_map (contribution v q) fs) = None.
Proof.
  induction fs as [|f fs IH]; intros H; simpl; [reflexivity|].
  rewrite assoc_app. unfold dict_get in H. rewrite (H f (or_introl eq_refl)).
  apply IH. intros g Hg. apply H. right; exact Hg.
Qed.

Lemma assoc_rev_last {A : Type} (k : str) (l1 l2 : list (str * A)) (a : A) :
  assoc k l2 = None -> assoc k (rev (l1 ++ (k, a) :: l2)) = Some a.
Proof.
  intros H. rewrite rev_app_distr. simpl. rewrite <- !app_assoc, assoc_app.
  rewrite (assoc_rev_None k l2 H). simpl. rewrite str_eqb_refl. reflexivity.
Qed.

(** A file that yields a series leaves exactly that series in
    [product_nav], whatever its latest-NAV sheet does; and a series a file
    leaves there is one it yields. *)
Lemma yields_contribution
    (v : script) (q : option table) (f : xlsx) (p : str) (s : series) :
  yields v f p s -> contribution v q f = [(p, s)].
Proof.
  intros (sheets & sh & df & dc & nc & Hx & Hh & Hp & Hd & Hn & -> & Hs).
  unfold contribution.
  destruct v; unfold file_step_of, extract_product_name_of, Closed.file_step,
    Closed.try_block, Closed.history_part, Closed.latest_part, Open.file_step,
    Open.try_block, Open.history_part, Open.latest_part, bind in *;
    rewrite Hx, Hh, Hp, Hd, Hn, Hs; split_cases; reflexivity.
Qed.

Lemma contribution_yields
    (v : script) (q : option table) (f : xlsx) (p : str) (s : series) :
  contribution v q f = [(p, s)] -> yields v f p s.
Proof.
  intros H. destruct (contribution_is_history_series v q f p s H)
    as (sheets & sh & df & dc & nc & H').
  exists sheets, sh, df, dc, nc. exact H'.
Qed.

Lemma no_yield_no_entry
    (v : script) (q : option table) (f : xlsx) (p : str) :
  (forall s, ~ yields v f p s) -> dict_get p (contribution v q f) = None.
Proof.
  intros Hno. destruct (contribution_cases v q f) as [-> | (p' & s' & E)];
    [reflexivity|].
  rewrite E. unfold dict_get. simpl. destruct (str_eqb p p') eqn:Ep; [|reflexivity].
  apply str_eqb_eq in Ep. subst p'. exfalso.
  apply (Hno s'), (contribution_yields v q f p s' E).
Qed.

(** C9.  When two workbooks of a folder yield series under the same product
    name, and no workbook read after them does, the dict (and so the merged
    table) holds for that name the series of the workbook read later, under
    a single key; the cells of the merged column are that series' values,
    null elsewhere; and the loop prints, file by file, what each file
    prints when read on its own -- nothing about the replacement. *)
Theorem later_file_replaces_earlier
    (v : script) (q : option table) (fd : folder)
    (fs1 fs2 fs3 : list xlsx) (f1 f2 : xlsx) (p : str) (s1 s2 : series) :
  files_of v fd = fs1 ++ f1 :: fs2 ++ f2 :: fs3 ->
  yields v f1 p s1 ->
  yields v f2 p s2 ->
  (forall f s, In f fs3 -> ~ yields v f p s) ->
  let st := read_folder_of v q fd in
  dict_get p (product_nav st) = Some s2 /\
  NoDup (map fst (product_nav st)) /\
  (forall d, cell (merged_of v (product_nav st)) d p = value_or_nan (lookup d s2)) /\
  stdout st =
    MsgFolder (folder_name fd) :: flat_map (messages_of v q) (files_of v fd).
Proof.
  intros Hfiles Y1 Y2 Y3 st. unfold st. rewrite read_folder_of_eq.
  pose proof (yields_contribution v q f1 p s1 Y1) as H1.
  pose proof (yields_contribution v q f2 p s2 Y2) as H2.
  assert (H3 : forall f, In f fs3 -> dict_get p (contribution v q f) = None).
  { intros f Hf. apply no_yield_no_entry. intros s. apply (Y3 f s Hf). }
  destruct (read_loop v q (files_of v fd) (initial_state fd)) as [Epn Eout].
  assert (Hget : dict_get p (product_nav
            (fold_left (file_step_of v q) (files_of v fd) (initial_state fd))) = Some s2).
  { assert (Hent : flat_map (contribution v q) (files_of v fd) =
                   (flat_map (contribution v q) fs1
                      ++ (p, s1) :: flat_map (contribution v q) fs2)
                   ++ (p, s2) :: flat_map (contribution v q) fs3).
    { rewrite Hfiles, flat_map_app. simpl. rewrite flat_map_app. simpl.
      rewrite H1, H2. simpl. rewrite <- app_assoc. reflexivity. }
    rewrite Epn, Hent. unfold dict_get. rewrite assoc_fold_put.
    rewrite (assoc_rev_last p _ _ s2 (assoc_flat_map_None v q p fs3 H3)).
    reflexivity. }
  repeat split.
  - exact Hget.
  - rewrite Epn. apply fold_put_keys_NoDup. constructor.
  - intros d. rewrite merged_of_merge, cell_merge.
    unfold dict_get in Hget. rewrite Hget. reflexivity.
  - rewrite Eout. reflexivity.
Qed.

Lemma example_yields (v : script) :
  yields v Example.book_old Example.comp_x [(1, 10%float); (2, 20%float)] /\
  yields v Example.book_new Example.comp_x [(2, 21%float); (3, 31%float)].
Proof.
  split.
  - exists [Example.history_sheet [Example.day_cell 1; Example.day_cell 2]
                                  [Example.num_cell 10%float; Example.num_cell 20%float]],
           (Example.history_sheet [Example.day_cell 1; Example.day_cell 2]
                                  [Example.num_cell 10%float; Example.num_cell 20%float]),
           [(lit_riqi, [Example.day_cell 1; Example.day_cell 2]);
            (lit_unit_nav, [Example.num_cell 10%float; Example.num_cell 20%float])],
           (lit_riqi, [Example.day_cell 1; Example.day_cell 2]),
           (lit_unit_nav, [Example.num_cell 10%float; Example.num_cell 20%float]).
    destruct v; repeat split; reflexivity.
  - exists [Example.history_sheet [Example.day_cell 2; Example.day_cell 3]
                                  [Example.num_cell 21%float; Example.num_cell 31%float]],
           (Example.history_sheet [Example.day_cell 2; Example.day_cell 3]
                                  [Example.num_cell 21%float; Example.num_cell 31%float]),
           [(lit_riqi, [Example.day_cell 2; Example.day_cell 3]);
            (lit_unit_nav, [Example.num_cell 21%float; Example.num_cell 31%float])],
           (lit_riqi, [Example.day_cell 2; Example.day_cell 3]),
           (lit_unit_nav, [Example.num_cell 21%float; Example.num_cell 31%float]).
    destruct v; repeat split; reflexivity.
Qed.

Lemma later_file_replaces_earlier_witness :
  (dict_get Example.comp_x (product_nav (read_folder_of ClosedV13 None Example.twice))
     = Some [(2, 21%float); (3, 31%float)] /\
   stdout (read_folder_of ClosedV13 None Example.twice)
     = [MsgFolder (folder_name Example.twice)]) /\
  (dict_get Example.comp_x (product_nav (read_folder_of OpenV12 None Example.twice))
     = Some [(2, 21%float); (3, 31%float)] /\
   stdout (read_folder_of OpenV12 None Example.twice)
     = [MsgFolder (folder_name Example.twice)]).
Proof.
  split.
  - destruct (later_file_replaces_earlier ClosedV13 None Example.twice
                [] [] [] Example.book_old Example.book_new Example.comp_x
                [(1, 10%float); (2, 20%float)] [(2, 21%float); (3, 31%float)])
      as (Hget & _ & _ & Hout).
    + reflexivity.
    + apply (example_yields ClosedV13).
    + apply (example_yields ClosedV13).
    + intros f s [].
    + split; [exact Hget | exact Hout].
  - destruct (later_file_replaces_earlier OpenV12 None Example.twice
                [] [] [] Example.book_old Example.book_new Example.comp_x
                [(1, 10%float); (2, 20%float)] [(2, 21%float); (3, 31%float)])
      as (Hget & _ & _ & Hout).
    + reflexivity.
    + apply (example_yields OpenV12).
    + apply (example_yields OpenV12).
    + intros f s [].
    + split; [exact Hget | exact Hout].
Defined.

End FileLoop.

(* ================================================================== *)
(** * Folders without NAV data *)

Section SkippedFolders.

Lemma run_of_eq (v : script) (q : option table) (folders : list folder) :
  run_of v q folders = run_folders (process_folder_of v q) folders.
Proof. destruct v; reflexivity. Qed.

Lemma process_folder_skips (v : script) (q : option table) (fd : folder) :
  product_nav (read_folder_of v q fd) = [] ->
  process_folder_of v q fd =
  (stdout (read_folder_of v q fd) ++ [MsgSkipped (folder_name fd)], Ok None).
Proof.
  destruct v; simpl; unfold Closed.process_folder, Open.process_folder;
    intros ->; reflexivity.
Qed.

Lemma flat_map_nil {A B : Type} (f : A -> list B) (l : list A) :
  (forall x, In x l -> f x = []) -> flat_map f l = [].
Proof.
  induction l as [|x l IH]; intros H; simpl; [reflexivity|].
  rewrite (H x (or_introl eq_refl)), IH; [reflexivity|].
  intros y Hy. apply H. right; exact Hy.
Qed.

(** What the skip does cover: a folder none of whose files stores a series
    gets no report; the run prints what the files print, then the skip
    message, raises nothing for this folder, and goes on with the folders
    that follow. *)
Theorem empty_batch_is_skipped
    (v : script) (q : option table) (fd : folder) (rest : list folder) :
  (forall f, In f (files_of v fd) -> contribution v q f = []) ->
  run_of v q (fd :: rest) =
  {| printed := (MsgFolder (folder_name fd)
                   :: flat_map (messages_of v q) (files_of v fd))
                ++ MsgSkipped (folder_name fd) :: printed (run_of v q rest);
     written := written (run_of v q rest);
     crashed := crashed (run_of v q rest) |}.
Proof.
  intros Hnone. rewrite !run_of_eq.
  pose proof (read_folder_of_eq v q fd) as Eread.
  destruct (read_loop v q (files_of v fd) (initial_state fd)) as [Epn Eout].
  rewrite <- Eread in Epn, Eout.
  rewrite (flat_map_nil _ _ Hnone) in Epn. simpl in Epn, Eout.
  simpl. rewrite (process_folder_skips v q fd Epn), Eout.
  rewrite <- app_assoc. reflexivity.
Qed.

Lemma empty_batch_is_skipped_witness :
  (forall f, In f (files_of ClosedV13 Example.barren) ->
             contribution ClosedV13 None f = []) /\
  run_of ClosedV13 None [Example.barren; Example.twice] =
  {| printed := [MsgFolder (folder_name Example.barren);
                 MsgReadError (file_name Example.broken);
                 MsgSkipped (folder_name Example.barren)]
                ++ printed (run_of ClosedV13 None [Example.twice]);
     written := written (run_of ClosedV13 None [Example.twice]);
     crashed := crashed (run_of ClosedV13 None [Example.twice]) |}.
Proof.
  assert (H : forall f, In f (files_of ClosedV13 Example.barren) ->
                        contribution ClosedV13 None f = []).
  { intros f [<- | []]. reflexivity. }
  split; [exact H|].
  exact (empty_batch_is_skipped ClosedV13 None Example.barren [Example.twice] H).
Defined.

(** C8 fails on the code.  A folder whose only workbook has the history
    columns but no usable row yields no usable series; yet an empty series
    is stored for the product, so that [product_nav] is not empty: the
    folder is not skipped, no skip message is printed, [pd.date_range]
    raises ValueError on the empty index, and the run ends there, the
    folder after it unprocessed. *)
Lemma empty_series_is_not_skipped (v : script) :
  contribution v None (hd Example.broken (listing Example.hollow))
    = [(Example.comp_x, [])] /\
  run_of v None [Example.hollow; Example.twice] =
  {| printed := [MsgFolder (folder_name Example.hollow)];
     written := [];
     crashed := Some ValueError |}.
Proof. destruct v; split; vm_compute; reflexivity. Qed.

End SkippedFolders.

(* ================================================================== *)
(** * The written reports *)

Section Reports.

(** The steps behind a report of the closed-end script: the resampled
    table, the two sheet layouts, the product information when there is
    any, and the chart. *)
Lemma closed_report_sheets (q : option table) (fd : folder)
    (msgs : list message) (rep : report) :
  Closed.process_folder q fd = (msgs, Ok (Some rep)) ->
  let st := Closed.read_folder q fd in
  exists plot df_out df_plot info ch,
    Closed.plot_nav (product_nav st) = Ok plot /\
    reset_index (Some lit_nav_date) (Closed.merged_nav (product_nav st)) = Ok df_out /\
    reset_index (Some lit_nav_date) plot = Ok df_plot /\
    Closed.df_info q (codes_in_folder st) = Ok info /\
    Closed.insert_chart df_plot (length (index plot)) = Ok ch /\
    report_sheets rep =
      [(NavData, Frame (Closed.merged_nav (product_nav st)));
       (PlotData, Frame plot)] ++ info /\
    report_charts rep = [ch] /\
    msgs = stdout st ++ [MsgWritten (folder_name fd)].
Proof.
  unfold Closed.process_folder. intros H. cbv zeta in *.
  set (st := Closed.read_folder q fd) in *.
  destruct (product_nav st) as [|e pn] eqn:Epn; [discriminate|].
  rewrite <- Epn in *. clear Epn.
  step_in H plot. step_in H df_out. step_in H df_plot. step_in H info. step_in H ch.
  injection H as <- <-. exists plot, df_out, df_plot, info, ch. repeat split; assumption.
Qed.

(** The steps behind a report of the open-end script. *)
Lemma open_report_sheets (q : option table) (fd : folder)
    (msgs : list message) (rep : report) :
  Open.process_folder q fd = (msgs, Ok (Some rep)) ->
  let st := Open.read_folder q fd in
  exists normed plot_raw plot_norm info chart_raw chart_norm,
    Open.df_norm (product_nav st) = Ok normed /\
    Open.df_plot_raw (product_nav st) = Ok plot_raw /\
    Open.df_plot_norm (product_nav st) = Ok plot_norm /\
    Open.df_info q (codes_in_folder st) = Ok info /\
    Open.plot_chart (Open.fab_cols (product_nav st)) RawPlot plot_raw = Ok chart_raw /\
    Open.plot_chart (Open.fab_cols (product_nav st)) UnifiedPlot plot_norm
      = Ok chart_norm /\
    report_sheets rep =
      [(RawNav, Frame (Open.df_raw (product_nav st)));
       (UnifiedNav, Frame normed);
       (RawPlot, Frame plot_raw);
       (UnifiedPlot, Frame plot_norm)] ++ info /\
    report_charts rep = [chart_raw; chart_norm] /\
    msgs = stdout st ++ [MsgWritten (folder_name fd)].
Proof.
  unfold Open.process_folder. intros H. cbv zeta in *.
  set (st := Open.read_folder q fd) in *.
  destruct (product_nav st) as [|e pn] eqn:Epn; [discriminate|].
  rewrite <- Epn in *. clear Epn.
  step_in H normed. step_in H plot_raw. step_in H plot_norm.
  step_in H r1. step_in H r2. step_in H r3. step_in H r4.
  step_in H info. step_in H chart_raw. step_in H chart_norm.
  injection H as <- <-. exists normed, plot_raw, plot_norm, info, chart_raw, chart_norm.
  repeat split; assumption.
Qed.

End Reports.

(* ================================================================== *)
(** * Further properties of the scripts *)

(* ------------------------------------------------------------------ *)
(** ** File names and product names *)

Section Names.

Lemma find_index_app_r (ch : N) (a b : str) :
  find_index ch a = None ->
  find_index ch (a ++ b) = option_map (fun k => (length a + k)%nat) (find_index ch b).
Proof.
  induction a as [|x a IH]; simpl.
  - intros _. destruct (find_index ch b); reflexivity.
  - destruct (N.eqb x ch); [discriminate|].
    destruct (find_index ch a) eqn:E; [discriminate|]. intros _.
    rewrite IH by reflexivity. destruct (find_index ch b); reflexivity.
Qed.

Lemma rfind_dot_xlsx (stem : str) :
  rfind 0x2e%N (stem ++ lit_xlsx) = Some (length stem).
Proof.
  unfold rfind. rewrite rev_app_distr.
  change (rev lit_xlsx) with [0x78; 0x73; 0x6c; 0x78; 0x2e]%N.
  simpl. rewrite length_app. simpl. f_equal. lia.
Qed.

(** X1.  For a bare file name that ends in '.xlsx', [os.path.splitext]
    cuts exactly that extension, unless the rest is empty or only dots, in
    which case the whole name is kept. *)
Theorem splitext_root_xlsx (stem : str) :
  bare_name stem = true ->
  splitext_root (stem ++ lit_xlsx) =
  if existsb (fun ch => negb (N.eqb ch 0x2e%N)) stem then stem else stem ++ lit_xlsx.
Proof.
  intros _. unfold splitext_root. rewrite rfind_dot_xlsx.
  rewrite firstn_app, Nat.sub_diag, firstn_all. simpl. rewrite app_nil_r.
  reflexivity.
Qed.

Lemma splitext_root_xlsx_witness :
  bare_name Example2.stem_report = true /\
  splitext_root (Example2.stem_report ++ lit_xlsx) = Example2.stem_report.
Proof.
  split; [reflexivity|].
  apply (splitext_root_xlsx Example2.stem_report). reflexivity.
Defined.

Lemma take_drop_while (f : N -> bool) (s : str) :
  take_while f s ++ drop_while f s = s.
Proof.
  induction s as [|x s IH]; simpl; [reflexivity|].
  destruct (f x); simpl; [rewrite IH|]; reflexivity.
Qed.

Lemma take_while_all (f : N -> bool) (s : str) : forallb f (take_while f s) = true.
Proof.
  induction s as [|x s IH]; simpl; [reflexivity|].
  destruct (f x) eqn:E; simpl; [rewrite E; exact IH | reflexivity].
Qed.

Lemma drop_while_head (f : N -> bool) (s : str) (x : N) (rest : str) :
  drop_while f s = x :: rest -> f x = false.
Proof.
  induction s as [|y s IH]; simpl; [discriminate|].
  destruct (f y) eqn:E; [exact IH|]. intros H; injection H as <- _. exact E.
Qed.

Lemma forallb_rev (f : N -> bool) (s : str) : forallb f (rev s) = forallb f s.
Proof.
  induction s as [|x s IH]; simpl; [reflexivity|].
  rewrite forallb_app, IH. simpl. rewrite andb_true_r. apply andb_comm.
Qed.

(** What the regular expression finds: a non-empty run of name characters
    that ends the name (or stands before its final newline), as long as
    possible. *)
Lemma search_trailing_name_Some (name m : str) :
  search_trailing_name name = Some m ->
  m <> [] /\
  forallb name_char m = true /\
  exists pre tail,
    name = pre ++ m ++ tail /\
    (tail = [] \/ tail = [0x0a%N]) /\
    (pre = [] \/ exists pre' c, pre = pre' ++ [c] /\ name_char c = false).
Proof.
  unfold search_trailing_name.
  set (r := match rev name with
            | 0x0a%N :: r' => r'
            | _ => rev name
            end).
  assert (Hr : exists tail, rev name = rev tail ++ r /\ (tail = [] \/ tail = [0x0a%N])).
  { unfold r. destruct (rev name) as [|x r'] eqn:E.
    - exists []. split; [reflexivity | left; reflexivity].
    - destruct (N.eq_dec x 0x0a) as [-> | Hx].
      + exists [0x0a%N]. split; [reflexivity | right; reflexivity].
      + exists []. split; [|left; reflexivity].
        destruct x as [|p]; [reflexivity|].
        do 4 (destruct p as [p|p|]; try reflexivity). congruence. }
  clearbody r. destruct Hr as (tail & Hrev & Htail).
  destruct (rev (take_while name_char r)) as [|c m'] eqn:Em; [discriminate|].
  intros H; injection H as <-. split; [discriminate|]. split.
  - rewrite <- Em, forallb_rev. apply take_while_all.
  - exists (rev (drop_while name_char r)), tail. split; [|split; [exact Htail|]].
    + rewrite <- Em. rewrite <- (rev_involutive name), Hrev, rev_app_distr.
      rewrite rev_involutive. rewrite <- (take_drop_while name_char r) at 1.
      rewrite rev_app_distr, app_assoc. reflexivity.
    + destruct (drop_while name_char r) as [|x rest] eqn:Ed; [left; reflexivity|].
      right. exists (rev rest), x. split; [reflexivity|].
      apply (drop_while_head _ _ _ _ Ed).
Qed.

Lemma name_char_not_space (c : N) : name_char c = true -> isspace c = false.
Proof.
  unfold name_char, isspace. intros H.
  repeat rewrite ?orb_true_iff, ?andb_true_iff, ?N.leb_le, ?N.eqb_eq in H.
  repeat rewrite ?orb_false_iff, ?andb_false_iff, ?N.leb_gt, ?N.eqb_neq.
  lia.
Qed.

Lemma drop_while_no_head (f : N -> bool) (s : str) :
  (forall x rest, s = x :: rest -> f x = false) -> drop_while f s = s.
Proof.
  destruct s as [|x s]; intros H; simpl; [reflexivity|].
  rewrite (H x s eq_refl). reflexivity.
Qed.

(** [strip] leaves a string alone when neither end is a blank. *)
Lemma strip_fixed (s : str) :
  (forall x rest, s = x :: rest -> isspace x = false) ->
  (forall pre x, s = pre ++ [x] -> isspace x = false) ->
  strip s = s.
Proof.
  intros Hhead Hlast. unfold strip. rewrite (drop_while_no_head _ s Hhead).
  rewrite drop_while_no_head; [apply rev_involutive|].
  intros x rest E. apply (Hlast (rev rest) x).
  rewrite <- (rev_involutive s), E. reflexivity.
Qed.

Lemma forallb_In (f : N -> bool) (s : str) (x : N) :
  forallb f s = true -> In x s -> f x = true.
Proof. intros H Hin. rewrite forallb_forall in H. apply H, Hin. Qed.

(** X2.  When the stem of a file name ends in a name character (possibly
    before a final newline), both scripts name the product by the longest
    run of name characters that ends the stem: the name is not empty, holds
    name characters only, and is preceded by no further name character. *)
Theorem product_name_is_trailing_run (v : script) (filename m : str) :
  search_trailing_name (splitext_root filename) = Some m ->
  extract_product_name_of v filename = m /\
  m <> [] /\
  forallb name_char m = true /\
  exists pre tail,
    splitext_root filename = pre ++ m ++ tail /\
    (tail = [] \/ tail = [0x0a%N]) /\
    (pre = [] \/ exists pre' c, pre = pre' ++ [c] /\ name_char c = false).
Proof.
  intros H. destruct (search_trailing_name_Some _ _ H) as (Hne & Hall & Hex).
  repeat split; try assumption.
  destruct v; unfold extract_product_name_of, Closed.extract_product_name,
    Open.extract_product_name; rewrite H; [reflexivity|].
  apply strip_fixed.
  - intros x rest E. apply name_char_not_space.
    apply (forallb_In _ _ _ Hall). rewrite E. left; reflexivity.
  - intros pre x E. apply name_char_not_space.
    apply (forallb_In _ _ _ Hall). rewrite E. apply in_or_app. right; left; reflexivity.
Qed.

Lemma product_name_is_trailing_run_witness :
  search_trailing_name (splitext_root Example.name_report) = Some Example.fab_a /\
  extract_product_name_of OpenV12 Example.name_report = Example.fab_a.
Proof.
  split; [reflexivity|].
  apply (product_name_is_trailing_run OpenV12 Example.name_report Example.fab_a).
  reflexivity.
Defined.

Lemma strip_head (s : str) (x : N) (rest : str) :
  strip s = x :: rest -> isspace x = false.
Proof.
  unfold strip. intros H.
  destruct (drop_while isspace s) as [|y s'] eqn:Ed; [discriminate H|].
  pose proof (drop_while_head _ _ _ _ Ed) as Hy.
  simpl in H.
  destruct (drop_while isspace (rev s' ++ [y])) as [|z l] eqn:Ez.
  - discriminate H.
  - assert (Hl : exists l', z :: l = l' ++ [y]).
    { clear H. revert z l Ez. induction (rev s') as [|w t IH]; simpl; intros z l Ez.
      - rewrite Hy in Ez. injection Ez as <- <-. exists []. reflexivity.
      - destruct (isspace w).
        + destruct (IH z l Ez) as [l' E]. exists l'. exact E.
        + injection Ez as <- <-. exists (w :: t). reflexivity. }
    destruct Hl as [l' El]. rewrite El, rev_app_distr in H. simpl in H.
    injection H as <- _. exact Hy.
Qed.

Lemma strip_last (s pre : str) (x : N) :
  strip s = pre ++ [x] -> isspace x = false.
Proof.
  unfold strip. intros H.
  destruct (drop_while isspace (rev (drop_while isspace s))) as [|z l] eqn:Ez.
  - destruct pre; discriminate H.
  - simpl in H. pose proof (drop_while_head _ _ _ _ Ez) as Hz.
    apply (f_equal (@rev N)) in H. rewrite !rev_app_distr in H. simpl in H.
    rewrite rev_involutive in H. injection H as <- _. exact Hz.
Qed.

(** X3.  A product name of the open-end script never begins or ends with a
    blank; without a trailing run of name characters it is the stripped
    stem, where the closed-end script keeps the stem as it is. *)
Theorem open_product_name_is_stripped (filename : str) :
  let n := Open.extract_product_name filename in
  (forall x rest, n = x :: rest -> isspace x = false) /\
  (forall pre x, n = pre ++ [x] -> isspace x = false) /\
  (search_trailing_name (splitext_root filename) = None ->
   n = strip (splitext_root filename) /\
   Closed.extract_product_name filename = splitext_root filename).
Proof.
  unfold Open.extract_product_name, Closed.extract_product_name. cbv zeta.
  destruct (search_trailing_name (splitext_root filename)) as [m|];
    repeat split; try discriminate; eauto using strip_head, strip_last.
Qed.

End Names.

(* ------------------------------------------------------------------ *)
(** ** The series of one file *)

Section StoredSeries.

Lemma upsert_In (e : Z * float) (d : Z) (v : float) (s : series) :
  In e (upsert d v s) -> e = (d, v) \/ In e s.
Proof.
  induction s as [|[d0 v0] s IH]; simpl; [intuition auto|].
  destruct (d <? d0); simpl; [intuition auto|].
  destruct (d =? d0); simpl; [intuition auto|].
  intros [H | H]; [auto|]. apply IH in H. tauto.
Qed.

Lemma groupby_last_In (rows : list (Z * float)) (e : Z * float) :
  In e (groupby_last rows) -> In e rows.
Proof.
  unfold groupby_last.
  assert (G : forall acc,
             In e (fold_left (fun acc r => upsert (fst r) (snd r) acc) rows acc) ->
             In e rows \/ In e acc).
  { induction rows as [|r rows IH]; intros acc H; simpl in *; [auto|].
    apply IH in H. destruct H as [H | H]; [auto|].
    apply upsert_In in H. destruct H as [-> | H]; [|auto].
    left; left. destruct r; reflexivity. }
  intros H. apply G in H. destruct H as [H | []]. exact H.
Qed.

(** The rows that reach [groupby]: both cells present, the date readable,
    the value a number. *)
Lemma usable_rows_In (dc nc : list xcell) (d : Z) (x : float) :
  In (d, x) (usable_rows dc nc) <->
  exists cd cv,
    In (cd, cv) (combine dc nc) /\
    raw_isna cd = false /\ raw_isna cv = false /\
    as_datetime cd = Some d /\ as_numeric cv = x /\ isna x = false.
Proof.
  unfold usable_rows. rewrite in_flat_map. split.
  - intros (r & Hr & Hk). rewrite in_map_iff in Hr.
    destruct Hr as ([cd cv] & <- & Hin).
    rewrite filter_In in Hin. destruct Hin as [Hin Hf].
    apply andb_true_iff in Hf. destruct Hf as [H1 H2].
    rewrite negb_true_iff in H1, H2. simpl in H1, H2.
    unfold keep_row, coerce_row in Hk. simpl in Hk.
    destruct (as_datetime cd) as [d'|] eqn:Ed; [|destruct Hk].
    destruct (isna (as_numeric cv)) eqn:En; [destruct Hk|].
    destruct Hk as [Hk | []]. injection Hk as -> <-.
    exists cd, cv. repeat split; assumption.
  - intros (cd & cv & Hin & H1 & H2 & Ed & Ev & En).
    exists (coerce_row (cd, cv)). split.
    + apply in_map, filter_In. split; [exact Hin|]. simpl. rewrite H1, H2. reflexivity.
    + unfold keep_row, coerce_row. simpl. rewrite Ed, Ev, En. left; reflexivity.
Qed.

(** X4.  The series kept for a file is well formed: its dates are strictly
    increasing, every value is a number read from a row of the sheet whose
    two cells are present and whose date is readable, and every such row's
    date is in the series. *)
Theorem stored_series_is_well_formed
    (prod : str) (date_cells nav_cells : list xcell) (s : series) :
  history_series prod date_cells nav_cells = Ok s ->
  StronglySorted Z.lt (dates s) /\
  (forall d x, In (d, x) s ->
     isna x = false /\
     exists cd cv,
       In (cd, cv) (combine date_cells nav_cells) /\
       raw_isna cd = false /\ raw_isna cv = false /\
       as_datetime cd = Some d /\ as_numeric cv = x) /\
  (forall cd cv d,
     In (cd, cv) (combine date_cells nav_cells) ->
     raw_isna cd = false -> raw_isna cv = false ->
     as_datetime cd = Some d -> isna (as_numeric cv) = false ->
     In d (dates s)).
Proof.
  unfold history_series. destruct (str_eqb prod lit_date); [discriminate|].
  intros H; injection H as <-. split; [apply groupby_last_sorted|]. split.
  - intros d x Hin. apply groupby_last_In, usable_rows_In in Hin.
    destruct Hin as (cd & cv & Hin & H1 & H2 & Ed & Ev & En).
    split; [exact En|]. exists cd, cv. repeat split; assumption.
  - intros cd cv d Hin H1 H2 Ed En. apply groupby_last_dates_In.
    unfold dates. apply in_map_iff. exists (d, as_numeric cv).
    split; [reflexivity|]. apply usable_rows_In. exists cd, cv.
    repeat split; assumption.
Qed.

Lemma stored_series_is_well_formed_witness :
  history_series Example.comp_x Example.dup_dates Example.dup_navs
    = Ok [(1, 30%float); (2, 20%float)] /\
  StronglySorted Z.lt (dates [(1, 30%float); (2, 20%float)]).
Proof.
  split; [reflexivity|].
  apply (stored_series_is_well_formed Example.comp_x
           Example.dup_dates Example.dup_navs [(1, 30%float); (2, 20%float)]).
  reflexivity.
Defined.

End StoredSeries.

(* ------------------------------------------------------------------ *)
(** ** The loop over the files of a folder *)

Section FolderLoop.

Lemma assoc_set_In {A : Type} (e : str * A) (k : str) (v : A) (l : list (str * A)) :
  In e (assoc_set k v l) -> e = (k, v) \/ In e l.
Proof.
  induction l as [|[k' v'] l IH]; simpl; [intuition auto|].
  destruct (str_eqb k k') eqn:Ek; simpl.
  - apply str_eqb_eq in Ek. subst k'. intuition auto.
  - intros [H | H]; [auto|]. apply IH in H. tauto.
Qed.

Lemma assoc_set_length {A : Type} (k : str) (v : A) (l : list (str * A)) :
  (length (assoc_set k v l) <= S (length l))%nat.
Proof.
  induction l as [|[k' v'] l IH]; simpl; [lia|].
  destruct (str_eqb k k'); simpl; lia.
Qed.

Lemma fold_put_In (entries : list (str * series)) (e : str * series) :
  forall d0, In e (fold_left put entries d0) -> In e entries \/ In e d0.
Proof.
  induction entries as [|x entries IH]; intros d0 H; simpl in *; [auto|].
  apply IH in H. destruct H as [H | H]; [auto|].
  unfold put, dict_set in H. apply assoc_set_In in H.
  destruct H as [-> | H]; [|auto]. left; left. destruct x; reflexivity.
Qed.

Lemma fold_put_length (entries : list (str * series)) :
  forall d0, (length (fold_left put entries d0) <= length d0 + length entries)%nat.
Proof.
  induction entries as [|x entries IH]; intros d0; simpl; [lia|].
  specialize (IH (put d0 x)). unfold put, dict_set in *.
  pose proof (assoc_set_length (fst x) (snd x) d0). lia.
Qed.

Lemma contributions_length (v : script) (q : option table) (fs : list xlsx) :
  (length (flat_map (contribution v q) fs) <= length fs)%nat.
Proof.
  induction fs as [|f fs IH]; simpl; [lia|]. rewrite length_app.
  destruct (contribution_cases v q f) as [-> | (p & s & ->)]; simpl; lia.
Qed.

(** X5.  After the loop over a folder's files, [product_nav] holds each
    product name once, has at most as many entries as there are files, and
    each entry is the series some file of the folder yields under the
    product name taken from that file's name. *)
Theorem collected_series_come_from_files
    (v : script) (q : option table) (fd : folder) :
  let st := read_folder_of v q fd in
  NoDup (map fst (product_nav st)) /\
  (length (product_nav st) <= length (files_of v fd))%nat /\
  forall p s, In (p, s) (product_nav st) ->
    exists f, In f (files_of v fd) /\
              p = extract_product_name_of v (file_name f) /\
              contribution v q f = [(p, s)].
Proof.
  cbv zeta. rewrite read_folder_of_eq.
  destruct (read_loop v q (files_of v fd) (initial_state fd)) as [Epn _].
  rewrite Epn. simpl. split; [apply fold_put_keys_NoDup; constructor|]. split.
  - pose proof (fold_put_length (flat_map (contribution v q) (files_of v fd)) []).
    pose proof (contributions_length v q (files_of v fd)). simpl in *. lia.
  - intros p s Hin. apply fold_put_In in Hin. destruct Hin as [Hin | []].
    apply in_flat_map in Hin. destruct Hin as (f & Hf & Hin). exists f.
    split; [exact Hf|].
    destruct (contribution_cases v q f) as [E | (p' & s' & E)];
      rewrite E in Hin; [destruct Hin|].
    destruct Hin as [Hin | []]. injection Hin as -> ->.
    split; [|exact E].
    destruct (contribution_is_history_series v q f p s E)
      as (? & ? & ? & ? & ? & _ & _ & _ & _ & _ & Hp & _).
    exact Hp.
Qed.

Lemma set_update_In (l : list str) (c : str) :
  forall s, In c (set_update s l) <-> In c s \/ In c l.
Proof.
  unfold set_update. induction l as [|x l IH]; intros s; simpl; [tauto|].
  rewrite IH. destruct (str_mem x s) eqn:E.
  - apply str_mem_In in E. split; [tauto|].
    intros [H | [<- | H]]; auto.
  - rewrite in_app_iff. simpl. tauto.
Qed.

Lemma set_update_NoDup (l : list str) :
  forall s, NoDup s -> NoDup (set_update s l).
Proof.
  unfold set_update. induction l as [|x l IH]; intros s H; simpl; [exact H|].
  apply IH. destruct (str_mem x s) eqn:E; [exact H|].
  apply str_mem_false in E. apply NoDup_app; [exact H | constructor; [intros [] | constructor] |].
  intros y Hy [<- | []]. contradiction.
Qed.

(** What a file adds to [codes_in_folder] does not depend on what was
    collected before it. *)
Lemma file_step_codes
    (v : script) (q : option table) (st : loop_state) (f : xlsx) (c : str) :
  In c (codes_in_folder (file_step_of v q st f)) <->
  In c (codes_in_folder st) \/ In c (codes_of v q f).
Proof.
  destruct v; unfold_file_step; split_cases; simpl;
    rewrite ?set_update_In; simpl; tauto.
Qed.

Lemma file_step_codes_NoDup
    (v : script) (q : option table) (st : loop_state) (f : xlsx) :
  NoDup (codes_in_folder st) -> NoDup (codes_in_folder (file_step_of v q st f)).
Proof.
  intros H. destruct v; unfold_file_step; split_cases; simpl;
    try exact H; apply set_update_NoDup, H.
Qed.

Lemma read_loop_codes (v : script) (q : option table) (fs : list xlsx) (c : str) :
  forall st,
    In c (codes_in_folder (fold_left (file_step_of v q) fs st)) <->
    In c (codes_in_folder st) \/ exists f, In f fs /\ In c (codes_of v q f).
Proof.
  induction fs as [|f fs IH]; intros st; simpl.
  - split; [auto | intros [H | (f & [] & _)]; exact H].
  - rewrite IH, file_step_codes. split.
    + intros [[H | H] | (g & Hg & H)]; eauto.
    + intros [H | (g & [<- | Hg] & H)]; eauto.
Qed.

Lemma read_loop_codes_NoDup (v : script) (q : option table) (fs : list xlsx) :
  forall st, NoDup (codes_in_folder st) ->
             NoDup (codes_in_folder (fold_left (file_step_of v q) fs st)).
Proof.
  induction fs as [|f fs IH]; intros st H; simpl; [exact H|].
  apply IH, file_step_codes_NoDup, H.
Qed.

Lemma folder_codes_In (v : script) (q : option table) (fd : folder) (c : str) :
  In c (codes_in_folder (read_folder_of v q fd)) <->
  exists f, In f (files_of v fd) /\ In c (codes_of v q f).
Proof. rewrite read_folder_of_eq, read_loop_codes. simpl. tauto. Qed.

(** X6.  After the loop, [codes_in_folder] is the union of what the files
    yield each on its own, every code once: which codes are collected does
    not depend on the order of the files. *)
Theorem collected_codes_are_union
    (v : script) (q : option table) (fd : folder) (c : str) :
  NoDup (codes_in_folder (read_folder_of v q fd)) /\
  (In c (codes_in_folder (read_folder_of v q fd)) <->
   exists f, In f (files_of v fd) /\ In c (codes_of v q f)).
Proof.
  split; [|apply folder_codes_In].
  rewrite read_folder_of_eq. apply read_loop_codes_NoDup. constructor.
Qed.

(** Where a code of one file comes from. *)
Lemma codes_of_origin (v : script) (q : option table) (f : xlsx) (c : str) :
  In c (codes_of v q f) ->
  is_loaded q = true /\
  exists sheets sh df cells x,
    excel_file f = Ok sheets /\
    find_sheet lit_latest_nav lit_latest sheets = Some sh /\
    parse sh = Ok df /\
    sheet_column lit_reg_code df = Some cells /\
    In x cells /\ raw_isna x = false /\ c = as_str x.
Proof.
  destruct v; unfold_file_step; split_cases_eqn; simpl; try tauto;
    rewrite set_update_In; simpl; (intros [[] | H]);
    unfold code_list in H; rewrite in_map_iff in H;
    destruct H as (x & <- & Hx); rewrite filter_In, negb_true_iff in Hx;
    destruct Hx as [Hx Hn]; (split; [reflexivity|]);
    do 5 eexists; repeat split; eassumption.
Qed.

(** X7.  Codes are collected only when the lookup table was loaded, and
    every collected code is the text of a non-null cell of the column
    '登记编码' of the first latest-NAV sheet of a workbook of the folder. *)
Theorem collected_codes_come_from_sheets
    (v : script) (q : option table) (fd : folder) (c : str) :
  In c (codes_in_folder (read_folder_of v q fd)) ->
  is_loaded q = true /\
  exists f sheets sh df cells x,
    In f (files_of v fd) /\
    excel_file f = Ok sheets /\
    find_sheet lit_latest_nav lit_latest sheets = Some sh /\
    parse sh = Ok df /\
    sheet_column lit_reg_code df = Some cells /\
    In x cells /\ raw_isna x = false /\ c = as_str x.
Proof.
  intros H. apply folder_codes_In in H.
  destruct H as (f & Hf & H). apply codes_of_origin in H.
  destruct H as (Hq & sheets & sh & df & cells & x & H).
  split; [exact Hq|]. exists f, sheets, sh, df, cells, x. tauto.
Qed.

Lemma collected_codes_come_from_sheets_witness :
  In Example.code_a1
     (codes_in_folder (read_folder_of ClosedV13 (Some Example.query) Example2.coded)) /\
  is_loaded (Some Example.query) = true.
Proof.
  assert (H : In Example.code_a1
                (codes_in_folder
                   (read_folder_of ClosedV13 (Some Example.query) Example2.coded))).
  { vm_compute. left; reflexivity. }
  split; [exact H|].
  exact (proj1 (collected_codes_come_from_sheets ClosedV13 (Some Example.query)
                  Example2.coded Example.code_a1 H)).
Defined.

Lemma contribution_any_lookup (v : script) (q q' : option table) (f : xlsx) :
  contribution v q f = contribution v q' f.
Proof.
  destruct v, q, q'; unfold_file_step; simpl; split_cases; reflexivity.
Qed.

(** X8.  The series collected from a folder do not depend on the lookup
    table: whether it was loaded, and what it holds, changes neither
    [product_nav] nor, with it, the merged and resampled tables. *)
Theorem collected_series_ignore_lookup
    (v : script) (q q' : option table) (fd : folder) :
  product_nav (read_folder_of v q fd) = product_nav (read_folder_of v q' fd) /\
  merged_of v (product_nav (read_folder_of v q fd))
    = merged_of v (product_nav (read_folder_of v q' fd)) /\
  resampled_of v (product_nav (read_folder_of v q fd))
    = resampled_of v (product_nav (read_folder_of v q' fd)).
Proof.
  assert (E : product_nav (read_folder_of v q fd)
              = product_nav (read_folder_of v q' fd)).
  { rewrite !read_folder_of_eq.
    destruct (read_loop v q (files_of v fd) (initial_state fd)) as [-> _].
    destruct (read_loop v q' (files_of v fd) (initial_state fd)) as [-> _].
    f_equal. apply flat_map_ext. intros f. apply contribution_any_lookup. }
  rewrite E. repeat split.
Qed.

(** X9.  When the latest-NAV sheet of a workbook cannot be parsed, the
    series already taken from its history sheet stays in [product_nav]; the
    file adds no code and one read-error message. *)
Theorem failed_latest_sheet_keeps_series
    (v : script) (q : option table) (st : loop_state) (f : xlsx)
    (sheets : list sheet) (sh_h sh_l : sheet) (df : sheet_table)
    (dc nc : str * list xcell) (s : series) (e : exn) :
  excel_file f = Ok sheets ->
  find_sheet lit_hist_nav lit_hist sheets = Some sh_h ->
  parse sh_h = Ok df ->
  find_column lit_riqi df = Some dc ->
  find_column lit_unit_nav df = Some nc ->
  history_series (extract_product_name_of v (file_name f)) (snd dc) (snd nc) = Ok s ->
  is_loaded q = true ->
  find_sheet lit_latest_nav lit_latest sheets = Some sh_l ->
  parse sh_l = Raise e ->
  file_step_of v q st f =
  print (MsgReadError (file_name f))
        (store_series (extract_product_name_of v (file_name f)) s st).
Proof.
  intros Hx Hh Hp Hd Hn Hs Hq Hl He.
  destruct v; unfold_file_step; unfold extract_product_name_of in Hs;
    rewrite Hx, Hh, Hp, Hd, Hn, Hs, Hq, Hl, He; reflexivity.
Qed.

Lemma failed_latest_sheet_keeps_series_witness :
  product_nav (file_step_of OpenV12 (Some Example.query) empty_state Example2.book_half)
    = [(Example.comp_x, [(1, 10%float); (2, 20%float)])] /\
  file_step_of OpenV12 (Some Example.query) empty_state Example2.book_half =
  print (MsgReadError (file_name Example2.book_half))
        (store_series (extract_product_name_of OpenV12 (file_name Example2.book_half))
                      [(1, 10%float); (2, 20%float)] empty_state).
Proof.
  split; [reflexivity|].
  eapply (failed_latest_sheet_keeps_series OpenV12 (Some Example.query) empty_state
            Example2.book_half);
    reflexivity.
Defined.

(** X10.  When the history sheet of a workbook cannot be parsed, or the
    product is called 'date' (so that the date conversion raises), the rest
    of the [try] block is not run: the file adds neither a series nor its
    codes, only the read-error message. *)
Theorem failed_history_sheet_skips_file
    (v : script) (q : option table) (st : loop_state) (f : xlsx)
    (sheets : list sheet) (sh : sheet) :
  excel_file f = Ok sheets ->
  find_sheet lit_hist_nav lit_hist sheets = Some sh ->
  ((exists e, parse sh = Raise e) \/
   (exists df dc nc,
      parse sh = Ok df /\
      find_column lit_riqi df = Some dc /\
      find_column lit_unit_nav df = Some nc /\
      extract_product_name_of v (file_name f) = lit_date)) ->
  file_step_of v q st f = print (MsgReadError (file_name f)) st.
Proof.
  intros Hx Hh [(e & He) | (df & dc & nc & Hp & Hd & Hn & Hname)];
    destruct v; unfold_file_step; unfold extract_product_name_of in *;
    rewrite Hx, Hh; rewrite ?He, ?Hp, ?Hd, ?Hn; unfold history_series;
    rewrite ?Hname; reflexivity.
Qed.

Lemma failed_history_sheet_skips_file_witness :
  file_step_of ClosedV13 (Some Example.query) empty_state Example2.book_nohist =
  print (MsgReadError (file_name Example2.book_nohist)) empty_state.
Proof.
  apply (failed_history_sheet_skips_file ClosedV13 (Some Example.query) empty_state
           Example2.book_nohist _ _ eq_refl eq_refl).
  left. exists ReadFailure. reflexivity.
Defined.

Lemma open_messages_of (q : option table) (f : xlsx) :
  messages_of OpenV12 q f = [] \/
  messages_of OpenV12 q f = [MsgReadError (file_name f)].
Proof. unfold_file_step; split_cases; simpl; auto. Qed.

(** X11.  While it reads a folder, the open-end script prints nothing but
    the folder line and the read errors of files of that folder: a workbook
    without history sheet, without date or unit-NAV column, without
    latest-NAV sheet or code column is passed over in silence. *)
Theorem open_script_prints_only_read_errors
    (q : option table) (fd : folder) (m : message) :
  In m (stdout (Open.read_folder q fd)) ->
  m = MsgFolder (folder_name fd) \/
  exists f, In f (Open.excel_files fd) /\ m = MsgReadError (file_name f).
Proof.
  change (Open.read_folder q fd) with (read_folder_of OpenV12 q fd).
  rewrite read_folder_of_eq.
  destruct (read_loop OpenV12 q (files_of OpenV12 fd) (initial_state fd)) as [_ ->].
  simpl. intros [H | H]; [left; symmetry; exact H|]. right.
  apply in_flat_map in H. destruct H as (f & Hf & H). exists f. split; [exact Hf|].
  destruct (open_messages_of q f) as [E | E]; rewrite E in H;
    [destruct H | destruct H as [H | []]; symmetry; exact H].
Qed.

Lemma open_script_prints_only_read_errors_witness :
  In (MsgReadError (file_name Example.broken))
     (stdout (Open.read_folder None Example.barren)) /\
  (MsgReadError (file_name Example.broken) = MsgFolder (folder_name Example.barren) \/
   exists f, In f (Open.excel_files Example.barren) /\
             MsgReadError (file_name Example.broken) = MsgReadError (file_name f)).
Proof.
  assert (H : In (MsgReadError (file_name Example.broken))
                 (stdout (Open.read_folder None Example.barren))).
  { vm_compute. right; left; reflexivity. }
  split; [exact H|].
  exact (open_script_prints_only_read_errors None Example.barren _ H).
Defined.

Lemma report_titles_are_no_input (id : sheet_id) :
  contains lit_hist_nav (sheet_title id) || contains lit_hist (sheet_title id) = false /\
  contains lit_latest_nav (sheet_title id) || contains lit_latest (sheet_title id) = false.
Proof. destruct id; split; reflexivity. Qed.

Lemma find_none {A : Type} (p : A -> bool) (l : list A) :
  (forall x, In x l -> p x = false) -> find p l = None.
Proof.
  induction l as [|x l IH]; intros H; simpl; [reflexivity|].
  rewrite (H x (or_introl eq_refl)). apply IH. intros y Hy. apply H. right; exact Hy.
Qed.

(** X12.  A workbook whose sheets all carry names the scripts give to the
    sheets of their own reports (as a report left in the folder by an
    earlier run does) adds neither a series nor a code; the open-end script
    passes it over without a message. *)
Theorem own_report_is_no_input
    (v : script) (q : option table) (st : loop_state) (f : xlsx) (sheets : list sheet) :
  excel_file f = Ok sheets ->
  (forall sh, In sh sheets -> exists id, sheet_name sh = sheet_title id) ->
  product_nav (file_step_of v q st f) = product_nav st /\
  codes_in_folder (file_step_of v q st f) = codes_in_folder st /\
  Open.file_step q st f = st.
Proof.
  intros Hx Hall.
  assert (Hh : find_sheet lit_hist_nav lit_hist sheets = None).
  { apply find_none. intros sh Hsh. destruct (Hall sh Hsh) as [id ->].
    apply report_titles_are_no_input. }
  assert (Hl : find_sheet lit_latest_nav lit_latest sheets = None).
  { apply find_none. intros sh Hsh. destruct (Hall sh Hsh) as [id ->].
    apply report_titles_are_no_input. }
  destruct v; unfold_file_step; rewrite Hx, Hh, Hl;
    destruct (is_loaded q); repeat split.
Qed.

Lemma own_report_is_no_input_witness :
  Open.file_step (Some Example.query) empty_state Example2.book_report = empty_state.
Proof.
  apply (own_report_is_no_input OpenV12 (Some Example.query) empty_state
           Example2.book_report _ eq_refl).
  intros sh Hsh. simpl in Hsh.
  destruct Hsh as [<- | [<- | [<- | [<- | [<- | []]]]]];
    [exists RawNav | exists UnifiedNav | exists RawPlot | exists UnifiedPlot
     | exists ProductInfo]; reflexivity.
Defined.

End FolderLoop.

(* ------------------------------------------------------------------ *)
(** ** The tables of a folder *)

Section FolderTables.

(** X13.  Resampling to the calendar loses nothing: the resampled table has
    the columns of the merged table, a row for each of its rows, and every
    known value at its place. *)
Theorem resampling_keeps_known_values
    (v : script) (pn : list (str * series)) (p : frame) :
  resampled_of v pn = Ok p ->
  labels p = labels (merged_of v pn) /\
  (forall d, In d (index (merged_of v pn)) -> In d (index p)) /\
  (forall d c, isna (cell (merged_of v pn) d c) = false ->
               cell p d c = cell (merged_of v pn) d c).
Proof.
  intros Hp. rewrite merged_of_merge.
  destruct (resampled_of_Ok v pn p Hp) as (idx & Hcal & ->).
  pose proof (calendar_covers _ _ Hcal) as Hcov.
  destruct (calendar_Ok _ _ Hcal) as (lo & hi & _ & _ & _ & ->).
  split; [apply resample_labels|]. split; [exact Hcov|].
  intros d c Hv. apply resample_known; [|exact Hv].
  apply Hcov. apply (notna_cell_date _ c d Hv).
Qed.

Lemma resampling_keeps_known_values_witness :
  resampled_of ClosedV13 Example.nav = Ok Example.plot /\
  labels Example.plot = labels (merged_of ClosedV13 Example.nav).
Proof.
  assert (H : resampled_of ClosedV13 Example.nav = Ok Example.plot)
    by (vm_compute; reflexivity).
  split; [exact H|].
  exact (proj1 (resampling_keeps_known_values ClosedV13 Example.nav Example.plot H)).
Defined.

Lemma no_member_nil {A : Type} (l : list A) : (forall x, ~ In x l) -> l = [].
Proof.
  destruct l as [|x l]; [reflexivity|]. intros H. exfalso.
  apply (H x). left; reflexivity.
Qed.

Lemma merge_no_dates (pn : list (str * series)) :
  (forall p s, In (p, s) pn -> s = []) -> index (merge pn) = [].
Proof.
  intros H. apply no_member_nil. intros d Hd. apply merge_index_In in Hd.
  destruct Hd as (c & s & Hin & Hds). rewrite (H c s Hin) in Hds. exact Hds.
Qed.

Lemma process_folder_no_calendar (v : script) (q : option table) (fd : folder) :
  product_nav (read_folder_of v q fd) <> [] ->
  index (merge (product_nav (read_folder_of v q fd))) = [] ->
  process_folder_of v q fd = (stdout (read_folder_of v q fd), Raise ValueError).
Proof.
  intros Hne Hidx. apply calendar_empty in Hidx.
  destruct v; unfold process_folder_of, read_folder_of in *.
  - unfold Closed.process_folder. cbv zeta.
    set (st := Closed.read_folder q fd) in *.
    destruct (product_nav st) as [|e pn] eqn:Epn; [congruence|].
    unfold Closed.plot_nav, Closed.full_idx, Closed.merged_nav.
    rewrite Hidx. reflexivity.
  - unfold Open.process_folder. cbv zeta.
    set (st := Open.read_folder q fd) in *.
    destruct (product_nav st) as [|e pn] eqn:Epn; [congruence|].
    destruct (df_norm_Ok (e :: pn)) as (so & _ & ->).
    unfold Open.df_plot_raw, Open.full_idx, Open.df_raw.
    rewrite Hidx. reflexivity.
Qed.

(** X14.  A folder whose workbooks yield series, but not one dated value
    among them, is not skipped: the calendar of the empty table cannot be
    built, ValueError escapes the folder, no report is written for it, and
    the folders after it are not processed. *)
Theorem folder_without_dates_ends_run
    (v : script) (q : option table) (fd : folder) (rest : list folder) :
  product_nav (read_folder_of v q fd) <> [] ->
  (forall p s, In (p, s) (product_nav (read_folder_of v q fd)) -> s = []) ->
  process_folder_of v q fd = (stdout (read_folder_of v q fd), Raise ValueError) /\
  run_of v q (fd :: rest) =
  {| printed := stdout (read_folder_of v q fd); written := [];
     crashed := Some ValueError |}.
Proof.
  intros Hne Hall.
  pose proof (process_folder_no_calendar v q fd Hne (merge_no_dates _ Hall)) as E.
  split; [exact E|]. rewrite run_of_eq. simpl. rewrite E. reflexivity.
Qed.

Lemma folder_without_dates_ends_run_witness :
  run_of OpenV12 None [Example.hollow; Example.twice] =
  {| printed := stdout (read_folder_of OpenV12 None Example.hollow); written := [];
     crashed := Some ValueError |}.
Proof.
  apply (folder_without_dates_ends_run OpenV12 None Example.hollow [Example.twice]).
  - vm_compute. discriminate.
  - vm_compute. intros p s [H | []]. congruence.
Defined.

End FolderTables.

(* ------------------------------------------------------------------ *)
(** ** The normalised table and its chart sheet *)

Section NormalisedLayout.

Lemma flat_map_ext_In {A B : Type} (f g : A -> list B) (l : list A) :
  (forall x, In x l -> f x = g x) -> flat_map f l = flat_map g l.
Proof.
  induction l as [|x l IH]; intros H; simpl; [reflexivity|].
  rewrite (H x (or_introl eq_refl)), IH; [reflexivity|].
  intros y Hy. apply H. right; exact Hy.
Qed.

Lemma fab_cols_mem (pn : list (str * series)) (c : str) :
  In c (labels (Open.df_raw pn)) ->
  str_mem c (Open.fab_cols pn) = contains lit_fab c.
Proof.
  intros Hc. destruct (contains lit_fab c) eqn:E.
  - apply str_mem_In, fab_cols_In. split; assumption.
  - apply str_mem_false. intros H. apply fab_cols_In in H. destruct H as [_ H].
    congruence.
Qed.

(** X16.  When no product of the folder is named like another product's
    normalised column, the normalised table has the rows of the raw table,
    every raw column with its cells unchanged and in the raw order, and
    directly after a column its normalised column, exactly for the
    products outside the reference family that have a value on the
    baseline day. *)
Theorem normalised_table_layout
    (pn : list (str * series)) (so : option Z) (t : frame) :
  Open.start pn = Ok so ->
  Open.df_norm pn = Ok t ->
  (forall c, In c (labels (Open.df_raw pn)) ->
             ~ In (Open.unified_label c) (labels (Open.df_raw pn))) ->
  index t = index (Open.df_raw pn) /\
  labels t =
    flat_map (fun c => c :: (if negb (contains lit_fab c)
                                  && has_baseline (Open.df_raw pn) so c
                             then [Open.unified_label c] else []))
             (labels (Open.df_raw pn)) /\
  (forall c d, In c (labels (Open.df_raw pn)) ->
               cell t d c = cell (Open.df_raw pn) d c).
Proof.
  intros Hso Ht Hfresh.
  destruct (df_norm_inv pn t Ht) as (so' & Hso' & Hidx & Hl & Hcell).
  rewrite Hso in Hso'. injection Hso' as <-.
  split; [exact Hidx|]. split.
  - rewrite Hl. unfold Open.order. apply flat_map_ext_In. intros c Hc.
    f_equal. rewrite <- (fab_cols_mem pn c Hc).
    match goal with
    | |- (if ?a then _ else _) = (if ?b then _ else _) =>
        destruct a eqn:E; destruct b eqn:G; try reflexivity; exfalso
    end.
    + apply str_mem_In, normalise_loop_labels in E.
      destruct E as [E | (c' & _ & G' & E)]; [apply (Hfresh c Hc E)|].
      apply unified_label_inj in E. subst c'. congruence.
    + apply str_mem_false in E. apply E. apply normalise_loop_labels.
      right. exists c. repeat split; assumption.
  - intros c d Hc. rewrite Hcell by (rewrite Hl; apply order_In; left; exact Hc).
    unfold cell, column.
    rewrite normalise_loop_miss, normalise_loop_index; [reflexivity|].
    intros c' Hc' _ E. apply (Hfresh c' Hc'). rewrite <- E. exact Hc.
Qed.

Lemma normalised_table_layout_witness :
  Open.df_norm Example.nav = Ok Example.norm /\
  labels Example.norm = [Example.comp_x; Open.unified_label Example.comp_x; Example.fab_a].
Proof.
  assert (H : Open.df_norm Example.nav = Ok Example.norm) by (vm_compute; reflexivity).
  split; [exact H|].
  destruct (normalised_table_layout Example.nav (Some 1) Example.norm) as (_ & Hl & _).
  - vm_compute; reflexivity.
  - exact H.
  - intros c [<- | [<- | []]]; vm_compute; intros [E | [E | []]]; discriminate E.
  - reflexivity.
Defined.

Lemma filter_days_from_all (s0 : Z) (n : nat) :
  forall a, s0 <= a -> filter (fun d => s0 <=? d) (days_from a n) = days_from a n.
Proof.
  induction n as [|n IH]; intros a Ha; simpl; [reflexivity|].
  replace (s0 <=? a) with true by (symmetry; apply Z.leb_le; exact Ha).
  rewrite IH by lia. reflexivity.
Qed.

Lemma filter_days_from (s0 : Z) (n : nat) :
  forall a, a <= s0 ->
    filter (fun d => s0 <=? d) (days_from a n) =
    days_from s0 (Z.to_nat (a + Z.of_nat n - s0)).
Proof.
  induction n as [|n IH]; intros a Ha.
  - replace (Z.to_nat (a + Z.of_nat 0 - s0)) with O by lia. reflexivity.
  - change (days_from a (S n)) with (a :: days_from (a + 1) n).
    cbn [filter]. destruct (Z.leb_spec s0 a) as [Hle | Hlt].
    + assert (a = s0) by lia. subst a.
      rewrite filter_days_from_all by lia.
      replace (Z.to_nat (s0 + Z.of_nat (S n) - s0)) with (S n) by lia. reflexivity.
    + rewrite IH by lia. f_equal. lia.
Qed.

Lemma mask_select_length {A B : Type} (mask : list bool) :
  forall (l1 : list A) (l2 : list B),
    length l1 = length l2 ->
    length (mask_select mask l1) = length (mask_select mask l2).
Proof.
  induction mask as [|b mask IH]; intros [|x l1] [|y l2] H; simpl in *;
    try reflexivity; try discriminate.
  injection H as H. destruct b; simpl; rewrite (IH l1 l2 H); reflexivity.
Qed.

(** X17.  With a baseline day, the normalised chart sheet is a well-formed
    table whose rows are the calendar days from the baseline day (its first
    row) to the last date of the folder, one row per day; the baseline day
    lies between the first and the last date of the folder. *)
Theorem unified_plot_rows
    (pn : list (str * series)) (s0 : Z) (p_norm : frame) :
  Open.start pn = Ok (Some s0) ->
  Open.df_plot_norm pn = Ok p_norm ->
  exists lo hi,
    index_min (index (Open.df_raw pn)) = Some lo /\
    index_max (index (Open.df_raw pn)) = Some hi /\
    lo <= s0 <= hi /\
    index p_norm = days_from s0 (Z.to_nat (hi - s0 + 1)) /\
    (forall c col, In (c, col) (columns p_norm) ->
                   length col = length (index p_norm)).
Proof.
  intros Hso. unfold Open.df_plot_norm, Open.full_idx.
  destruct (df_norm_Ok pn) as (so & Hso' & Ht).
  rewrite Hso in Hso'. injection Hso' as <-.
  match type of Ht with _ = Ok ?x => set (t := x) in Ht end. clearbody t.
  rewrite Hso, Ht. unfold bind.
  destruct (calendar (Open.df_raw pn)) as [idx|e] eqn:Hcal; [|discriminate].
  intros H. injection H as <-.
  destruct (calendar_Ok _ _ Hcal) as (lo & hi & Elo & Ehi & Hle & Eidx).
  destruct (start_Some pn s0 Hso) as (Hin & _ & _).
  pose proof (proj2 (index_min_spec _ _ Elo) s0 Hin) as Hlo.
  pose proof (proj2 (index_max_spec _ _ Ehi) s0 Hin) as Hhi.
  exists lo, hi. split; [exact Elo|]. split; [exact Ehi|]. split; [lia|].
  unfold select_rows. cbn [index columns].
  change (index (resample t idx)) with idx. split.
  - rewrite mask_select_map. unfold Open.on_or_after. rewrite Eidx.
    rewrite filter_days_from by exact Hlo. f_equal. lia.
  - intros c col Hcol. apply in_map_iff in Hcol.
    destruct Hcol as ([c' col'] & E & Hcol). injection E as _ <-. cbn [snd].
    apply mask_select_length.
    unfold resample, interpolate, reindex in Hcol. cbn [index columns] in Hcol.
    rewrite map_map in Hcol. apply in_map_iff in Hcol.
    destruct Hcol as (x & E & _). injection E as _ <-. cbn [fst snd].
    rewrite interpolate_1d_length, length_map. reflexivity.
Qed.

Lemma unified_plot_rows_witness :
  Open.df_plot_norm Example.nav_late = Ok Example.plot_norm_late /\
  index Example.plot_norm_late = [2; 3; 4].
Proof.
  assert (H : Open.df_plot_norm Example.nav_late = Ok Example.plot_norm_late)
    by (vm_compute; reflexivity).
  split; [exact H|].
  destruct (unified_plot_rows Example.nav_late 2 Example.plot_norm_late)
    as (lo & hi & _ & _ & _ & _ & _).
  - vm_compute; reflexivity.
  - exact H.
  - reflexivity.
Defined.

End NormalisedLayout.

(* ------------------------------------------------------------------ *)
(** ** The product-information sheet *)

Section InformationSheet.

Lemma distinct_NoDup (l : list str) : distinct l = true -> NoDup l.
Proof.
  induction l as [|x l IH]; simpl; intros H; constructor.
  - apply andb_true_iff in H. destruct H as [H _].
    apply negb_true_iff, str_mem_false in H. exact H.
  - apply IH. apply andb_true_iff in H. apply H.
Qed.

Lemma desired_info_cols_NoDup : NoDup Open.desired_info_cols.
Proof. apply distinct_NoDup. vm_compute. reflexivity. Qed.

Lemma NoDup_filter_str (p : str -> bool) (l : list str) : NoDup l -> NoDup (filter p l).
Proof.
  induction 1 as [|x l Hx Hnd IH]; simpl; [constructor|].
  destruct (p x); [|exact IH]. constructor; [|exact IH].
  intros H. apply filter_In in H. apply Hx, H.
Qed.

(** The reordering of lines 156-158 neither loses nor repeats a column. *)
Lemma reordered_labels_Permutation (desired ls : list str) :
  NoDup desired -> NoDup ls ->
  let cols1 := filter (fun c => str_mem c ls) desired in
  let cols2 := filter (fun c => negb (str_mem c cols1)) ls in
  Permutation (cols1 ++ cols2) ls.
Proof.
  intros Hd Hl cols1 cols2. apply NoDup_Permutation.
  - apply NoDup_app.
    + apply NoDup_filter_str, Hd.
    + apply NoDup_filter_str, Hl.
    + intros x H1 H2. apply filter_In in H2. destruct H2 as [_ H2].
      apply negb_true_iff, str_mem_false in H2. contradiction.
  - exact Hl.
  - intros x. rewrite in_app_iff. unfold cols2. rewrite filter_In. split.
    + intros [H | [H _]]; [|exact H].
      apply filter_In in H. apply str_mem_In, H.
    + intros H. destruct (str_mem x cols1) eqn:E.
      * left. apply str_mem_In, E.
      * right. split; [exact H | reflexivity].
Qed.

Lemma label_positions_length (ls names : list str) (ks : list nat) :
  Open.label_positions ls names = Ok ks -> length ks = length names.
Proof.
  revert ks. induction names as [|n names IH]; simpl; intros ks H.
  - injection H as <-. reflexivity.
  - destruct (label_pos n ls); [|discriminate].
    destruct (Open.label_positions ls names) as [ks'|]; [|discriminate].
    simpl in H. injection H as <-. simpl. rewrite (IH ks' eq_refl). reflexivity.
Qed.

(** X18.  The product-information sheet of the open-end script has every
    column of the lookup table exactly once (the lookup table having
    pairwise different column labels), and each of its rows has a cell for
    every column. *)
Theorem open_info_keeps_every_column
    (q : table) (codes : list str) (info : table) :
  Open.df_info (Some q) codes = Ok [(ProductInfo, Info info)] ->
  NoDup (t_labels q) ->
  Permutation (t_labels info) (t_labels q) /\
  (forall r, In r (t_rows info) -> length r = length (t_labels q)).
Proof.
  unfold Open.df_info, Open.select_info_columns.
  pose proof desired_info_cols_NoDup as Hd. revert Hd.
  generalize Open.desired_info_cols as desired. intros desired Hd.
  destruct codes as [|c0 codes]; [discriminate|].
  destruct (filter_by_codes q (c0 :: codes)) as [kept|e] eqn:Ek; [|discriminate].
  assert (El : t_labels kept = t_labels q).
  { unfold filter_by_codes in Ek.
    destruct (label_pos lit_reg_code (t_labels q)); [|discriminate].
    injection Ek as <-. reflexivity. }
  unfold bind at 1. cbv zeta. rewrite El.
  set (cols1 := filter (fun c => str_mem c (t_labels q)) desired).
  set (cols2 := filter (fun c => negb (str_mem c cols1)) (t_labels q)).
  destruct (Open.label_positions (t_labels q) (cols1 ++ cols2)) as [ks|e] eqn:Eks;
    [|discriminate].
  unfold bind. intros H Hl. injection H as <-. cbn [t_labels t_rows].
  pose proof (reordered_labels_Permutation desired (t_labels q) Hd Hl) as Hp.
  cbv zeta in Hp. fold cols1 in Hp. fold cols2 in Hp.
  split; [exact Hp|].
  intros r Hr. apply in_map_iff in Hr. destruct Hr as (r0 & <- & _).
  rewrite length_map, (label_positions_length _ _ _ Eks).
  apply Permutation_length, Hp.
Qed.

Lemma open_info_keeps_every_column_witness :
  NoDup (t_labels Example.query) /\
  Permutation [Example.col_name; lit_reg_code; Example.col_z] (t_labels Example.query).
Proof.
  assert (Hl : NoDup (t_labels Example.query))
    by (apply distinct_NoDup; vm_compute; reflexivity).
  split; [exact Hl|].
  apply (open_info_keeps_every_column Example.query Example.codes
           {| t_labels := [Example.col_name; lit_reg_code; Example.col_z];
              t_rows := [[Example.text_cell [0x50; 0x31]%N;
                          Example.text_cell Example.code_a1;
                          Example.num_cell 1%float]] |}).
  - vm_compute. reflexivity.
  - exact Hl.
Defined.

(** *** Laying the tables out: [reset_index] *)

Lemma reset_index_named (name : str) (t : frame) :
  ~ In name (labels t) -> reset_index (Some name) t = Ok (name :: labels t).
Proof.
  intros H. apply str_mem_false in H. unfold reset_index. rewrite H. reflexivity.
Qed.

Lemma reset_index_named_raises (name : str) (t : frame) :
  In name (labels t) -> reset_index (Some name) t = Raise ValueError.
Proof.
  intros H. apply str_mem_In in H. unfold reset_index. rewrite H. reflexivity.
Qed.

Lemma reset_index_unnamed (t : frame) :
  ~ In lit_index (labels t) -> reset_index None t = Ok (lit_index :: labels t).
Proof.
  intros H. apply str_mem_false in H. unfold reset_index. rewrite H.
  cbv beta iota zeta. rewrite H. reflexivity.
Qed.

Lemma reset_index_inv (name : option str) (t : frame) (cols : list str) :
  reset_index name t = Ok cols ->
  exists label, cols = label :: labels t /\ ~ In label (labels t).
Proof.
  unfold reset_index.
  set (label := match name with
                | Some n => n
                | None => if str_mem lit_index (labels t) then lit_level_0 else lit_index
                end).
  cbv zeta. destruct (str_mem label (labels t)) eqn:E; [discriminate|].
  intros H. injection H as <-. exists label. split; [reflexivity|].
  apply str_mem_false, E.
Qed.

Lemma labels_resample (t : frame) (idx : list Z) : labels (resample t idx) = labels t.
Proof.
  unfold resample, interpolate, reindex, labels. cbn [columns].
  rewrite !map_map. apply map_ext. intros c. reflexivity.
Qed.

Lemma labels_select_rows (mask : list bool) (t : frame) :
  labels (select_rows mask t) = labels t.
Proof.
  unfold select_rows, labels. cbn [columns]. rewrite map_map.
  apply map_ext. intros c. reflexivity.
Qed.

Lemma labels_resampled (v : script) (pn : list (str * series)) (p : frame) :
  resampled_of v pn = Ok p -> labels p = map fst pn.
Proof.
  intros H. destruct (resampled_of_Ok v pn p H) as (idx & _ & ->).
  rewrite labels_resample. apply merge_labels.
Qed.

Lemma unified_label_last (c : str) : last (Open.unified_label c) 0%N = 0xff09%N.
Proof.
  unfold Open.unified_label.
  change lit_unified with ([0xff08; 0x7edf; 0x4e00; 0x57fa; 0x51c6]%N ++ [0xff09%N]).
  rewrite app_assoc. apply last_last.
Qed.

(** The labels of the normalised table: product names and labels of
    normalised columns. *)
Lemma labels_df_norm (pn : list (str * series)) (t : frame) (x : str) :
  Open.df_norm pn = Ok t -> In x (labels t) ->
  In x (map fst pn) \/ exists c, x = Open.unified_label c.
Proof.
  intros Ht Hx. destruct (df_norm_inv pn t Ht) as (so & _ & _ & Hl & _).
  rewrite Hl in Hx. apply order_In in Hx.
  destruct Hx as [Hx | (c & _ & -> & _)]; [left | right; exists c; reflexivity].
  unfold Open.df_raw in Hx. rewrite merge_labels in Hx. exact Hx.
Qed.

Lemma plain_label_not_in_df_norm (pn : list (str * series)) (t : frame) (x : str) :
  Open.df_norm pn = Ok t -> last x 0%N <> 0xff09%N -> ~ In x (map fst pn) ->
  ~ In x (labels t).
Proof.
  intros Ht Hlast Hx Hin. destruct (labels_df_norm pn t x Ht Hin) as [H | (c & ->)].
  - contradiction.
  - apply Hlast, unified_label_last.
Qed.

Lemma labels_df_plot_norm (pn : list (str * series)) (t p : frame) :
  Open.df_norm pn = Ok t -> Open.df_plot_norm pn = Ok p -> labels p = labels t.
Proof.
  intros Ht. unfold Open.df_plot_norm. rewrite Ht.
  destruct (Open.start pn) as [so|]; [|discriminate]. cbn [bind].
  destruct (Open.full_idx pn) as [idx|]; [|discriminate]. cbn [bind].
  intros H. injection H as <-. rewrite labels_select_rows. apply labels_resample.
Qed.

(** X19.  A lookup table that was loaded but has no column '登记编码' ends
    the run as soon as a folder with dated values yields a code: the tables
    are built, then the selection of the rows raises KeyError, which
    escapes the folder.  (No product being called like the date column of
    a sheet, so that the sheets before it can be laid out.) *)
Theorem lookup_without_code_column_raises
    (v : script) (q : table) (fd : folder) :
  ~ In lit_reg_code (t_labels q) ->
  codes_in_folder (read_folder_of v (Some q) fd) <> [] ->
  index (merged_of v (product_nav (read_folder_of v (Some q) fd))) <> [] ->
  (forall l, In l (index_labels v) ->
             ~ In l (map fst (product_nav (read_folder_of v (Some q) fd)))) ->
  process_folder_of v (Some q) fd
    = (stdout (read_folder_of v (Some q) fd), Raise KeyError).
Proof.
  intros Hcol Hcodes Hidx Hnames.
  pose proof (filter_by_codes_KeyError q
                (codes_in_folder (read_folder_of v (Some q) fd)) Hcol) as Ek.
  destruct v; unfold process_folder_of, read_folder_of, merged_of, index_labels in *.
  - unfold Closed.process_folder. cbv zeta.
    set (st := Closed.read_folder (Some q) fd) in *.
    destruct (product_nav st) as [|e pn] eqn:Epn; [exfalso; apply Hidx; reflexivity|].
    assert (Hd : ~ In lit_nav_date (map fst (e :: pn)))
      by (apply Hnames; left; reflexivity).
    destruct (resampled_of_exists ClosedV13 (e :: pn) Hidx) as [p Hp].
    pose proof (labels_resampled ClosedV13 _ _ Hp) as Hl.
    unfold resampled_of in Hp. rewrite Hp. cbn [bind].
    rewrite reset_index_named
      by (unfold Closed.merged_nav; rewrite merge_labels; exact Hd).
    cbn [bind]. rewrite reset_index_named by (rewrite Hl; exact Hd). cbn [bind].
    unfold Closed.df_info.
    destruct (codes_in_folder st) as [|c0 codes]; [congruence|].
    rewrite Ek. reflexivity.
  - unfold Open.process_folder. cbv zeta.
    set (st := Open.read_folder (Some q) fd) in *.
    destruct (product_nav st) as [|e pn] eqn:Epn; [exfalso; apply Hidx; reflexivity|].
    assert (Hd : ~ In lit_nav_date (map fst (e :: pn)))
      by (apply Hnames; left; reflexivity).
    assert (Hi : ~ In lit_index (map fst (e :: pn)))
      by (apply Hnames; right; left; reflexivity).
    destruct (df_norm_Ok (e :: pn)) as (so & _ & Et).
    match type of Et with _ = Ok ?x => set (t := x) in Et end. clearbody t.
    destruct (resampled_of_exists OpenV12 (e :: pn) Hidx) as [p Hp].
    pose proof (labels_resampled OpenV12 _ _ Hp) as Hl.
    destruct (df_plot_norm_exists (e :: pn) Hidx) as [p' Hp'].
    pose proof (labels_df_plot_norm _ _ _ Et Hp') as Hl'.
    unfold resampled_of in Hp. rewrite Et, Hp, Hp'. cbn [bind].
    rewrite reset_index_named
      by (unfold Open.df_raw; rewrite merge_labels; exact Hd).
    cbn [bind].
    rewrite reset_index_named
      by (apply (plain_label_not_in_df_norm _ _ _ Et); [discriminate | exact Hd]).
    cbn [bind]. rewrite reset_index_unnamed by (rewrite Hl; exact Hi). cbn [bind].
    rewrite reset_index_unnamed
      by (rewrite Hl'; apply (plain_label_not_in_df_norm _ _ _ Et);
          [discriminate | exact Hi]).
    cbn [bind]. unfold Open.df_info.
    destruct (codes_in_folder st) as [|c0 codes]; [congruence|].
    rewrite Ek. reflexivity.
Qed.

Lemma lookup_without_code_column_raises_witness :
  process_folder_of ClosedV13 (Some Example2.query_nocode) Example2.coded
    = (stdout (read_folder_of ClosedV13 (Some Example2.query_nocode) Example2.coded),
       Raise KeyError).
Proof.
  apply (lookup_without_code_column_raises ClosedV13 Example2.query_nocode Example2.coded).
  - vm_compute. intros [E | [E | []]]; discriminate E.
  - vm_compute. discriminate.
  - vm_compute. discriminate.
  - intros l [<- | []]. vm_compute. intros [E | []]. discriminate E.
Defined.

(** X26.  A folder with a product called '净值日期' ends the run: the index
    of the merged table carries that name, so that laying the table out
    on its sheet ([reset_index]) raises ValueError (unless the calendar
    did already); the exception escapes the folder and the folders after it
    are not processed. *)
Theorem date_label_product_ends_run
    (v : script) (q : option table) (fd : folder) (rest : list folder) :
  In lit_nav_date (map fst (product_nav (read_folder_of v q fd))) ->
  process_folder_of v q fd = (stdout (read_folder_of v q fd), Raise ValueError) /\
  crashed (run_of v q (fd :: rest)) = Some ValueError /\
  printed (run_of v q (fd :: rest)) = stdout (read_folder_of v q fd).
Proof.
  intros Hin.
  assert (E : process_folder_of v q fd
              = (stdout (read_folder_of v q fd), Raise ValueError)).
  { destruct (index (merge (product_nav (read_folder_of v q fd)))) as [|d0 idx0] eqn:Ei.
    - apply process_folder_no_calendar; [|exact Ei].
      intros Hnil. rewrite Hnil in Hin. exact Hin.
    - assert (Hidx : index (merge (product_nav (read_folder_of v q fd))) <> [])
        by (rewrite Ei; discriminate).
      clear Ei.
      destruct v; unfold process_folder_of, read_folder_of in *.
      + unfold Closed.process_folder. cbv zeta.
        set (st := Closed.read_folder q fd) in *.
        destruct (product_nav st) as [|e pn] eqn:Epn; [destruct Hin|].
        destruct (resampled_of_exists ClosedV13 (e :: pn) Hidx) as [p Hp].
        unfold resampled_of in Hp. rewrite Hp. cbn [bind].
        rewrite reset_index_named_raises
          by (unfold Closed.merged_nav; rewrite merge_labels; exact Hin).
        reflexivity.
      + unfold Open.process_folder. cbv zeta.
        set (st := Open.read_folder q fd) in *.
        destruct (product_nav st) as [|e pn] eqn:Epn; [destruct Hin|].
        destruct (df_norm_Ok (e :: pn)) as (so & _ & Et).
        match type of Et with _ = Ok ?x => set (t := x) in Et end. clearbody t.
        destruct (resampled_of_exists OpenV12 (e :: pn) Hidx) as [p Hp].
        destruct (df_plot_norm_exists (e :: pn) Hidx) as [p' Hp'].
        unfold resampled_of in Hp. rewrite Et, Hp, Hp'. cbn [bind].
        rewrite reset_index_named_raises
          by (unfold Open.df_raw; rewrite merge_labels; exact Hin).
        reflexivity. }
  split; [exact E|]. rewrite run_of_eq. simpl. rewrite E. split; reflexivity.
Qed.

Lemma date_label_product_ends_run_witness :
  crashed (run_of ClosedV13 None [Example3.dated; Example.twice]) = Some ValueError /\
  crashed (run_of OpenV12 None [Example3.dated; Example.twice]) = Some ValueError.
Proof.
  split.
  - apply (date_label_product_ends_run ClosedV13 None Example3.dated [Example.twice]).
    vm_compute. left. reflexivity.
  - apply (date_label_product_ends_run OpenV12 None Example3.dated [Example.twice]).
    vm_compute. left. reflexivity.
Defined.

(** The sheets of a report: the data sheets, then what [df_info] gives. *)
Lemma report_info_sheets (v : script) (q : option table) (fd : folder)
    (msgs : list message) (rep : report) :
  process_folder_of v q fd = (msgs, Ok (Some rep)) ->
  exists front info,
    info_of v q (codes_in_folder (read_folder_of v q fd)) = Ok info /\
    report_sheets rep = front ++ info /\
    ~ In ProductInfo (map fst front).
Proof.
  destruct v; intros H.
  - destruct (closed_report_sheets q fd msgs rep H)
      as (plot & df_out & df_plot & info & ch & _ & _ & _ & Hi & _ & Hs & _).
    eexists; exists info. split; [exact Hi|]. split; [exact Hs|].
    simpl. intros [E | [E | []]]; discriminate E.
  - destruct (open_report_sheets q fd msgs rep H)
      as (normed & plot_raw & plot_norm & info & c1 & c2 & _ & _ & _ & Hi & _ & _ & Hs & _).
    eexists; exists info. split; [exact Hi|]. split; [exact Hs|].
    simpl. intros [E | [E | [E | [E | []]]]]; discriminate E.
Qed.

Lemma info_of_cases (v : script) (q : option table) (codes : list str)
    (info : list (sheet_id * sheet_body)) :
  info_of v q codes = Ok info ->
  (info = [] /\ (q = None \/ codes = [])) \/
  (exists t, info = [(ProductInfo, Info t)] /\ q <> None /\ codes <> []).
Proof.
  destruct v; unfold info_of, Closed.df_info, Open.df_info;
    generalize Open.desired_info_cols as desired; intros desired;
    destruct q as [q|]; destruct codes as [|c0 codes]; intros H;
    try (injection H as <-; left; split; auto; fail).
  - destruct (filter_by_codes q (c0 :: codes)) as [kept|]; [|discriminate].
    simpl in H. injection H as <-. right. eexists. repeat split; discriminate.
  - destruct (filter_by_codes q (c0 :: codes)) as [kept|]; [|discriminate].
    unfold bind at 1 in H. cbv zeta in H.
    destruct (Open.select_info_columns kept _) as [t|]; [|discriminate].
    simpl in H. injection H as <-. right. eexists. repeat split; discriminate.
Qed.

Lemma codes_need_lookup (v : script) (fd : folder) :
  codes_in_folder (read_folder_of v None fd) = [].
Proof.
  apply no_member_nil. intros c H. apply folder_codes_In in H.
  destruct H as (f & _ & H). apply codes_of_origin in H.
  destruct H as [H _]. discriminate H.
Qed.

(** X20.  A report has the sheet '产品信息' exactly when the folder yielded
    at least one code (which needs the lookup table to be loaded); the
    sheet is then the last one. *)
Theorem info_sheet_iff_codes
    (v : script) (q : option table) (fd : folder)
    (msgs : list message) (rep : report) :
  process_folder_of v q fd = (msgs, Ok (Some rep)) ->
  (In ProductInfo (map fst (report_sheets rep)) <->
   codes_in_folder (read_folder_of v q fd) <> []) /\
  (codes_in_folder (read_folder_of v q fd) <> [] ->
   q <> None /\
   exists front t, report_sheets rep = front ++ [(ProductInfo, Info t)]).
Proof.
  intros H. destruct (report_info_sheets v q fd msgs rep H)
    as (front & info & Hi & Hs & Hfront).
  rewrite Hs, map_app.
  destruct (info_of_cases v q _ info Hi) as [(-> & Hno) | (t & -> & Hq & Hc)].
  - assert (Hnil : codes_in_folder (read_folder_of v q fd) = []).
    { destruct Hno as [-> | E]; [apply codes_need_lookup | exact E]. }
    rewrite Hnil. split.
    + rewrite app_nil_r. split; [intros Hin; contradiction | congruence].
    + congruence.
  - split.
    + split; [intros _; exact Hc|]. intros _. apply in_or_app. right. left. reflexivity.
    + intros _. split; [exact Hq|]. exists front, t. reflexivity.
Qed.

Lemma info_sheet_iff_codes_witness :
  exists msgs rep,
    process_folder_of ClosedV13 (Some Example.query) Example2.coded
      = (msgs, Ok (Some rep)) /\
    (In ProductInfo (map fst (report_sheets rep)) <->
     codes_in_folder (read_folder_of ClosedV13 (Some Example.query) Example2.coded)
       <> []).
Proof.
  assert (H : exists msgs rep,
             process_folder_of ClosedV13 (Some Example.query) Example2.coded
               = (msgs, Ok (Some rep))).
  { eexists. eexists. vm_compute. reflexivity. }
  destruct H as (msgs & rep & H). exists msgs, rep. split; [exact H|].
  apply (info_sheet_iff_codes ClosedV13 (Some Example.query) Example2.coded msgs rep H).
Defined.

End InformationSheet.

(* ------------------------------------------------------------------ *)
(** ** The start of the scripts and the lookup table *)

Section Start.

Lemma find_app_first {A : Type} (p : A -> bool) (before after : list A) (x : A) :
  (forall y, In y before -> p y = false) -> p x = true ->
  find p (before ++ x :: after) = Some x.
Proof.
  induction before as [|y before IH]; intros Hb Hx; simpl.
  - rewrite Hx. reflexivity.
  - rewrite (Hb y (or_introl eq_refl)). apply IH; [|exact Hx].
    intros z Hz. apply Hb. right; exact Hz.
Qed.

(** X21.  Only the first directory entry whose name ends in '.xlsx' and
    contains '产品查询' is tried as lookup table: when it cannot be read (or
    is a folder) no later candidate is tried, and the scripts go on without
    lookup table. *)
Theorem first_lookup_candidate_decides
    (before after : list root_entry) (x : root_entry) :
  (forall y, In y before -> is_query_file (entry_name y) = false) ->
  is_query_file (entry_name x) = true ->
  load_query (before ++ x :: after) =
  match x with
  | RootFile f (Ok t) => (Some t, [MsgQueryLoaded (file_name f)])
  | _ => (None, [MsgQueryFailed])
  end.
Proof.
  intros Hb Hx. unfold load_query.
  rewrite (find_app_first (fun e => is_query_file (entry_name e)) before after x Hb Hx).
  destruct x as [f [t|e]|fd]; reflexivity.
Qed.

Lemma first_lookup_candidate_decides_witness :
  load_query ([RootDir Example.twice]
              ++ RootFile {| file_name := Example2.lookup_name;
                             excel_file := Raise ReadFailure |} (Raise ReadFailure)
              :: [RootFile {| file_name := Example2.lookup_name;
                              excel_file := Raise ReadFailure |} (Ok Example.query)])
  = (None, [MsgQueryFailed]).
Proof.
  apply (first_lookup_candidate_decides
           [RootDir Example.twice]
           [RootFile {| file_name := Example2.lookup_name;
                        excel_file := Raise ReadFailure |} (Ok Example.query)]
           (RootFile {| file_name := Example2.lookup_name;
                        excel_file := Raise ReadFailure |} (Raise ReadFailure))).
  - intros y [<- | []]. reflexivity.
  - reflexivity.
Defined.

Lemma written_origin (process : folder -> list message * result (option report))
    (folders : list folder) (rep : report) :
  In rep (written (run_folders process folders)) ->
  exists fd msgs, In fd folders /\ process fd = (msgs, Ok (Some rep)).
Proof.
  induction folders as [|fd folders IH]; simpl; [tauto|].
  destruct (process fd) as [msgs [out|e]] eqn:E; simpl; [|tauto].
  destruct out as [rep'|].
  - intros [<- | H].
    + exists fd, msgs. split; [left; reflexivity | exact E].
    + destruct (IH H) as (fd' & msgs' & Hin & E'). exists fd', msgs'.
      split; [right; exact Hin | exact E'].
  - intros H. destruct (IH H) as (fd' & msgs' & Hin & E'). exists fd', msgs'.
    split; [right; exact Hin | exact E'].
Qed.

Lemma run_without_lookup (v : script) (folders : list folder) (rep : report) :
  In rep (written (run_of v None folders)) ->
  ~ In ProductInfo (map fst (report_sheets rep)).
Proof.
  rewrite run_of_eq. intros H. apply written_origin in H.
  destruct H as (fd & msgs & _ & H).
  destruct (report_info_sheets v None fd msgs rep H) as (front & info & Hi & Hs & Hf).
  destruct (info_of_cases v None _ info Hi) as [(-> & _) | (t & _ & Hq & _)];
    [|congruence].
  rewrite Hs, app_nil_r. exact Hf.
Qed.

(** The folders the open-end script works on (line 60). *)
Lemma open_main_run (root_dir : str) (entries : list root_entry) :
  snd (open_main root_dir entries) =
  Open.run (fst (load_query entries))
           (match sub_folders entries with
            | [] => [ {| folder_name := root_dir; listing := root_files entries |} ]
            | fd :: fds => fd :: fds
            end).
Proof.
  unfold open_main. destruct (load_query entries) as [q msgs]. cbn [fst snd].
  destruct (sub_folders entries); reflexivity.
Qed.

(** X22.  When no lookup table is found, or reading it raises, both scripts
    still run over their folders, as without lookup table, and no report
    they write has the sheet '产品信息'. *)
Theorem missing_lookup_means_no_info_sheet
    (root_dir : str) (entries : list root_entry) :
  fst (load_query entries) = None ->
  snd (closed_main entries) = Closed.run None (sub_folders entries) /\
  snd (open_main root_dir entries) =
    Open.run None
             (match sub_folders entries with
              | [] => [ {| folder_name := root_dir; listing := root_files entries |} ]
              | fd :: fds => fd :: fds
              end) /\
  (forall rep,
     In rep (written (snd (closed_main entries))) \/
     In rep (written (snd (open_main root_dir entries))) ->
     ~ In ProductInfo (map fst (report_sheets rep))).
Proof.
  intros Hq.
  assert (Ec : snd (closed_main entries) = Closed.run None (sub_folders entries)).
  { unfold closed_main. destruct (load_query entries) as [q msgs].
    cbn [fst snd] in *. rewrite Hq. reflexivity. }
  pose proof (open_main_run root_dir entries) as Eo. rewrite Hq in Eo.
  split; [exact Ec|]. split; [exact Eo|].
  intros rep [H | H].
  - rewrite Ec in H. apply (run_without_lookup ClosedV13 _ rep H).
  - rewrite Eo in H. apply (run_without_lookup OpenV12 _ rep H).
Qed.

Lemma missing_lookup_means_no_info_sheet_witness :
  fst (load_query Example2.root_broken_lookup) = None /\
  (exists rep,
     In rep (written (snd (closed_main Example2.root_broken_lookup))) /\
     ~ In ProductInfo (map fst (report_sheets rep))) /\
  (exists rep,
     In rep (written (snd (open_main [] Example2.root_broken_lookup))) /\
     ~ In ProductInfo (map fst (report_sheets rep))).
Proof.
  assert (Hq : fst (load_query Example2.root_broken_lookup) = None) by reflexivity.
  destruct (missing_lookup_means_no_info_sheet [] Example2.root_broken_lookup Hq)
    as (_ & _ & Hno).
  split; [exact Hq|]. split.
  - assert (H : exists rep,
               In rep (written (snd (closed_main Example2.root_broken_lookup)))).
    { eexists. vm_compute. left. reflexivity. }
    destruct H as [rep H]. exists rep. split; [exact H|]. apply Hno. left; exact H.
  - assert (H : exists rep,
               In rep (written (snd (open_main [] Example2.root_broken_lookup)))).
    { eexists. vm_compute. left. reflexivity. }
    destruct H as [rep H]. exists rep. split; [exact H|]. apply Hno. right; exact H.
Defined.

(** X23.  In a root directory without sub-folder the closed-end script
    processes nothing, while the open-end script takes the root directory
    itself as its only batch; the lookup workbook, lying there, is then read
    as a product workbook too (unless its name starts with '~$'). *)
Theorem flat_root_directory (root_dir : str) (entries : list root_entry) :
  sub_folders entries = [] ->
  let work := {| folder_name := root_dir; listing := root_files entries |} in
  snd (closed_main entries) = {| printed := []; written := []; crashed := None |} /\
  snd (open_main root_dir entries) = Open.run (fst (load_query entries)) [work] /\
  (forall t name,
     load_query entries = (Some t, [MsgQueryLoaded name]) ->
     startswith name lit_tmp_prefix = false ->
     exists f, file_name f = name /\ In f (Open.excel_files work)).
Proof.
  intros Hsub work. unfold closed_main, open_main. rewrite Hsub.
  split; [destruct (load_query entries); reflexivity|].
  split; [destruct (load_query entries); reflexivity|].
  intros t name. unfold load_query.
  destruct (find (fun e => is_query_file (entry_name e)) entries) as [x|] eqn:E;
    [|discriminate].
  apply find_some in E. destruct E as [Hin Hq].
  destruct x as [f [t'|e]|fd]; try discriminate.
  intros H Htmp. injection H as -> <-. exists f. split; [reflexivity|].
  unfold Open.excel_files. apply filter_In. split.
  - unfold work, root_files. cbn [listing]. apply in_flat_map.
    exists (RootFile f (Ok t)). split; [exact Hin | left; reflexivity].
  - unfold is_query_file in Hq. cbn [entry_name] in Hq.
    apply andb_true_iff in Hq. destruct Hq as [Hq _]. rewrite Hq, Htmp. reflexivity.
Qed.

Lemma flat_root_directory_witness :
  snd (closed_main [RootFile Example.book_old (Raise ReadFailure)])
    = {| printed := []; written := []; crashed := None |}.
Proof.
  apply (flat_root_directory [] [RootFile Example.book_old (Raise ReadFailure)]).
  reflexivity.
Defined.

End Start.

(* ------------------------------------------------------------------ *)
(** ** The comparison chart *)

Section Charts.

Lemma all_ok_Forall2 {A B : Type} (f : A -> result B) (l : list A) :
  forall r, all_ok (map f l) = Ok r -> Forall2 (fun x y => f x = Ok y) l r.
Proof.
  induction l as [|x l IH]; simpl; intros r H.
  - injection H as <-. constructor.
  - destruct (f x) as [y|] eqn:E; [|discriminate].
    destruct (all_ok (map f l)) as [r'|]; [|discriminate].
    simpl in H. injection H as <-. constructor; [exact E | apply IH; reflexivity].
Qed.

Lemma gen_green_length (n : nat) (green : list str) :
  gen_green n = Ok green -> length green = n.
Proof.
  unfold gen_green. intros H. apply all_ok_Forall2, Forall2_length in H.
  rewrite length_seq in H. symmetry. exact H.
Qed.

Lemma Forall2_map_eq {A B C : Type} (R : A -> B -> Prop) (f : A -> C) (g : B -> C)
    (r : list A) (G : list B) :
  Forall2 R r G -> (forall s c, R s c -> f s = g c) -> map f r = map g G.
Proof.
  intros H Hfg. induction H as [|s c r G HR _ IH]; simpl; [reflexivity|].
  rewrite (Hfg s c HR), IH. reflexivity.
Qed.

Lemma map_Ok_Forall2 {A B C : Type} (h : A -> C) (loc : B -> result C)
    (r : list A) :
  forall G : list B,
    map (fun s => Ok (h s)) r = map loc G ->
    Forall2 (fun s c => loc c = Ok (h s)) r G.
Proof.
  induction r as [|s r IH]; intros [|c G] H; simpl in H; try discriminate.
  - constructor.
  - injection H as H1 H2. constructor; [symmetry; exact H1 | apply IH, H2].
Qed.

Lemma Forall2_impl_In {A B : Type} (R R' : A -> B -> Prop) (r : list A) (G : list B) :
  Forall2 R r G -> (forall s c, In c G -> R s c -> R' s c) -> Forall2 R' r G.
Proof.
  induction 1 as [|s c r G HR _ IH]; intros H; constructor.
  - apply H; [left; reflexivity | exact HR].
  - apply IH. intros s' c' Hc'. apply H. right; exact Hc'.
Qed.

(** What one loop of [add_series] calls gives, when every call draws the
    column [loc name] in the colour [color i]. *)
Lemma group_series (sheet : sheet_id) (nrows : nat)
    (color : nat -> result str) (loc : str -> result nat)
    (mk : nat * str -> result series_spec) (G : list str) :
  (forall e s, mk e = Ok s ->
     exists k col, loc (snd e) = Ok k /\ color (fst e) = Ok col /\
                   s = line_series sheet nrows k col) ->
  forall k r,
    all_ok (map mk (combine (seq k (length G)) G)) = Ok r ->
    map (fun s => Ok (ss_color s)) r = map color (seq k (length G)) /\
    map (fun s => Ok (series_column s)) r = map loc G /\
    Forall (fun s =>
              ss_name s = (sheet, O, series_column s) /\
              ss_categories s = (sheet, 1%nat, O, nrows, O) /\
              ss_values s = (sheet, 1%nat, series_column s, nrows, series_column s))
           r.
Proof.
  intros Hmk. induction G as [|c G IH]; intros k r.
  - simpl. intros H. injection H as <-. repeat split. constructor.
  - cbn [length seq combine map all_ok].
    destruct (mk (k, c)) as [s|] eqn:Em; [|discriminate].
    destruct (all_ok _) as [r'|] eqn:Er; cbn [bind]; [|discriminate].
    intros H. injection H as <-.
    destruct (Hmk _ _ Em) as (k' & col & Hloc & Hcol & ->). cbn [fst snd] in *.
    destruct (IH (S k) r' Er) as (H1 & H2 & H3).
    cbn [map ss_color series_column ss_name line_series snd].
    rewrite H1, H2, Hloc, Hcol. repeat split. constructor; [|exact H3]. repeat split.
Qed.

Lemma mem_filter (p : str -> bool) (l : list str) (c : str) :
  In c l -> str_mem c (filter p l) = p c.
Proof.
  intros Hc. destruct (p c) eqn:E.
  - apply str_mem_In, filter_In. split; assumption.
  - apply str_mem_false. intros H. apply filter_In in H. destruct H as [_ H]. congruence.
Qed.

Lemma others_filter (p : str -> bool) (l : list str) :
  filter (fun c => negb (str_mem c (filter p l))) l = filter (fun c => negb (p c)) l.
Proof.
  apply filter_ext_in. intros c Hc. rewrite (mem_filter p l c Hc). reflexivity.
Qed.

Lemma closed_loc_Ok (cols : list str) (c : str) (k : nat) :
  closed_loc cols c = Ok k -> option_map S (label_pos c cols) = Some k.
Proof.
  unfold closed_loc, list_index. destruct (label_pos c cols); simpl; congruence.
Qed.

Lemma open_loc_Ok (label c : str) (names : list str) (k : nat) :
  c <> label ->
  open_loc (label :: names) c = Ok k -> option_map S (label_pos c names) = Some k.
Proof.
  intros Hc. unfold open_loc, get_loc. cbn [label_pos].
  apply str_eqb_neq in Hc. rewrite Hc.
  generalize (is_monotonic_increasing (label :: names)) as m. intros m.
  destruct (length (filter (str_eqb c) (label :: names))) as [|[|n]];
    destruct (label_pos c names) as [j|]; destruct m; simpl; congruence.
Qed.

Lemma list_get_Ok {A : Type} (l : list A) (i : nat) (a : A) :
  list_get l i = Ok a <-> nth_error l i = Some a.
Proof.
  unfold list_get. destruct (nth_error l i); split; congruence.
Qed.

Lemma closed_series_spec (nrows : nat) (palette : nat -> result str) (cols : list str)
    (e : nat * str) (s : series_spec) :
  (idx <- list_index (snd e) cols;;
   color <- palette (fst e);;
   add_series PlotData nrows (Pos (S idx)) color) = Ok s ->
  exists k col, closed_loc cols (snd e) = Ok k /\ palette (fst e) = Ok col /\
                s = line_series PlotData nrows k col.
Proof.
  unfold closed_loc. destruct (list_index (snd e) cols) as [idx|]; [|discriminate].
  cbn [bind]. destruct (palette (fst e)) as [col|]; [|discriminate].
  cbn [bind add_series]. intros H. injection H as <-.
  exists (S idx), col. repeat split.
Qed.

Lemma open_series_spec (sheet : sheet_id) (nrows : nat) (palette : nat -> result str)
    (df : list str) (e : nat * str) (s : series_spec) :
  (idx <- get_loc (snd e) df;;
   color <- palette (fst e);;
   add_series sheet nrows idx color) = Ok s ->
  exists k col, open_loc df (snd e) = Ok k /\ palette (fst e) = Ok col /\
                s = line_series sheet nrows k col.
Proof.
  unfold open_loc. destruct (get_loc (snd e) df) as [idx|]; [|discriminate].
  cbn [bind]. destruct (palette (fst e)) as [col|]; [|discriminate].
  cbn [bind]. destruct idx as [k| |]; cbn [add_series]; try discriminate.
  intros H. injection H as <-. exists k, col. repeat split.
Qed.

Lemma label_pos_nth (c : str) (ls : list str) :
  forall k, label_pos c ls = Some k -> nth_error ls k = Some c.
Proof.
  induction ls as [|c' ls IH]; simpl; intros k H; [discriminate|].
  destruct (str_eqb c c') eqn:E.
  - injection H as <-. apply str_eqb_eq in E. subst. reflexivity.
  - destruct (label_pos c ls) as [k'|]; [|discriminate].
    injection H as <-. simpl. apply IH. reflexivity.
Qed.

(** The two groups of series of a chart, as the scripts build them. *)
Lemma chart_of_inv (v : script) (fab_cols : list str) (sheet : sheet_id)
    (df : frame) (ch : chart) :
  chart_of v fab_cols sheet df = Ok ch ->
  exists green a b,
    gen_green (length (filter (in_reference_group v fab_cols) (labels df)))
      = Ok green /\
    chart_series ch = a ++ b /\
    map (fun s => Ok (ss_color s)) a
      = map (list_get green)
            (seq 0 (length (filter (in_reference_group v fab_cols) (labels df)))) /\
    map (fun s => Ok (ss_color s)) b
      = map (fun i => list_get other_cols (i mod length other_cols))
            (seq 0 (length (filter (fun c => negb (in_reference_group v fab_cols c))
                                   (labels df)))) /\
    Forall2 (fun s c => option_map S (label_pos c (labels df)) = Some (series_column s))
            (a ++ b)
            (filter (in_reference_group v fab_cols) (labels df)
             ++ filter (fun c => negb (in_reference_group v fab_cols c)) (labels df)) /\
    Forall (fun s =>
              ss_name s = (data_sheet v sheet, O, series_column s) /\
              ss_categories s = (data_sheet v sheet, 1%nat, O, length (index df), O) /\
              ss_values s = (data_sheet v sheet, 1%nat, series_column s,
                             length (index df), series_column s))
           (a ++ b).
Proof.
  destruct v; unfold chart_of, Open.plot_chart, in_reference_group, data_sheet;
    intros H;
    match type of H with
    | context [reset_index ?n df] =>
        destruct (reset_index n df) as [cols|] eqn:Er; cbn [bind] in H;
        [|discriminate H];
        destruct (reset_index_inv _ _ _ Er) as (label & -> & Hlabel)
    end.
  - unfold Closed.insert_chart, enumerate in H. cbv zeta in H. cbn [tl] in H.
    rewrite others_filter in H.
    step_in H green. step_in H a. step_in H b. injection H as <-.
    cbn [chart_series]. exists green, a, b.
    match goal with
    | Ha : all_ok _ = Ok a, Hb : all_ok _ = Ok b |- _ =>
        destruct (group_series PlotData (length (index df)) (list_get green)
                    (closed_loc (labels df)) _ _
                    (closed_series_spec _ (list_get green) (labels df)) _ _ Ha)
          as (A1 & A2 & A3);
        destruct (group_series PlotData (length (index df))
                    (fun i => list_get other_cols (i mod length other_cols))
                    (closed_loc (labels df)) _ _
                    (closed_series_spec _
                       (fun i => list_get other_cols (i mod length other_cols))
                       (labels df)) _ _ Hb)
          as (B1 & B2 & B3)
    end.
    split; [first [reflexivity
                  | match goal with Hg : gen_green _ = Ok green |- _ => exact Hg end]|].
    split; [reflexivity|]. split; [exact A1|].
    split; [exact B1|]. split.
    + apply Forall2_app;
        (eapply Forall2_impl_In;
         [apply (map_Ok_Forall2 series_column (closed_loc (labels df))); eassumption|]);
        intros s c _ Hsc; apply closed_loc_Ok, Hsc.
    + apply Forall_app. split; assumption.
  - unfold Open.add_chart, enumerate in H. cbv zeta in H. cbn [tl] in H.
    rewrite others_filter in H.
    step_in H green. step_in H a. step_in H b. injection H as <-.
    cbn [chart_series]. exists green, a, b.
    match goal with
    | Ha : all_ok _ = Ok a, Hb : all_ok _ = Ok b |- _ =>
        destruct (group_series sheet (length (index df)) (list_get green)
                    (open_loc (label :: labels df)) _ _
                    (open_series_spec sheet _ (list_get green) (label :: labels df))
                    _ _ Ha)
          as (A1 & A2 & A3);
        destruct (group_series sheet (length (index df))
                    (fun i => list_get other_cols (i mod length other_cols))
                    (open_loc (label :: labels df)) _ _
                    (open_series_spec sheet _
                       (fun i => list_get other_cols (i mod length other_cols))
                       (label :: labels df)) _ _ Hb)
          as (B1 & B2 & B3)
    end.
    split; [first [reflexivity
                  | match goal with Hg : gen_green _ = Ok green |- _ => exact Hg end]|].
    split; [reflexivity|]. split; [exact A1|].
    split; [exact B1|]. split.
    + apply Forall2_app;
        (eapply Forall2_impl_In;
         [apply (map_Ok_Forall2 series_column (open_loc (label :: labels df)));
          eassumption|]);
        intros s c Hc Hsc; apply filter_In in Hc; destruct Hc as [Hc _];
        (apply (open_loc_Ok label); [congruence | exact Hsc]).
    + apply Forall_app. split; assumption.
Qed.

Lemma partition_Permutation (p : str -> bool) (l : list str) :
  Permutation (filter p l ++ filter (fun c => negb (p c)) l) l.
Proof.
  induction l as [|x l IH]; simpl; [constructor|].
  destruct (p x); simpl.
  - constructor. exact IH.
  - apply Permutation_sym, Permutation_cons_app, Permutation_sym, IH.
Qed.

(** The sheet column of a product label: one place to the right of its
    place among the product columns. *)
Lemma sheet_columns_of_labels (l : list str) :
  NoDup l ->
  map (fun c => option_map S (label_pos c l)) l = map Some (seq 1 (length l)).
Proof.
  induction 1 as [|x l Hx Hnd IH]; [reflexivity|].
  cbn [map length seq label_pos]. rewrite str_eqb_refl. cbn [option_map]. f_equal.
  rewrite <- seq_shift, map_map.
  transitivity (map (fun c => option_map S (option_map S (label_pos c l))) l).
  - apply map_ext_in. intros c Hc.
    destruct (str_eqb c x) eqn:E; [|reflexivity].
    apply str_eqb_eq in E. subst. contradiction.
  - rewrite <- (map_map (fun c => option_map S (label_pos c l)) (option_map S)).
    rewrite IH, map_map. reflexivity.
Qed.

Lemma map_Some_inj {A : Type} (l1 : list A) :
  forall l2, map Some l1 = map Some l2 -> l1 = l2.
Proof.
  induction l1 as [|x l1 IH]; intros [|y l2] H; simpl in H; try discriminate.
  - reflexivity.
  - injection H as -> H. rewrite (IH l2 H). reflexivity.
Qed.

Lemma map_Ok_inj {A : Type} (l1 : list A) :
  forall l2, map (@Ok A) l1 = map (@Ok A) l2 -> l1 = l2.
Proof.
  induction l1 as [|x l1 IH]; intros [|y l2] H; simpl in H; try discriminate.
  - reflexivity.
  - injection H as -> H. rewrite (IH l2 H). reflexivity.
Qed.

(** X24.  The chart draws every product column of its data sheet exactly
    once (the columns carrying pairwise different labels): the sheet
    columns of the series are 1, 2, ... up to the number of products, in
    some order; every series takes its name from the header row, its
    values from all data rows of its column, and its categories from the
    date column. *)
Theorem chart_draws_every_column
    (v : script) (fab_cols : list str) (sheet : sheet_id) (df : frame) (ch : chart) :
  chart_of v fab_cols sheet df = Ok ch ->
  NoDup (labels df) ->
  Permutation (map series_column (chart_series ch)) (seq 1 (length (labels df))) /\
  Forall (fun s =>
            ss_name s = (data_sheet v sheet, O, series_column s) /\
            ss_categories s = (data_sheet v sheet, 1%nat, O, length (index df), O) /\
            ss_values s = (data_sheet v sheet, 1%nat, series_column s,
                           length (index df), series_column s))
         (chart_series ch).
Proof.
  intros Hch Hnd.
  destruct (chart_of_inv v fab_cols sheet df ch Hch)
    as (green & a & b & _ & -> & _ & _ & Hcols & Hshape).
  split; [|exact Hshape].
  apply (Forall2_map_eq _ (fun s => Some (series_column s))
           (fun c => option_map S (label_pos c (labels df)))) in Hcols;
    [|intros s c H; symmetry; exact H].
  pose proof (partition_Permutation (in_reference_group v fab_cols) (labels df)) as Hp.
  apply (Permutation_map (fun c => option_map S (label_pos c (labels df)))) in Hp.
  rewrite <- Hcols, (sheet_columns_of_labels _ Hnd) in Hp.
  rewrite <- (map_map series_column Some) in Hp.
  revert Hp. generalize (map series_column (a ++ b)) as l1.
  generalize (seq 1 (length (labels df))) as l2. intros l2 l1 Hp.
  apply Permutation_map_inv in Hp. destruct Hp as (l3 & E & Hp).
  apply map_Some_inj in E. subst l3. apply Permutation_sym, Hp.
Qed.

Lemma chart_draws_every_column_witness :
  (chart_of OpenV12 [Example.fab_a] RawPlot Example3.plot_indexed
     = Ok Example3.chart_indexed /\
   Permutation (map series_column (chart_series Example3.chart_indexed))
               (seq 1 (length (labels Example3.plot_indexed)))) /\
  (chart_of ClosedV13 [] PlotData Example.plot = Ok Example3.plot_chart /\
   Permutation (map series_column (chart_series Example3.plot_chart))
               (seq 1 (length (labels Example.plot)))).
Proof.
  split.
  - assert (H : chart_of OpenV12 [Example.fab_a] RawPlot Example3.plot_indexed
                = Ok Example3.chart_indexed) by (vm_compute; reflexivity).
    split; [exact H|].
    apply (chart_draws_every_column OpenV12 [Example.fab_a] RawPlot
             Example3.plot_indexed Example3.chart_indexed H).
    apply distinct_NoDup. vm_compute. reflexivity.
  - assert (H : chart_of ClosedV13 [] PlotData Example.plot = Ok Example3.plot_chart)
      by (vm_compute; reflexivity).
    split; [exact H|].
    apply (chart_draws_every_column ClosedV13 [] PlotData Example.plot
             Example3.plot_chart H).
    apply distinct_NoDup. vm_compute. reflexivity.
Defined.

Lemma map_list_get_seq {A : Type} (l : list A) :
  forall pre, map (list_get (pre ++ l)) (seq (length pre) (length l)) = map (@Ok A) l.
Proof.
  induction l as [|x l IH]; intros pre; [reflexivity|].
  cbn [length seq map]. unfold list_get at 1.
  rewrite nth_error_app2, Nat.sub_diag by lia.
  cbn [nth_error]. f_equal.
  specialize (IH (pre ++ [x])). rewrite <- app_assoc, length_app in IH.
  cbn [length app] in IH. rewrite Nat.add_1_r in IH. exact IH.
Qed.

(** X25.  The reference products are drawn first, in the greens of
    [gen_green] (one green per reference product, in column order); the
    other products follow in column order, in the colours of the palette,
    which start again after the eighth. *)
Theorem chart_groups_and_colours
    (v : script) (fab_cols : list str) (sheet : sheet_id) (df : frame) (ch : chart) :
  chart_of v fab_cols sheet df = Ok ch ->
  let ref := filter (in_reference_group v fab_cols) (labels df) in
  let oth := filter (fun c => negb (in_reference_group v fab_cols c)) (labels df) in
  exists green,
    gen_green (length ref) = Ok green /\
    length green = length ref /\
    map (fun s => nth_error (labels df) (series_column s - 1)) (chart_series ch)
      = map Some (ref ++ oth) /\
    map ss_color (chart_series ch)
      = green ++ map (fun i => nth (i mod length other_cols) other_cols [])
                     (seq 0 (length oth)).
Proof.
  intros Hch ref oth.
  destruct (chart_of_inv v fab_cols sheet df ch Hch)
    as (green & a & b & Hg & -> & Ha & Hb & Hcols & _).
  fold ref in Hg, Ha, Hcols. fold oth in Hb, Hcols.
  pose proof (gen_green_length _ _ Hg) as Hlen.
  exists green. split; [exact Hg|]. split; [exact Hlen|]. split.
  - apply (Forall2_map_eq _ _ _ _ _ Hcols). intros s c H.
    destruct (label_pos c (labels df)) as [k|] eqn:Ek; [|discriminate].
    injection H as <-. rewrite Nat.sub_1_r. apply (label_pos_nth _ _ _ Ek).
  - rewrite map_app. f_equal.
    + apply map_Ok_inj. rewrite map_map, Ha, <- Hlen.
      apply (map_list_get_seq green []).
    + apply map_Ok_Forall2 in Hb.
      apply (Forall2_map_eq _ _ _ _ _ Hb). intros s i H.
      symmetry. apply nth_error_nth, list_get_Ok, H.
Qed.

Lemma chart_groups_and_colours_witness :
  chart_of OpenV12 [Example.fab_a] RawPlot Example3.plot_indexed
    = Ok Example3.chart_indexed /\
  exists green,
    gen_green 1 = Ok green /\
    length green = 1%nat /\
    map (fun s => nth_error (labels Example3.plot_indexed) (series_column s - 1))
        (chart_series Example3.chart_indexed)
      = map Some ([Example.fab_a] ++ [lit_index]) /\
    map ss_color (chart_series Example3.chart_indexed)
      = green ++ map (fun i => nth (i mod length other_cols) other_cols []) (seq 0 1).
Proof.
  assert (H : chart_of OpenV12 [Example.fab_a] RawPlot Example3.plot_indexed
              = Ok Example3.chart_indexed) by (vm_compute; reflexivity).
  split; [exact H|].
  exact (chart_groups_and_colours OpenV12 [Example.fab_a] RawPlot
           Example3.plot_indexed Example3.chart_indexed H).
Defined.

End Charts.
